(** * Cosmo-Focus: the timer/session state machine and its statistics

    A shallow embedding of [App.tsx] (the timer engine, the task
    registry handlers and the statistics updates), of the numeric
    inputs of [components/TaskList.tsx] and of [types.ts].

    Conventions of the embedding.
    - A TypeScript [number] is a [number] below: an integer or [NaN],
      which [parseInt] produces on non-numeric text.  A double holds
      every integer up to 2^53 in absolute value, and adds, subtracts
      and multiplies such integers exactly as long as the result stays
      in that range: [JS.add], [JS.sub] and [JS.mul] are these exact
      operations, and the statements that compute with them speak of
      that range.  The countdown is stated for every duration, so its
      [prev - 1] is [JS.sub_rounded], which rounds beyond 2^53 as the
      double does.
    - A string is a string of ASCII characters: [JS.parseInt] and
      [JS.trim] strip the ASCII white space (the other white space of
      JavaScript, such as the no-break space, lies outside ASCII).
    - [getToday()] reads the clock; every handler that calls it takes the
      resulting string as its [today] argument.
    - A React handler runs against the values captured by the render
      that created it (its closure, the [App] argument [c]) and queues
      state updates; functional updates ([setX(prev => ...)]) see the
      pending state, plain ones ([setX(v)]) overwrite it.  Handlers are
      computations in the state monad [M] over a [World]: the React
      state, the audio cues emitted so far and the live interval. *)

From Stdlib Require Import ZArith Bool List String Ascii Lia.
From Stdlib Require DecimalString DecimalPos.
Import ListNotations.
Open Scope string_scope.
Open Scope list_scope.
Open Scope Z_scope.

(* ===================================================================== *)
(** ** JavaScript numbers, truthiness and [parseInt] *)
(* ===================================================================== *)

Module JS.

Inductive number : Type :=
| Num (z : Z)
| NaN.

Definition number_eq_dec (a b : number) : {a = b} + {a <> b}.
Proof. decide equality; apply Z.eq_dec. Defined.

(** [a + b], [a - b], [a * b]: [NaN] is absorbing. *)
Definition add (a b : number) : number :=
  match a, b with
  | Num x, Num y => Num (x + y)
  | _, _ => NaN
  end.

Definition sub (a b : number) : number :=
  match a, b with
  | Num x, Num y => Num (x - y)
  | _, _ => NaN
  end.

Definition mul (a b : number) : number :=
  match a, b with
  | Num x, Num y => Num (x * y)
  | _, _ => NaN
  end.

(** The double nearest to the integer [x], ties going to the even
    significand: [x] itself up to 2^53 in absolute value; beyond,
    neighbouring doubles are [2 ^ e] apart with [e = log2 |x| - 52].
    (The overflow to [Infinity] near 2^1024 is left out.) *)
Definition round53 (x : Z) : Z :=
  let a := Z.abs x in
  if a <=? 2 ^ 53 then x
  else
    let e := Z.log2 a - 52 in
    let q := a / 2 ^ e in
    let r := a mod 2 ^ e in
    let up := if r =? 2 ^ (e - 1) then Z.odd q else 2 ^ (e - 1) <? r in
    Z.sgn x * ((if up then q + 1 else q) * 2 ^ e).

(** [a - b] as the double arithmetic computes it: the exact difference,
    rounded. *)
Definition sub_rounded (a b : number) : number :=
  match sub a b with
  | Num z => Num (round53 z)
  | NaN => NaN
  end.

(** [Math.max(a, b)]: [NaN] as soon as one argument is [NaN]. *)
Definition math_max (a b : number) : number :=
  match a, b with
  | Num x, Num y => Num (Z.max x y)
  | _, _ => NaN
  end.

(** [a === b] on numbers: [NaN] is not equal to itself. *)
Definition strict_eq (a b : number) : bool :=
  match a, b with
  | Num x, Num y => x =? y
  | _, _ => false
  end.

(** [a !== b]. *)
Definition strict_neq (a b : number) : bool :=
  negb (strict_eq a b).

(** [a > b]: every comparison with [NaN] is false. *)
Definition gt (a b : number) : bool :=
  match a, b with
  | Num x, Num y => y <? x
  | _, _ => false
  end.

(** ToBoolean on a number: [0] and [NaN] are falsy. *)
Definition truthy (a : number) : bool :=
  match a with
  | Num x => negb (x =? 0)
  | NaN => false
  end.

(** [a || b] on numbers. *)
Definition or_else (a b : number) : number :=
  if truthy a then a else b.

(** [Object.is] on numbers, the comparison React applies to effect
    dependencies: [NaN] is the same as [NaN]. *)
Definition object_is (a b : number) : bool :=
  if number_eq_dec a b then true else false.

(** ToBoolean on [string | null]: [null] and the empty string are
    falsy. *)
Definition truthy_str (o : option string) : bool :=
  match o with
  | Some s => negb (String.eqb s "")
  | None => false
  end.

(** [x === o] for a string [x] and [o : string | null]. *)
Definition strict_eq_str (x : string) (o : option string) : bool :=
  match o with
  | Some s => String.eqb x s
  | None => false
  end.

(** *** [parseInt(s)] with no radix argument

    White space is the ASCII white space (space, tab, line feed,
    vertical tab, form feed, carriage return), all there is in a string
    of ASCII characters.  The result is the integer the digits denote,
    which is what the double holds up to 2^53. *)

Definition is_space (c : ascii) : bool :=
  let n := nat_of_ascii c in
  ((n =? 32) || (n =? 9) || (n =? 10) || (n =? 11) || (n =? 12)
   || (n =? 13))%nat.

Fixpoint skip_spaces (s : string) : string :=
  match s with
  | String c r => if is_space c then skip_spaces r else s
  | EmptyString => s
  end.

(** Value of [c] as a digit, for radix up to 16. *)
Definition digit_of (c : ascii) : option Z :=
  let n := Z.of_nat (nat_of_ascii c) in
  if (48 <=? n) && (n <=? 57) then Some (n - 48)
  else if (97 <=? n) && (n <=? 102) then Some (n - 87)
  else if (65 <=? n) && (n <=? 70) then Some (n - 55)
  else None.

(** Reads the longest prefix of digits of radix [R], accumulating its
    value; [seen] records that at least one digit was read. *)
Fixpoint digits (R : Z) (s : string) (acc : Z) (seen : bool)
  : option Z :=
  match s with
  | String c r =>
      match digit_of c with
      | Some d => if d <? R then digits R r (acc * R + d) true
                  else if seen then Some acc else None
      | None => if seen then Some acc else None
      end
  | EmptyString => if seen then Some acc else None
  end.

Definition parseInt (input : string) : number :=
  let S := skip_spaces input in
  let (sign, S) :=
    match S with
    | String "-" r => (-1, r)
    | String "+" r => (1, r)
    | _ => (1, S)
    end in
  let (R, S) :=
    match S with
    | String "0" (String "x" r) => (16, r)
    | String "0" (String "X" r) => (16, r)
    | _ => (10, S)
    end in
  match digits R S 0 false with
  | Some v => Num (sign * v)
  | None => NaN
  end.

(** [s.trim()] for a string of ASCII characters: the white space
    stripped is the ASCII one. *)
Fixpoint rev_string (s acc : string) : string :=
  match s with
  | String c r => rev_string r (String c acc)
  | EmptyString => acc
  end.

Definition trim (s : string) : string :=
  rev_string (skip_spaces (rev_string (skip_spaces s) "")) "".

End JS.

Arguments JS.round53 : simpl never.

Abbreviation number := JS.number.
Abbreviation Num := JS.Num.
Abbreviation NaN := JS.NaN.

(* ===================================================================== *)
(** ** Data model ([types.ts]) and application state *)
(* ===================================================================== *)

Inductive TimerMode : Type := POMODORO | BREAK.

Record Task : Type := mkTask {
  id : string;
  title : string;
  isCompleted : bool;
  estimatedPomos : number;
  completedPomos : number;
  durationPerPomo : number;
  date : string
}.

Record DailyStats : Type := mkDailyStats {
  ds_date : string;
  pomodorosCompleted : number;
  minutesFocused : number;
  breaksTaken : number;
  tasksCompleted : number
}.

Record AppSettings : Type := mkSettings {
  pomodoroTime : number;
  breakTime : number;
  dailyGoalPomos : number;
  streak : number;
  lastActiveDate : string
}.

(** The state variables of the [App] component. *)
Record App : Type := mkApp {
  mode : TimerMode;
  timeLeft : number;
  isActive : bool;
  settings : AppSettings;
  tasks : list Task;
  activeTaskId : option string;
  dailyStats : list DailyStats
}.

Inductive Sound : Type := alarm | success | fail.

(** What a handler acts on: the pending React state, the cues passed to
    [playSound] so far (latest first) and whether the interval held by
    [timerRef] is live. *)
Record World : Type := mkWorld {
  app : App;
  played : list Sound;
  interval : bool
}.

Definition DEFAULT_SETTINGS (today : string) : AppSettings :=
  {| pomodoroTime := Num 25; breakTime := Num 5; dailyGoalPomos := Num 8;
     streak := Num 0; lastActiveDate := today |}.

(** The state of a first run: the [useState] initial values and the
    defaults of [useStickyState]. *)
Definition initialApp (today : string) : App :=
  {| mode := POMODORO;
     timeLeft := JS.mul (pomodoroTime (DEFAULT_SETTINGS today)) (Num 60);
     isActive := false;
     settings := DEFAULT_SETTINGS today;
     tasks := [];
     activeTaskId := None;
     dailyStats := [] |}.

(** *** The handler monad *)

Definition M (A : Type) : Type := World -> A * World.

Definition ret {A} (a : A) : M A := fun w => (a, w).

Definition bind {A B} (m : M A) (k : A -> M B) : M B :=
  fun w => let (a, w') := m w in k a w'.

Notation "m ;; k" := (bind m (fun _ => k))
  (at level 61, right associativity).

Definition when (b : bool) (m : M unit) : M unit :=
  if b then m else ret tt.

(** Runs a handler created by the render of [w] on [w]. *)
Definition run (h : App -> M unit) (w : World) : World :=
  snd (h (app w) w).

Definition modify (f : App -> App) : M unit :=
  fun w => (tt, {| app := f (app w); played := played w;
                   interval := interval w |}).

(** The state setters; each [setX] takes the updater [prev => ...], and
    a plain [setX(v)] is [setX (fun _ => v)]. *)
Definition setMode (f : TimerMode -> TimerMode) : M unit :=
  modify (fun a => {| mode := f (mode a); timeLeft := timeLeft a;
    isActive := isActive a; settings := settings a; tasks := tasks a;
    activeTaskId := activeTaskId a; dailyStats := dailyStats a |}).

Definition setTimeLeft (f : number -> number) : M unit :=
  modify (fun a => {| mode := mode a; timeLeft := f (timeLeft a);
    isActive := isActive a; settings := settings a; tasks := tasks a;
    activeTaskId := activeTaskId a; dailyStats := dailyStats a |}).

Definition setIsActive (f : bool -> bool) : M unit :=
  modify (fun a => {| mode := mode a; timeLeft := timeLeft a;
    isActive := f (isActive a); settings := settings a; tasks := tasks a;
    activeTaskId := activeTaskId a; dailyStats := dailyStats a |}).

Definition setSettings (f : AppSettings -> AppSettings) : M unit :=
  modify (fun a => {| mode := mode a; timeLeft := timeLeft a;
    isActive := isActive a; settings := f (settings a); tasks := tasks a;
    activeTaskId := activeTaskId a; dailyStats := dailyStats a |}).

Definition setTasks (f : list Task -> list Task) : M unit :=
  modify (fun a => {| mode := mode a; timeLeft := timeLeft a;
    isActive := isActive a; settings := settings a; tasks := f (tasks a);
    activeTaskId := activeTaskId a; dailyStats := dailyStats a |}).

Definition setActiveTaskId (f : option string -> option string) : M unit :=
  modify (fun a => {| mode := mode a; timeLeft := timeLeft a;
    isActive := isActive a; settings := settings a; tasks := tasks a;
    activeTaskId := f (activeTaskId a); dailyStats := dailyStats a |}).

Definition setDailyStats (f : list DailyStats -> list DailyStats)
  : M unit :=
  modify (fun a => {| mode := mode a; timeLeft := timeLeft a;
    isActive := isActive a; settings := settings a; tasks := tasks a;
    activeTaskId := activeTaskId a; dailyStats := f (dailyStats a) |}).

Definition playSound (type : Sound) : M unit :=
  fun w => (tt, {| app := app w; played := type :: played w;
                   interval := interval w |}).

(** [timerRef.current = setInterval(...)] and [clearInterval]. *)
Definition setInterval : M unit :=
  fun w => (tt, {| app := app w; played := played w; interval := true |}).

Definition clearInterval : M unit :=
  fun w => (tt, {| app := app w; played := played w; interval := false |}).

(* ===================================================================== *)
(** ** Handlers of [App.tsx] *)
(* ===================================================================== *)

(** [tasks.find(t => t.id === activeTaskId)] *)
Definition findTask (i : option string) (ts : list Task) : option Task :=
  find (fun t => JS.strict_eq_str (id t) i) ts.

Definition resetTimerToMode (c : App) (targetMode : TimerMode) : M unit :=
  let activeTask := findTask (activeTaskId c) (tasks c) in
  match targetMode with
  | POMODORO =>
      match activeTask with
      | Some t =>
          setTimeLeft (fun _ => JS.mul (durationPerPomo t) (Num 60))
      | None =>
          setTimeLeft (fun _ => JS.mul (pomodoroTime (settings c)) (Num 60))
      end
  | BREAK =>
      setTimeLeft (fun _ => JS.mul (breakTime (settings c)) (Num 60))
  end.

Definition switchMode (c : App) (newMode : TimerMode) : M unit :=
  setMode (fun _ => newMode) ;;
  setIsActive (fun _ => false) ;;
  resetTimerToMode c newMode.

(** The expression
    [activeTaskId ? tasks.find(t => t.id === activeTaskId)?.durationPerPomo
                    || settings.pomodoroTime : settings.pomodoroTime],
    which [handleTimerComplete] and [resetTimer] both evaluate. *)
Definition focusMinutes (c : App) : number :=
  if JS.truthy_str (activeTaskId c) then
    match findTask (activeTaskId c) (tasks c) with
    | Some t => JS.or_else (durationPerPomo t) (pomodoroTime (settings c))
    | None => pomodoroTime (settings c)
    end
  else pomodoroTime (settings c).

(** [{ ...t, completedPomos: t.completedPomos + 1 }] *)
Definition withCompletedPomos (t : Task) (n : number) : Task :=
  {| id := id t; title := title t; isCompleted := isCompleted t;
     estimatedPomos := estimatedPomos t; completedPomos := n;
     durationPerPomo := durationPerPomo t; date := date t |}.

Definition creditFocus (minutes : number) (day : DailyStats) : DailyStats :=
  {| ds_date := ds_date day;
     pomodorosCompleted := JS.add (pomodorosCompleted day) (Num 1);
     minutesFocused := JS.add (minutesFocused day) minutes;
     breaksTaken := breaksTaken day;
     tasksCompleted := tasksCompleted day |}.

Definition creditBreak (day : DailyStats) : DailyStats :=
  {| ds_date := ds_date day;
     pomodorosCompleted := pomodorosCompleted day;
     minutesFocused := minutesFocused day;
     breaksTaken := JS.add (breaksTaken day) (Num 1);
     tasksCompleted := tasksCompleted day |}.

Definition handleTimerComplete (today : string) (c : App) : M unit :=
  setIsActive (fun _ => false) ;;
  playSound alarm ;;
  match mode c with
  | POMODORO =>
      when (JS.truthy_str (activeTaskId c))
        (setTasks (fun prev => map (fun t =>
           if JS.strict_eq_str (id t) (activeTaskId c)
           then withCompletedPomos t (JS.add (completedPomos t) (Num 1))
           else t) prev)) ;;
      setDailyStats (fun prev => map (fun day =>
        if String.eqb (ds_date day) today
        then creditFocus (focusMinutes c) day
        else day) prev) ;;
      setSettings (fun prev =>
        {| pomodoroTime := pomodoroTime prev; breakTime := breakTime prev;
           dailyGoalPomos := dailyGoalPomos prev;
           streak := JS.add (streak prev) (Num 1);
           lastActiveDate := lastActiveDate prev |}) ;;
      switchMode c BREAK
  | BREAK =>
      setDailyStats (fun prev => map (fun day =>
        if String.eqb (ds_date day) today then creditBreak day else day)
        prev) ;;
      switchMode c POMODORO
  end.

Definition toggleTimer (c : App) : M unit :=
  setIsActive (fun _ => negb (isActive c)).

(** The local constant [currentTotal] of [resetTimer]. *)
Definition currentTotal (c : App) : number :=
  match mode c with
  | POMODORO => JS.mul (focusMinutes c) (Num 60)
  | BREAK => JS.mul (breakTime (settings c)) (Num 60)
  end.

Definition resetTimer (c : App) : M unit :=
  when (isActive c || JS.strict_neq (timeLeft c) (currentTotal c))
    (playSound fail) ;;
  setIsActive (fun _ => false) ;;
  resetTimerToMode c (mode c).

Definition handleBreakChange (c : App) (newMinutes : number) : M unit :=
  setSettings (fun prev =>
    {| pomodoroTime := pomodoroTime prev; breakTime := newMinutes;
       dailyGoalPomos := dailyGoalPomos prev; streak := streak prev;
       lastActiveDate := lastActiveDate prev |}) ;;
  when (match mode c with BREAK => negb (isActive c) | POMODORO => false end)
    (setTimeLeft (fun _ => JS.mul newMinutes (Num 60))).

(** The break-duration input:
    [onChange={(e) => handleBreakChange(Math.max(1, parseInt(e.target.value) || 0))}] *)
Definition onBreakInputChange (value : string) (c : App) : M unit :=
  handleBreakChange c
    (JS.math_max (Num 1) (JS.or_else (JS.parseInt value) (Num 0))).

(** *** Task handlers *)

(** [Omit<Task, 'id' | 'isCompleted' | 'completedPomos'>] *)
Record NewTask : Type := mkNewTask {
  nt_title : string;
  nt_estimatedPomos : number;
  nt_durationPerPomo : number;
  nt_date : string
}.

(** [uuid] is the value of [crypto.randomUUID()]. *)
Definition addTask (uuid : string) (task : NewTask) (c : App) : M unit :=
  let newTask :=
    {| id := uuid; title := nt_title task; isCompleted := false;
       estimatedPomos := nt_estimatedPomos task; completedPomos := Num 0;
       durationPerPomo := nt_durationPerPomo task; date := nt_date task |} in
  setTasks (fun _ => tasks c ++ [newTask]) ;;
  when (negb (JS.truthy_str (activeTaskId c)))
    (setActiveTaskId (fun _ => Some (id newTask))).

Definition deleteTask (i : string) (c : App) : M unit :=
  setTasks (fun _ => filter (fun t => negb (String.eqb (id t) i)) (tasks c)) ;;
  when (JS.strict_eq_str i (activeTaskId c))
    (setActiveTaskId (fun _ => None) ;;
     when (match mode c with POMODORO => negb (isActive c) | BREAK => false end)
       (setTimeLeft (fun _ => JS.mul (pomodoroTime (settings c)) (Num 60)))).

Definition updateTaskDate (i : string) (d : string) (c : App) : M unit :=
  setTasks (fun prev => map (fun t =>
    if String.eqb (id t) i
    then {| id := id t; title := title t; isCompleted := isCompleted t;
            estimatedPomos := estimatedPomos t;
            completedPomos := completedPomos t;
            durationPerPomo := durationPerPomo t; date := d |}
    else t) prev).

Definition updateTaskDuration (i : string) (duration : number) (c : App)
  : M unit :=
  setTasks (fun prev => map (fun t =>
    if String.eqb (id t) i
    then {| id := id t; title := title t; isCompleted := isCompleted t;
            estimatedPomos := estimatedPomos t;
            completedPomos := completedPomos t;
            durationPerPomo := duration; date := date t |}
    else t) prev) ;;
  when (JS.strict_eq_str i (activeTaskId c) && negb (isActive c)
        && match mode c with POMODORO => true | BREAK => false end)
    (setTimeLeft (fun _ => JS.mul duration (Num 60))).

Definition creditTask (newCompletionState : bool) (day : DailyStats)
  : DailyStats :=
  {| ds_date := ds_date day;
     pomodorosCompleted := pomodorosCompleted day;
     minutesFocused := minutesFocused day;
     breaksTaken := breaksTaken day;
     tasksCompleted :=
       JS.math_max (Num 0)
         (JS.add (tasksCompleted day)
                 (if newCompletionState then Num 1 else Num (-1))) |}.

Definition toggleTask (today : string) (i : string) (c : App) : M unit :=
  match find (fun t => String.eqb (id t) i) (tasks c) with
  | None => ret tt
  | Some task =>
      let newCompletionState := negb (isCompleted task) in
      setTasks (fun _ => map (fun t =>
        if String.eqb (id t) i
        then {| id := id t; title := title t;
                isCompleted := newCompletionState;
                estimatedPomos := estimatedPomos t;
                completedPomos := completedPomos t;
                durationPerPomo := durationPerPomo t; date := date t |}
        else t) (tasks c)) ;;
      when newCompletionState (playSound success) ;;
      setDailyStats (fun prev => map (fun day =>
        if String.eqb (ds_date day) today
        then creditTask newCompletionState day
        else day) prev)
  end.

Definition selectTask (i : string) (c : App) : M unit :=
  setActiveTaskId (fun _ => Some i) ;;
  match mode c with
  | POMODORO =>
      setIsActive (fun _ => false) ;;
      match find (fun t => String.eqb (id t) i) (tasks c) with
      | Some task =>
          setTimeLeft (fun _ => JS.mul (durationPerPomo task) (Num 60))
      | None => ret tt
      end
  | BREAK => ret tt
  end.

Definition updatePomos (i : string) (newEstimate : number) (c : App)
  : M unit :=
  setTasks (fun _ => map (fun t =>
    if String.eqb (id t) i
    then {| id := id t; title := title t; isCompleted := isCompleted t;
            estimatedPomos := newEstimate;
            completedPomos := completedPomos t;
            durationPerPomo := durationPerPomo t; date := date t |}
    else t) (tasks c)).

(** *** Dashboard data *)

Definition completedMinutesToday (todayDateStr : string) (c : App)
  : number :=
  fold_left
    (fun acc t => JS.add acc (JS.mul (estimatedPomos t) (durationPerPomo t)))
    (filter (fun t => String.eqb (date t) todayDateStr && isCompleted t)
            (tasks c))
    (Num 0).

(* ===================================================================== *)
(** ** Effects and the one-second tick *)
(* ===================================================================== *)

(** Body of the timer effect, [useEffect(..., [isActive, timeLeft])]. *)
Definition timerEffect (today : string) (c : App) : M unit :=
  if isActive c && JS.gt (timeLeft c) (Num 0) then setInterval
  else if JS.strict_eq (timeLeft c) (Num 0) && isActive c
       then handleTimerComplete today c
       else clearInterval.

(** The cleanup the timer effect returns. *)
Definition timerCleanup : M unit := clearInterval.

(** [useEffect(..., [settings.pomodoroTime, settings.breakTime])] *)
Definition durationEffect (c : App) : M unit :=
  when (negb (isActive c)) (resetTimerToMode c (mode c)).

Definition zeroStats (today : string) : DailyStats :=
  {| ds_date := today; pomodorosCompleted := Num 0; minutesFocused := Num 0;
     breaksTaken := Num 0; tasksCompleted := Num 0 |}.

(** The effect run once at startup, [useEffect(..., [])]. *)
Definition startupEffect (today : string) (c : App) : M unit :=
  when (negb (String.eqb today (lastActiveDate (settings c))))
    (setSettings (fun prev =>
       {| pomodoroTime := pomodoroTime prev; breakTime := breakTime prev;
          dailyGoalPomos := dailyGoalPomos prev; streak := streak prev;
          lastActiveDate := today |})) ;;
  setDailyStats (fun prev =>
    match find (fun s => String.eqb (ds_date s) today) prev with
    | None => prev ++ [zeroStats today]
    | Some _ => prev
    end).

(** Whether the dependency array of an effect differs between two
    renders. *)
Definition timerDepsChanged (p c : App) : bool :=
  negb (Bool.eqb (isActive p) (isActive c)
        && JS.object_is (timeLeft p) (timeLeft c)).

Definition durationDepsChanged (p c : App) : bool :=
  negb (JS.object_is (pomodoroTime (settings p)) (pomodoroTime (settings c))
        && JS.object_is (breakTime (settings p)) (breakTime (settings c))).

(** After a state change from the render [prev] to the pending state of
    [w], React renders again and runs the effects whose dependencies
    changed (the cleanup of the timer effect first); their own updates
    cause a further render, until no dependency changes.  [fuel] bounds
    the number of renders. *)
Fixpoint commit (fuel : nat) (today : string) (prev : App) (w : World)
  : World :=
  match fuel with
  | O => w
  | S fuel' =>
      let c := app w in
      if timerDepsChanged prev c || durationDepsChanged prev c then
        commit fuel' today c
          (snd ((when (timerDepsChanged prev c)
                   (timerCleanup ;; timerEffect today c) ;;
                 when (durationDepsChanged prev c) (durationEffect c)) w))
      else w
  end.

(** A user event: the handler of the current render runs, then React
    commits. *)
Definition dispatch (fuel : nat) (today : string) (h : App -> M unit)
  (w : World) : World :=
  commit fuel today (app w) (run h w).

(** One firing of the interval, [setTimeLeft((prev) => prev - 1)],
    followed by the commit; nothing fires when no interval is live.
    When the update leaves the state as it was, no dependency has
    changed and [commit] runs nothing: React does not render again. *)
Definition tick (fuel : nat) (today : string) (w : World) : World :=
  if interval w
  then commit fuel today (app w)
         (snd (setTimeLeft (fun prev => JS.sub_rounded prev (Num 1)) w))
  else w.

Fixpoint ticks (fuel : nat) (today : string) (n : nat) (w : World)
  : World :=
  match n with
  | O => w
  | S n' => ticks fuel today n' (tick fuel today w)
  end.

Definition Sound_eq_dec (a b : Sound) : {a = b} + {a <> b}.
Proof. decide equality. Defined.

(** Number of Completion transitions taken so far: each call of
    [handleTimerComplete], and nothing else, plays the alarm once. *)
Definition completions (w : World) : nat :=
  count_occ Sound_eq_dec (played w) alarm.

(* ===================================================================== *)
(** ** Numeric inputs of [components/TaskList.tsx] *)
(* ===================================================================== *)

(** The local state of the add-task form. *)
Record TaskForm : Type := mkTaskForm {
  isAdding : bool;
  newTaskTitle : string;
  estPomos : number;
  customDuration : number;
  taskDate : string
}.

Definition initialForm (today : string) : TaskForm :=
  {| isAdding := false; newTaskTitle := ""; estPomos := Num 1;
     customDuration := Num 25; taskDate := today |}.

(** [onChange={(e) => setEstPomos(parseInt(e.target.value))}] *)
Definition onEstPomosChange (value : string) (f : TaskForm) : TaskForm :=
  {| isAdding := isAdding f; newTaskTitle := newTaskTitle f;
     estPomos := JS.parseInt value; customDuration := customDuration f;
     taskDate := taskDate f |}.

(** [onChange={(e) => setCustomDuration(parseInt(e.target.value))}] *)
Definition onCustomDurationChange (value : string) (f : TaskForm)
  : TaskForm :=
  {| isAdding := isAdding f; newTaskTitle := newTaskTitle f;
     estPomos := estPomos f; customDuration := JS.parseInt value;
     taskDate := taskDate f |}.

Definition onTitleChange (value : string) (f : TaskForm) : TaskForm :=
  {| isAdding := isAdding f; newTaskTitle := value;
     estPomos := estPomos f; customDuration := customDuration f;
     taskDate := taskDate f |}.

(** [handleSubmit]: the new form state and the call of [onAddTask], if
    any. *)
Definition handleSubmit (today uuid : string) (f : TaskForm)
  : TaskForm * (App -> M unit) :=
  if String.eqb (JS.trim (newTaskTitle f)) "" then (f, fun _ => ret tt)
  else
    ({| isAdding := false; newTaskTitle := ""; estPomos := Num 1;
        customDuration := customDuration f; taskDate := today |},
     addTask uuid
       {| nt_title := newTaskTitle f; nt_estimatedPomos := estPomos f;
          nt_durationPerPomo := customDuration f; nt_date := taskDate f |}).

(** The estimate input of the quick-edit overlay:
    [onChange={(e) => onUpdatePomos(task.id, parseInt(e.target.value))}] *)
Definition onEditPomosChange (i : string) (value : string) (c : App)
  : M unit :=
  updatePomos i (JS.parseInt value) c.

(** The duration input of the quick-edit overlay:
    [onChange={(e) => onUpdateDuration(task.id, parseInt(e.target.value) || 25)}] *)
Definition onEditDurationChange (i : string) (value : string) (c : App)
  : M unit :=
  updateTaskDuration i (JS.or_else (JS.parseInt value) (Num 25)) c.

(* ===================================================================== *)
(** ** Auxiliary definitions used in the statements *)
(* ===================================================================== *)

(** The tasks after a Focus completion. *)
Definition bumpActive (c : App) (ts : list Task) : list Task :=
  if JS.truthy_str (activeTaskId c)
  then map (fun t =>
         if JS.strict_eq_str (id t) (activeTaskId c)
         then withCompletedPomos t (JS.add (completedPomos t) (Num 1))
         else t) ts
  else ts.

Definition bumpStreak (s : AppSettings) : AppSettings :=
  {| pomodoroTime := pomodoroTime s; breakTime := breakTime s;
     dailyGoalPomos := dailyGoalPomos s;
     streak := JS.add (streak s) (Num 1);
     lastActiveDate := lastActiveDate s |}.

(** [w] with [remaining] set to [x]. *)
Definition withTimeLeft (x : number) (w : World) : World :=
  snd (setTimeLeft (fun _ => x) w).

(** The world reached when the countdown of [w] runs out: the Completion
    transition taken from [w] with [remaining] at zero, no interval. *)
Definition completedFrom (today : string) (w : World) : World :=
  {| app := app (run (handleTimerComplete today) (withTimeLeft (Num 0) w));
     played := alarm :: played w;
     interval := false |}.

(** A sample state: one task, selected, and today's record present. *)
Definition sampleToday : string := "2024-05-01".

Definition sampleTask : Task :=
  {| id := "t1"; title := "write"; isCompleted := false;
     estimatedPomos := Num 3; completedPomos := Num 0;
     durationPerPomo := Num 50; date := "2024-05-02" |}.

Definition sampleApp : App :=
  {| mode := POMODORO; timeLeft := Num 3000; isActive := false;
     settings := DEFAULT_SETTINGS sampleToday;
     tasks := [sampleTask]; activeTaskId := Some "t1";
     dailyStats := [zeroStats "2024-04-30"; zeroStats sampleToday] |}.

Definition sampleWorld : World :=
  {| app := sampleApp; played := []; interval := false |}.

(** The sample state, running with [d] seconds left. *)
Definition sampleRunning (d : Z) : World :=
  {| app := {| mode := POMODORO; timeLeft := Num d; isActive := true;
               settings := settings sampleApp; tasks := tasks sampleApp;
               activeTaskId := activeTaskId sampleApp;
               dailyStats := dailyStats sampleApp |};
     played := []; interval := true |}.

(** A duration of 200000000000000 minutes, in seconds: an even multiple
    of the spacing of the doubles beyond 2^53. *)
Definition longDuration : Z := 200000000000000 * 60.

(** The sample state after 200000000000000 has been typed into the
    duration field of the selected task and Start has been pressed. *)
Definition longRunning : World :=
  dispatch 2 sampleToday toggleTimer
    (dispatch 2 sampleToday (onEditDurationChange "t1" "200000000000000")
       sampleWorld).

(** The reading of the countdown for every duration, however long: [d]
    ticks from a Running state with [d] seconds left give exactly one
    Completion. *)
Definition countdown_for_every_duration : Prop :=
  forall (fuel : nat) (today : string) (d : Z) (w : World),
    (2 <= fuel)%nat -> 0 < d ->
    isActive (app w) = true -> timeLeft (app w) = Num d ->
    interval w = true ->
    completions (ticks fuel today (Z.to_nat d) w) = S (completions w).

(** The sample state with the override of the selected task at zero. *)
Definition zeroOverrideWorld : World :=
  {| app := {| mode := POMODORO; timeLeft := Num 0; isActive := false;
               settings := DEFAULT_SETTINGS sampleToday;
               tasks := [ {| id := "t1"; title := "write";
                             isCompleted := false; estimatedPomos := Num 3;
                             completedPomos := Num 0;
                             durationPerPomo := Num 0;
                             date := sampleToday |} ];
               activeTaskId := Some "t1";
               dailyStats := [zeroStats sampleToday] |};
     played := []; interval := false |}.

(** The reading of the minutes credit in which the override of a selected
    task is credited whatever its value, zero included. *)
Definition credit_is_override_for_every_value : Prop :=
  forall (today : string) (w : World) (a : string) (t : Task) (k : nat)
         (day day' : DailyStats),
    mode (app w) = POMODORO ->
    activeTaskId (app w) = Some a ->
    findTask (Some a) (tasks (app w)) = Some t ->
    nth_error (dailyStats (app w)) k = Some day ->
    ds_date day = today ->
    nth_error (dailyStats (app (run (handleTimerComplete today) w))) k
      = Some day' ->
    minutesFocused day' = JS.add (minutesFocused day) (durationPerPomo t).

(** The full duration of the current mode in seconds, by the resolution
    rule of the timer engine: the override of the selected task in Focus
    mode, else [settings.pomodoroTime]; [settings.breakTime] in Break
    mode.  It is the value [resetTimerToMode] gives to [remaining]. *)
Definition fullDuration (c : App) : number :=
  match mode c with
  | POMODORO =>
      match findTask (activeTaskId c) (tasks c) with
      | Some t => JS.mul (durationPerPomo t) (Num 60)
      | None => JS.mul (pomodoroTime (settings c)) (Num 60)
      end
  | BREAK => JS.mul (breakTime (settings c)) (Num 60)
  end.

(** The reading of Reset in which the fail cue is measured against
    [fullDuration]. *)
Definition fail_cue_iff_off_full_duration : Prop :=
  forall w : World,
    played (run resetTimer w) = fail :: played w <->
    (isActive (app w) = true \/
     JS.strict_neq (timeLeft (app w)) (fullDuration (app w)) = true).

(** Sum of [estimatedPomos * durationPerPomo] over the tasks that are
    completed and dated [today], written by recursion on the list. *)
Fixpoint minutesOfCompletedToday (today : string) (ts : list Task)
  : number :=
  match ts with
  | [] => Num 0
  | t :: rest =>
      if String.eqb (date t) today && isCompleted t
      then JS.add (JS.mul (estimatedPomos t) (durationPerPomo t))
                  (minutesOfCompletedToday today rest)
      else minutesOfCompletedToday today rest
  end.

(** [c] with other tasks. *)
Definition withTasks (ts : list Task) (c : App) : App :=
  app (snd (setTasks (fun _ => ts)
              {| app := c; played := []; interval := false |})).

(* ===================================================================== *)
(** ** Text: numbers, dates and the timer display *)
(* ===================================================================== *)

Module Text.

(** [String(a)], also the interpolation of [a] in a template literal:
    the decimal digits of the integer, with a minus sign when negative.
    This is what [String] prints for the integers a double holds
    exactly, up to 2^53 in absolute value; further up it prints the
    shortest digits that identify the double and, from 10^21, an
    exponent. *)
Definition toString (a : number) : string :=
  match a with
  | Num z => DecimalString.NilZero.string_of_int (Z.to_int z)
  | NaN => "NaN"
  end.

Fixpoint fill (n : nat) (c : ascii) (s : string) : string :=
  match n with
  | O => s
  | S n' => String c (fill n' c s)
  end.

(** [s.padStart(targetLength, c)] for a pad string of one character. *)
Definition padStart (targetLength : nat) (c : ascii) (s : string) : string :=
  fill (targetLength - String.length s) c s.

(** [s.split(sep)] for a separator of one character. *)
Fixpoint split (sep : ascii) (s : string) : list string :=
  match s with
  | EmptyString => [""]
  | String c r =>
      if Ascii.eqb c sep then "" :: split sep r
      else match split sep r with
           | p :: ps => String c p :: ps
           | [] => [String c ""]
           end
  end.

(** [a < b] *)
Definition lt (a b : number) : bool :=
  match a, b with
  | Num x, Num y => x <? y
  | _, _ => false
  end.

(** [a % b]: the remainder has the sign of [a]; [NaN] when [b] is 0. *)
Definition rem (a b : number) : number :=
  match a, b with
  | Num x, Num y => if y =? 0 then NaN else Num (Z.rem x y)
  | _, _ => NaN
  end.

(** [Math.floor(a / b)] for a positive integer literal [b]. *)
Definition floor_div (a : number) (b : Z) : number :=
  match a with
  | Num x => Num (x / b)
  | NaN => NaN
  end.

(** An element of the array a [split] returned, interpolated in a
    template literal: a missing one prints as [undefined]. *)
Definition part (parts : list string) (k : nat) : string :=
  nth k parts "undefined".

End Text.

(** The local calendar fields [getToday] reads from [new Date()]. *)
Record LocalDate : Type := mkLocalDate {
  getFullYear : Z;
  getMonth : Z;
  getDate : Z
}.

(** [getToday], of [App.tsx] and of [TaskList.tsx], on the date [d]. *)
Definition getToday (d : LocalDate) : string :=
  let year := getFullYear d in
  let month :=
    Text.padStart 2 "0" (Text.toString (Num (getMonth d + 1))) in
  let day := Text.padStart 2 "0" (Text.toString (Num (getDate d))) in
  (Text.toString (Num year) ++ "-" ++ month ++ "-" ++ day)%string.

Definition formatTime (seconds : number) : string :=
  let m := Text.floor_div seconds 60 in
  let s := Text.rem seconds (Num 60) in
  ((if Text.lt m (Num 10) then "0" else "") ++ Text.toString m ++ ":" ++
   (if Text.lt s (Num 10) then "0" else "") ++ Text.toString s)%string.

(** [formatDateDisplay] of [TaskList.tsx]; [today] is [getToday()]. *)
Definition formatDateDisplay (today : string) (dateStr : string) : string :=
  if String.eqb dateStr today then "Hoje"
  else
    let parts := Text.split "-" dateStr in
    (Text.part parts 2 ++ "/" ++ Text.part parts 1)%string.

(** The [tickFormatter] of the date axis in [StatsChart.tsx]. *)
Definition tickFormatter (value : string) : string :=
  if String.eqb value "" then ""
  else
    let parts := Text.split "-" value in
    if Nat.eqb (List.length parts) 3
    then (Text.part parts 2 ++ "/" ++ Text.part parts 1)%string
    else value.

(** [data.slice(-7)], the records charted. *)
Definition chartData (data : list DailyStats) : list DailyStats :=
  skipn (List.length data - 7) data.

(** *** Decimal numerals, for the statements about text *)

(** Value of the digits [u] read after a prefix of value [acc]. *)
Fixpoint uval (u : Decimal.uint) (acc : Z) : Z :=
  match u with
  | Decimal.Nil => acc
  | Decimal.D0 l => uval l (acc * 10 + 0)
  | Decimal.D1 l => uval l (acc * 10 + 1)
  | Decimal.D2 l => uval l (acc * 10 + 2)
  | Decimal.D3 l => uval l (acc * 10 + 3)
  | Decimal.D4 l => uval l (acc * 10 + 4)
  | Decimal.D5 l => uval l (acc * 10 + 5)
  | Decimal.D6 l => uval l (acc * 10 + 6)
  | Decimal.D7 l => uval l (acc * 10 + 7)
  | Decimal.D8 l => uval l (acc * 10 + 8)
  | Decimal.D9 l => uval l (acc * 10 + 9)
  end.

(** [s] is a non-empty string of decimal digits (leading zeros allowed)
    of value [n]. *)
Definition isNumeral (s : string) (n : Z) : Prop :=
  exists u : Decimal.uint,
    u <> Decimal.Nil /\
    s = DecimalString.NilEmpty.string_of_uint u /\
    uval u 0 = n.

(** [c] is not a decimal digit. *)
Definition notDigit (c : ascii) : Prop :=
  forall u : Decimal.uint,
    DecimalString.uint_of_char c (Some u) = None.

(** A date of the common era, as [new Date()] gives it: month 0 to 11,
    day of the month 1 to 31. *)
Definition validDate (d : LocalDate) : Prop :=
  0 <= getFullYear d /\ 0 <= getMonth d <= 11 /\ 1 <= getDate d <= 31.

(* ===================================================================== *)
(** ** Events *)
(* ===================================================================== *)

(** What can happen to the application: the handlers the JSX binds to
    the controls of [App.tsx] and of [TaskList.tsx], and the firing of
    the interval. *)
Inductive Event : Type :=
| PressStartPause
| PressReset
| PressSkip
| SwitchTo (newMode : TimerMode)
| BreakInput (value : string)
| AddTask (uuid : string) (task : NewTask)
| DeleteTask (i : string)
| SelectTask (i : string)
| ToggleTask (i : string)
| EditPomos (i value : string)
| EditDuration (i value : string)
| EditDate (i d : string)
| Tick.

Definition handlerOf (today : string) (e : Event) : App -> M unit :=
  match e with
  | PressStartPause => toggleTimer
  | PressReset => resetTimer
  | PressSkip => handleTimerComplete today
  | SwitchTo newMode => fun c => switchMode c newMode
  | BreakInput value => onBreakInputChange value
  | AddTask uuid task => addTask uuid task
  | DeleteTask i => deleteTask i
  | SelectTask i => selectTask i
  | ToggleTask i => toggleTask today i
  | EditPomos i value => onEditPomosChange i value
  | EditDuration i value => onEditDurationChange i value
  | EditDate i d => updateTaskDate i d
  | Tick => fun _ => ret tt
  end.

(** One event, with the commit that follows it. *)
Definition step (fuel : nat) (today : string) (e : Event) (w : World)
  : World :=
  match e with
  | Tick => tick fuel today w
  | _ => dispatch fuel today (handlerOf today e) w
  end.

(** What the environment guarantees of an event: [crypto.randomUUID()]
    returns an id no task carries, and a row is selected through the id
    of the task it renders. *)
Definition admissible (e : Event) (c : App) : Prop :=
  match e with
  | AddTask uuid _ => ~ In uuid (map id (tasks c))
  | SelectTask i => In i (map id (tasks c))
  | _ => True
  end.

(** *** Invariants *)

Definition uniqueIds (c : App) : Prop := NoDup (map id (tasks c)).

Definition activeNamesTask (c : App) : Prop :=
  forall a : string, activeTaskId c = Some a -> In a (map id (tasks c)).

Definition uniqueDates (c : App) : Prop :=
  NoDup (map ds_date (dailyStats c)).

Definition isCount (a : number) : Prop := exists n : Z, a = Num n /\ 0 <= n.

Definition countersOk (c : App) : Prop :=
  (forall t, In t (tasks c) -> isCount (completedPomos t)) /\
  (forall day, In day (dailyStats c) ->
     isCount (pomodorosCompleted day) /\ isCount (breaksTaken day) /\
     isCount (tasksCompleted day)) /\
  isCount (streak (settings c)).

(** The state after the startup effect of a first run ([localStorage]
    empty). *)
Definition firstRun (today : string) : World :=
  run (startupEffect today)
    {| app := initialApp today; played := []; interval := false |}.

(** The states reached from a first run by admissible events, all on the
    day [today]. *)
Inductive Reachable (fuel : nat) (today : string) : World -> Prop :=
| reach_first : Reachable fuel today (firstRun today)
| reach_step (e : Event) (w : World) :
    Reachable fuel today w ->
    admissible e (app w) ->
    Reachable fuel today (step fuel today e w).

(** *** The timer at rest *)

(** Paused, with [remaining] at the full duration of the mode. *)
Definition pristine (c : App) : Prop :=
  isActive c = false /\ timeLeft c = fullDuration c.

(** The duration in force is a number, and not the override 0 of a
    selected task: in Break mode [settings.breakTime] is a number; in
    Focus mode either no task is selected and [settings.pomodoroTime] is
    a number, or the selected id is not empty and names a task whose
    override is a number other than 0. *)
Definition durationValid (c : App) : Prop :=
  match mode c with
  | BREAK => exists n : Z, breakTime (settings c) = Num n
  | POMODORO =>
      match activeTaskId c with
      | None => exists n : Z, pomodoroTime (settings c) = Num n
      | Some a =>
          a <> "" /\
          exists (t : Task) (n : Z),
            findTask (Some a) (tasks c) = Some t /\
            durationPerPomo t = Num n /\ n <> 0
      end
  end.

(** A sample payload of the add-task form. *)
Definition sampleNewTask : NewTask :=
  {| nt_title := "read"; nt_estimatedPomos := Num 2;
     nt_durationPerPomo := Num 50; nt_date := sampleToday |}.

(* ===================================================================== *)
(** ** Derived figures of [TaskList.tsx] and of the report *)
(* ===================================================================== *)

(** [remainingPomosToday] *)
Definition remainingPomosToday (today : string) (ts : list Task) : number :=
  fold_left
    (fun acc t =>
       JS.add acc
         (JS.math_max (Num 0)
            (JS.sub (estimatedPomos t) (completedPomos t))))
    (filter (fun t => negb (isCompleted t) && String.eqb (date t) today) ts)
    (Num 0).

(** [calculateFinishTime] up to the rendering of the date: [None] where
    the source returns [null], else the minutes it adds to [Date.now()]. *)
Definition calculateFinishTime (today : string) (ts : list Task)
  : option number :=
  let todaysTasks :=
    filter (fun t => negb (isCompleted t) && String.eqb (date t) today) ts in
  if Nat.eqb (List.length todaysTasks) 0 then None
  else
    let totalMinutesRemaining :=
      fold_left
        (fun total task =>
           let remaining :=
             JS.math_max (Num 0)
               (JS.sub (estimatedPomos task) (completedPomos task)) in
           JS.add (JS.add total (JS.mul remaining (durationPerPomo task)))
                  (JS.mul remaining (Num 5)))
        todaysTasks (Num 0) in
    if JS.strict_eq totalMinutesRemaining (Num 0) then None
    else Some totalMinutesRemaining.

(** The totals of the report modal: [dailyStats.reduce(...)]. *)
Definition totalBreaks (ds : list DailyStats) : number :=
  fold_left (fun acc curr => JS.add acc (breaksTaken curr)) ds (Num 0).

Definition totalTasksCompleted (ds : list DailyStats) : number :=
  fold_left
    (fun acc curr => JS.add acc (JS.or_else (tasksCompleted curr) (Num 0)))
    ds (Num 0).

Definition totalMinutesFocused (ds : list DailyStats) : number :=
  fold_left (fun acc curr => JS.add acc (minutesFocused curr)) ds (Num 0).

(** The sum of [g] over [l], from the right. *)
Definition sumR {A : Type} (g : A -> number) (l : list A) : number :=
  fold_right (fun x s => JS.add (g x) s) (Num 0) l.

(** The task counters of the dashboard ([tasksForToday],
    [tasksCountTotal], [tasksCountCompleted]). *)
Definition tasksForToday (todayDateStr : string) (c : App) : list Task :=
  filter (fun t => String.eqb (date t) todayDateStr) (tasks c).

Definition tasksCountTotal (todayDateStr : string) (c : App) : number :=
  Num (Z.of_nat (List.length (tasksForToday todayDateStr c))).

Definition tasksCountCompleted (todayDateStr : string) (c : App) : number :=
  Num (Z.of_nat
         (List.length (filter (fun t => isCompleted t)
                         (tasksForToday todayDateStr c)))).

(** Every character of [s] is an ASCII character (a code below 128):
    the strings on which the white space of JavaScript is the one
    [JS.is_space] tests. *)
Fixpoint asciiOnly (s : string) : bool :=
  match s with
  | EmptyString => true
  | String c r => (N_of_ascii c <? 128)%N && asciiOnly r
  end.

(** Every character of [s] is white space. *)
Fixpoint allSpaces (s : string) : bool :=
  match s with
  | EmptyString => true
  | String c r => JS.is_space c && allSpaces r
  end.

(** The events that neither are nor can start a Completion transition
    and do not toggle a task. *)
Definition quiet (e : Event) : bool :=
  match e with
  | PressSkip | ToggleTask _ | Tick | PressStartPause => false
  | _ => true
  end.

(* ===================================================================== *)
(** ** Basic facts *)
(* ===================================================================== *)

Lemma object_is_refl (a : number) : JS.object_is a a = true.
Proof. unfold JS.object_is. destruct (JS.number_eq_dec a a); congruence. Qed.

Lemma object_is_Num (x y : Z) :
  JS.object_is (Num x) (Num y) = (x =? y).
Proof.
  unfold JS.object_is.
  destruct (JS.number_eq_dec (Num x) (Num y)) as [E | E].
  - inversion E. symmetry. apply Z.eqb_refl.
  - symmetry. apply Z.eqb_neq. congruence.
Qed.

(** Up to 2^53 the subtraction of the doubles is the exact one. *)
Lemma round53_exact (x : Z) : Z.abs x <= 2 ^ 53 -> JS.round53 x = x.
Proof.
  intros H. unfold JS.round53.
  now destruct (Z.leb_spec (Z.abs x) (2 ^ 53)); [| lia].
Qed.

Lemma sub_rounded_exact (x y : Z) :
  Z.abs (x - y) <= 2 ^ 53 ->
  JS.sub_rounded (Num x) (Num y) = Num (x - y).
Proof.
  intros H. unfold JS.sub_rounded. cbn [JS.sub].
  now rewrite round53_exact.
Qed.

Lemma timerDepsChanged_refl (c : App) : timerDepsChanged c c = false.
Proof.
  unfold timerDepsChanged.
  now rewrite Bool.eqb_reflx, object_is_refl.
Qed.

Lemma durationDepsChanged_refl (c : App) : durationDepsChanged c c = false.
Proof.
  unfold durationDepsChanged. now rewrite !object_is_refl.
Qed.

(** A commit with nothing changed runs no effect. *)
Lemma commit_stable (fuel : nat) (today : string) (w : World) :
  commit fuel today (app w) w = w.
Proof.
  destruct fuel as [| fuel]; simpl; [reflexivity |].
  now rewrite timerDepsChanged_refl, durationDepsChanged_refl.
Qed.

Ltac unfold_handlers :=
  unfold run, handleTimerComplete, resetTimer, switchMode, resetTimerToMode,
    toggleTask, startupEffect, timerEffect, timerCleanup, durationEffect,
    handleBreakChange, updatePomos, updateTaskDuration, selectTask,
    addTask, deleteTask, toggleTimer,
    when, bind, ret, setMode, setTimeLeft, setIsActive, setSettings,
    setTasks, setActiveTaskId, setDailyStats, playSound, setInterval,
    clearInterval, modify in *.


(** The whole effect of [handleTimerComplete] in Focus mode. *)
Lemma handleTimerComplete_focus (today : string) (w : World) :
  mode (app w) = POMODORO ->
  run (handleTimerComplete today) w =
  {| app :=
       {| mode := BREAK;
          timeLeft := JS.mul (breakTime (settings (app w))) (Num 60);
          isActive := false;
          settings := bumpStreak (settings (app w));
          tasks := bumpActive (app w) (tasks (app w));
          activeTaskId := activeTaskId (app w);
          dailyStats :=
            map (fun day =>
                   if String.eqb (ds_date day) today
                   then creditFocus (focusMinutes (app w)) day
                   else day) (dailyStats (app w)) |};
     played := alarm :: played w;
     interval := interval w |}.
Proof.
  destruct w as [[m tl ia st ts aid ds] pl iv]; simpl; intros ->.
  unfold_handlers; unfold bumpActive; simpl.
  destruct (JS.truthy_str aid); reflexivity.
Qed.

(** The whole effect of [handleTimerComplete] in Break mode. *)
Lemma handleTimerComplete_break (today : string) (w : World) :
  mode (app w) = BREAK ->
  run (handleTimerComplete today) w =
  {| app :=
       {| mode := POMODORO;
          timeLeft :=
            match findTask (activeTaskId (app w)) (tasks (app w)) with
            | Some t => JS.mul (durationPerPomo t) (Num 60)
            | None => JS.mul (pomodoroTime (settings (app w))) (Num 60)
            end;
          isActive := false;
          settings := settings (app w);
          tasks := tasks (app w);
          activeTaskId := activeTaskId (app w);
          dailyStats :=
            map (fun day =>
                   if String.eqb (ds_date day) today
                   then creditBreak day
                   else day) (dailyStats (app w)) |};
     played := alarm :: played w;
     interval := interval w |}.
Proof.
  destruct w as [[m tl ia st ts aid ds] pl iv]; simpl; intros ->.
  unfold_handlers; simpl.
  destruct (findTask aid ts); reflexivity.
Qed.

(** With the timer stopped and no duration setting changed, a commit
    changes nothing but the interval, which the timer effect clears when
    its dependencies changed. *)
Lemma commit_idle (fuel : nat) (today : string) (prev : App) (w : World) :
  isActive (app w) = false ->
  durationDepsChanged prev (app w) = false ->
  commit fuel today prev w =
  {| app := app w; played := played w;
     interval := if timerDepsChanged prev (app w) && negb (Nat.eqb fuel 0)
                 then false else interval w |}.
Proof.
  intros Hia Hd.
  destruct fuel as [| fuel]; simpl.
  - rewrite andb_false_r. now destruct w.
  - rewrite Hd, orb_false_r, andb_true_r.
    destruct (timerDepsChanged prev (app w)); [| now destruct w].
    unfold_handlers. rewrite Hia. simpl. rewrite andb_false_r. simpl.
    match goal with |- commit _ _ _ ?w' = _ =>
      change (app w) with (app w') at 1; apply commit_stable end.
Qed.


Lemma withTimeLeft_same (w : World) :
  withTimeLeft (timeLeft (app w)) w = w.
Proof. now destruct w as [[m tl ia st ts aid ds] pl iv]. Qed.

(** A tick with more than one second left, and no more than a double
    counts exactly, only decrements. *)
Lemma tick_running (fuel : nat) (today : string) (d : Z) (w : World) :
  1 < d -> d <= 2 ^ 53 ->
  isActive (app w) = true -> timeLeft (app w) = Num d -> interval w = true ->
  tick fuel today w = withTimeLeft (Num (d - 1)) w.
Proof.
  intros Hd Hmax Hia Htl Hiv.
  unfold tick. rewrite Hiv.
  destruct w as [[m tl ia st ts aid ds] pl iv]; simpl in *; subst.
  unfold setTimeLeft, modify; cbn [app timeLeft snd].
  rewrite sub_rounded_exact by lia.
  destruct fuel as [| fuel]; simpl; [reflexivity |].
  unfold timerDepsChanged, durationDepsChanged; simpl.
  rewrite !object_is_refl, object_is_Num.
  replace (d =? d - 1) with false by (symmetry; apply Z.eqb_neq; lia).
  simpl. unfold_handlers; simpl.
  replace (0 <? d - 1) with true by (symmetry; apply Z.ltb_lt; lia).
  simpl.
  match goal with |- commit _ _ _ ?w' = _ =>
    change (commit fuel today (app w') w' = w') end.
  apply commit_stable.
Qed.

(** The tick that brings [remaining] to zero performs the Completion
    transition in the same commit, and leaves no interval behind. *)
Lemma tick_last (fuel : nat) (today : string) (w : World) :
  (2 <= fuel)%nat ->
  isActive (app w) = true -> timeLeft (app w) = Num 1 -> interval w = true ->
  tick fuel today w =
  {| app := app (run (handleTimerComplete today) (withTimeLeft (Num 0) w));
     played := alarm :: played w;
     interval := false |}.
Proof.
  intros Hf Hia Htl Hiv.
  unfold tick. rewrite Hiv.
  destruct fuel as [| fuel]; [lia |].
  cbn [commit].
  assert (E : timerDepsChanged (app w)
                (app (snd (setTimeLeft (fun prev => JS.sub_rounded prev (Num 1))
                            w)))
              = true).
  { destruct w as [[m tl ia st ts aid ds] pl iv]; simpl in *; subst.
    reflexivity. }
  assert (E' : durationDepsChanged (app w)
                (app (snd (setTimeLeft (fun prev => JS.sub_rounded prev (Num 1))
                            w)))
              = false).
  { destruct w as [[m tl ia st ts aid ds] pl iv]; simpl in *.
    unfold durationDepsChanged; simpl. now rewrite !object_is_refl. }
  rewrite E, E'. cbn [orb].
  set (w0 := {| app := app (withTimeLeft (Num 0) w); played := played w;
                interval := false |}).
  match goal with |- commit _ _ ?c ?w' = _ =>
    assert (Hc : c = app w0)
      by (destruct w as [[m tl ia st ts aid ds] pl iv]; simpl in *; subst;
          reflexivity);
    assert (Hw : w' = run (handleTimerComplete today) w0)
      by (destruct w as [[m tl ia st ts aid ds] pl iv]; simpl in *; subst;
          destruct m; unfold_handlers; simpl; unfold_handlers; simpl;
          [destruct (JS.truthy_str aid) | destruct (findTask aid ts)];
          reflexivity);
    rewrite Hw, Hc
  end.
  assert (Hrun : run (handleTimerComplete today) w0 =
                 {| app := app (run (handleTimerComplete today)
                                    (withTimeLeft (Num 0) w));
                    played := alarm :: played w; interval := false |}).
  { destruct (mode (app w0)) eqn:Em.
    - rewrite !handleTimerComplete_focus by exact Em. reflexivity.
    - rewrite !handleTimerComplete_break by exact Em. reflexivity. }
  rewrite commit_idle.
  - rewrite Hrun. simpl.
    destruct (_ && _); reflexivity.
  - rewrite Hrun. simpl.
    destruct (mode (app (withTimeLeft (Num 0) w))) eqn:Em.
    + now rewrite handleTimerComplete_focus.
    + now rewrite handleTimerComplete_break.
  - destruct (mode (app w0)) eqn:Em.
    + rewrite handleTimerComplete_focus by exact Em.
      unfold durationDepsChanged; simpl. now rewrite !object_is_refl.
    + rewrite handleTimerComplete_break by exact Em.
      unfold durationDepsChanged; simpl. now rewrite !object_is_refl.
Qed.

(** Without a live interval nothing ticks. *)
Lemma ticks_idle (fuel : nat) (today : string) (n : nat) (w : World) :
  interval w = false -> ticks fuel today n w = w.
Proof.
  intros H. induction n as [| n IH]; simpl; [reflexivity |].
  unfold tick. now rewrite H.
Qed.

(** A tick that changes nothing is followed by ticks that change
    nothing. *)
Lemma ticks_fixed (fuel : nat) (today : string) (w : World) :
  tick fuel today w = w -> forall n : nat, ticks fuel today n w = w.
Proof.
  intros H n. induction n as [| n IH]; cbn [ticks]; [reflexivity |].
  now rewrite H.
Qed.

Lemma ticks_add (fuel : nat) (today : string) (n m : nat) (w : World) :
  ticks fuel today (n + m) w = ticks fuel today m (ticks fuel today n w).
Proof.
  revert w. induction n as [| n IH]; intros w; simpl; [reflexivity |].
  apply IH.
Qed.

(** [k] ticks with more than [k] seconds left only decrement. *)
Lemma ticks_running (fuel : nat) (today : string) (k : nat) :
  forall (d : Z) (w : World),
  Z.of_nat k < d -> d <= 2 ^ 53 ->
  isActive (app w) = true -> timeLeft (app w) = Num d -> interval w = true ->
  ticks fuel today k w = withTimeLeft (Num (d - Z.of_nat k)) w.
Proof.
  induction k as [| k IH]; intros d w Hk Hmax Hia Htl Hiv.
  - simpl. rewrite Z.sub_0_r, <- Htl. symmetry. apply withTimeLeft_same.
  - cbn [ticks]. rewrite (tick_running fuel today d) by (auto; lia).
    rewrite (IH (d - 1)).
    + destruct w as [[m tl ia st ts aid ds] pl iv]; unfold withTimeLeft;
        simpl. do 3 f_equal. lia.
    + lia.
    + lia.
    + destruct w as [[m tl ia st ts aid ds] pl iv]; exact Hia.
    + destruct w as [[m tl ia st ts aid ds] pl iv]; reflexivity.
    + destruct w as [[m tl ia st ts aid ds] pl iv]; exact Hiv.
Qed.

(** Start: from a paused timer with time left, [toggleTimer] and the
    commit that follows give a Running state with a live interval. *)
Lemma start_runs (fuel : nat) (today : string) (d : Z) (w : World) :
  (1 <= fuel)%nat -> 0 < d ->
  isActive (app w) = false -> timeLeft (app w) = Num d ->
  dispatch fuel today toggleTimer w =
  {| app := app (snd (setIsActive (fun _ => true) w));
     played := played w;
     interval := true |}.
Proof.
  intros Hf Hd Hia Htl.
  destruct fuel as [| fuel]; [lia |].
  destruct w as [[m tl ia st ts aid ds] pl iv]; simpl in *; subst.
  unfold dispatch, run, toggleTimer. unfold_handlers. simpl.
  unfold timerDepsChanged, durationDepsChanged; simpl.
  rewrite !object_is_refl. simpl.
  unfold_handlers; simpl.
  replace (0 <? d) with true by (symmetry; apply Z.ltb_lt; lia).
  simpl.
  match goal with |- commit _ _ _ ?w' = _ =>
    change (commit fuel today (app w') w' = w') end.
  apply commit_stable.
Qed.

Example start_sample :
  dispatch 2 sampleToday toggleTimer (withTimeLeft (Num 3) sampleWorld)
  = sampleRunning 3.
Proof. reflexivity. Qed.

(* ===================================================================== *)
(** ** The countdown *)
(* ===================================================================== *)


(** C1, for every duration, fails: a double cannot count down from
    beyond 2^53.  With 200000000000000 minutes on the clock [prev - 1]
    rounds back to [prev], so the tick changes nothing, the timer effect
    does not run again, and no number of ticks reaches a Completion. *)
Lemma countdown_for_every_duration_fails :
  ~ countdown_for_every_duration.
Proof.
  intros H.
  assert (Hfix : tick 2 sampleToday longRunning = longRunning)
    by (vm_compute; reflexivity).
  specialize (H 2%nat sampleToday longDuration longRunning
                (le_n 2) eq_refl eq_refl eq_refl eq_refl).
  rewrite (ticks_fixed _ _ _ Hfix) in H.
  vm_compute in H. discriminate H.
Qed.

(** The same state and tick, evaluated: the timer is running with an
    interval, [prev - 1] is [prev], and the tick leaves everything as it
    was; at 2^53 the subtraction is still exact. *)
Example long_countdown_is_stuck :
  app longRunning
  = {| mode := POMODORO; timeLeft := Num longDuration; isActive := true;
       settings := settings sampleApp;
       tasks := [ {| id := "t1"; title := "write"; isCompleted := false;
                     estimatedPomos := Num 3; completedPomos := Num 0;
                     durationPerPomo := Num 200000000000000;
                     date := "2024-05-02" |} ];
       activeTaskId := Some "t1"; dailyStats := dailyStats sampleApp |} /\
  interval longRunning = true /\
  JS.sub_rounded (Num longDuration) (Num 1) = Num longDuration /\
  tick 2 sampleToday longRunning = longRunning /\
  JS.sub_rounded (Num (2 ^ 53)) (Num 1) = Num (2 ^ 53 - 1).
Proof. repeat (split; [vm_compute; reflexivity |]). reflexivity. Qed.

(** C1, amended. From a Running state with [remaining = d], where
    [0 < d <= 2 ^ 53], each of the first [d - 1] ticks only decrements
    [remaining] by one (the timer keeps running and no Completion
    happens); the [d]-th tick brings it to zero and performs the
    Completion transition of [handleTimerComplete] in the same commit;
    however many ticks follow, the number of Completion transitions stays
    exactly one more than before. *)
Theorem countdown_completes_exactly_once
  (fuel : nat) (today : string) (d : Z) (w : World) :
  (2 <= fuel)%nat -> 0 < d -> d <= 2 ^ 53 ->
  isActive (app w) = true -> timeLeft (app w) = Num d -> interval w = true ->
  (forall k : nat, Z.of_nat k < d ->
     ticks fuel today k w = withTimeLeft (Num (d - Z.of_nat k)) w /\
     completions (ticks fuel today k w) = completions w) /\
  ticks fuel today (Z.to_nat d) w = completedFrom today w /\
  completions (ticks fuel today (Z.to_nat d) w) = S (completions w) /\
  (forall n : nat, d <= Z.of_nat n ->
     ticks fuel today n w = completedFrom today w /\
     completions (ticks fuel today n w) = S (completions w)).
Proof.
  intros Hf Hd Hmax Hia Htl Hiv.
  assert (Hrun : forall k : nat, Z.of_nat k < d ->
            ticks fuel today k w = withTimeLeft (Num (d - Z.of_nat k)) w).
  { intros k Hk. now apply ticks_running. }
  assert (Hdone : ticks fuel today (Z.to_nat d) w = completedFrom today w).
  { replace (Z.to_nat d) with (Z.to_nat (d - 1) + 1)%nat by lia.
    rewrite ticks_add, Hrun by lia.
    replace (d - Z.of_nat (Z.to_nat (d - 1))) with 1 by lia.
    cbn [ticks]. rewrite tick_last; auto.
    all: destruct w as [[m tl ia st ts aid ds] pl iv]; simpl in *; auto. }
  assert (Hcount : completions (completedFrom today w) = S (completions w)).
  { unfold completions, completedFrom; simpl.
    destruct (Sound_eq_dec alarm alarm); congruence. }
  assert (Hafter : forall n : nat, d <= Z.of_nat n ->
            ticks fuel today n w = completedFrom today w).
  { intros n Hn.
    replace n with (Z.to_nat d + (n - Z.to_nat d))%nat by lia.
    rewrite ticks_add, Hdone. now apply ticks_idle. }
  repeat split.
  - now apply Hrun.
  - rewrite Hrun by assumption.
    destruct w as [[m tl ia st ts aid ds] pl iv]; reflexivity.
  - exact Hdone.
  - now rewrite Hdone.
  - now apply Hafter.
  - now rewrite Hafter.
Qed.

Lemma countdown_completes_exactly_once_witness :
  completions (ticks 2 sampleToday 3 (sampleRunning 3)) = 1%nat /\
  completions (ticks 2 sampleToday 2 (sampleRunning 3)) = 0%nat /\
  completions (ticks 2 sampleToday 7 (sampleRunning 3)) = 1%nat.
Proof.
  assert (H := countdown_completes_exactly_once 2 sampleToday 3
                 (sampleRunning 3) (le_n 2) eq_refl
                 (fun E : (3 ?= 2 ^ 53) = Gt =>
                    eq_ind Lt (fun c => match c with Gt => False | _ => True
                                        end) I Gt E)
                 eq_refl eq_refl eq_refl).
  destruct H as (Hbefore & _ & Hd & Hafter).
  split; [exact Hd |].
  split; [exact (proj2 (Hbefore 2%nat eq_refl)) |].
  refine (proj2 (Hafter 7%nat _)). discriminate.
Defined.

(* ===================================================================== *)
(** ** Completion transitions *)
(* ===================================================================== *)




Lemma map_update_nth {A : Type} (p : A -> bool) (f : A -> A) (l : list A)
  (k : nat) (x : A) :
  nth_error l k = Some x ->
  nth_error (map (fun a => if p a then f a else a) l) k =
  Some (if p x then f x else x).
Proof.
  intros H. now rewrite nth_error_map, H.
Qed.

Lemma map_update_none {A : Type} (p : A -> bool) (f : A -> A) (l : list A) :
  (forall x, In x l -> p x = false) ->
  map (fun a => if p a then f a else a) l = l.
Proof.
  intros H. induction l as [| x l IH]; simpl; [reflexivity |].
  rewrite (H x) by now left.
  f_equal. apply IH. intros y Hy. apply H. now right.
Qed.

Lemma truthy_str_Some (a : string) :
  JS.truthy_str (Some a) = true <-> a <> "".
Proof.
  simpl. destruct (String.eqb_spec a ""); simpl; split; congruence.
Qed.

(** The three cases of [focusMinutes]. *)
Lemma focusMinutes_override (c : App) (a : string) (t : Task) (n : Z) :
  activeTaskId c = Some a -> a <> "" ->
  findTask (Some a) (tasks c) = Some t ->
  durationPerPomo t = Num n -> n <> 0 ->
  focusMinutes c = Num n.
Proof.
  intros Ha Hne Hf Hd Hn. unfold focusMinutes.
  rewrite Ha, Hf, (proj2 (truthy_str_Some a) Hne), Hd.
  unfold JS.or_else; simpl.
  now destruct (Z.eqb_spec n 0).
Qed.

Lemma focusMinutes_falsy (c : App) (a : string) (t : Task) :
  activeTaskId c = Some a ->
  findTask (Some a) (tasks c) = Some t ->
  JS.truthy (durationPerPomo t) = false ->
  focusMinutes c = pomodoroTime (settings c).
Proof.
  intros Ha Hf Hd. unfold focusMinutes. rewrite Ha, Hf.
  unfold JS.or_else. rewrite Hd. now destruct (JS.truthy_str (Some a)).
Qed.

Lemma focusMinutes_default (c : App) :
  JS.truthy_str (activeTaskId c) = false \/
  findTask (activeTaskId c) (tasks c) = None ->
  focusMinutes c = pomodoroTime (settings c).
Proof.
  unfold focusMinutes. intros [H | H]; rewrite H; [reflexivity |].
  now destruct (JS.truthy_str (activeTaskId c)).
Qed.

(** C3, as stated, fails: with the override of the selected task at 0 a
    Focus completion credits [settings.pomodoroTime] (25) minutes, not 0. *)
Lemma credit_is_override_fails_at_zero :
  ~ credit_is_override_for_every_value.
Proof.
  intros H.
  specialize (H sampleToday zeroOverrideWorld "t1" _ 0%nat _ _
                eq_refl eq_refl eq_refl eq_refl eq_refl eq_refl).
  discriminate H.
Qed.

(** C3, amended. A Focus completion adds to [minutesFocused] of today's
    record the override of the selected task when that override is a
    number other than 0, and [settings.pomodoroTime] when the override is
    0 or NaN, when no task is selected, or when the selected id names no
    task. *)
Theorem focus_completion_minutes
  (today : string) (w : World) (k : nat) (day : DailyStats) :
  mode (app w) = POMODORO ->
  nth_error (dailyStats (app w)) k = Some day ->
  ds_date day = today ->
  exists day' : DailyStats,
    nth_error (dailyStats (app (run (handleTimerComplete today) w))) k
      = Some day' /\
    (forall (a : string) (t : Task) (n : Z),
       activeTaskId (app w) = Some a -> a <> "" ->
       findTask (Some a) (tasks (app w)) = Some t ->
       durationPerPomo t = Num n -> n <> 0 ->
       minutesFocused day' = JS.add (minutesFocused day) (Num n)) /\
    (forall (a : string) (t : Task),
       activeTaskId (app w) = Some a ->
       findTask (Some a) (tasks (app w)) = Some t ->
       durationPerPomo t = Num 0 \/ durationPerPomo t = NaN ->
       minutesFocused day' =
       JS.add (minutesFocused day) (pomodoroTime (settings (app w)))) /\
    (JS.truthy_str (activeTaskId (app w)) = false \/
     findTask (activeTaskId (app w)) (tasks (app w)) = None ->
     minutesFocused day' =
     JS.add (minutesFocused day) (pomodoroTime (settings (app w)))).
Proof.
  intros Hm Hk Hd.
  exists (creditFocus (focusMinutes (app w)) day).
  rewrite handleTimerComplete_focus by exact Hm. cbn [app dailyStats].
  split.
  - rewrite (map_update_nth _ _ _ _ _ Hk).
    now rewrite (proj2 (String.eqb_eq _ _) Hd).
  - cbn [creditFocus minutesFocused]. repeat split.
    + intros a t n Ha Hne Hf Ht Hn.
      now rewrite (focusMinutes_override _ a t n).
    + intros a t Ha Hf Ht.
      rewrite (focusMinutes_falsy _ a t); auto.
      now destruct Ht as [-> | ->].
    + intros H. now rewrite focusMinutes_default.
Qed.

Lemma focus_completion_minutes_witness :
  exists day' : DailyStats,
    nth_error (dailyStats (app (run (handleTimerComplete sampleToday)
                                  sampleWorld))) 1 = Some day' /\
    minutesFocused day' = Num 50.
Proof.
  destruct (focus_completion_minutes sampleToday sampleWorld 1
              (zeroStats sampleToday) eq_refl eq_refl eq_refl)
    as (day' & Hk & Hover & _).
  exists day'. split; [exact Hk |].
  exact (Hover "t1" sampleTask 50 eq_refl ltac:(discriminate) eq_refl
           eq_refl ltac:(discriminate)).
Defined.

(** C6. A Focus completion with a task selected maps over the task list:
    every task carrying the selected id gets [completedPomos + 1] and
    keeps all its other fields, every other task is returned as it was,
    and the list keeps its length and order; with no task selected the
    list is not touched. *)
Theorem focus_completion_bumps_only_active (today : string) (w : World) :
  mode (app w) = POMODORO ->
  let ts := tasks (app w) in
  let ts' := tasks (app (run (handleTimerComplete today) w)) in
  (forall a : string, activeTaskId (app w) = Some a -> a <> "" ->
     List.length ts' = List.length ts /\
     forall (k : nat) (t : Task), nth_error ts k = Some t ->
       (id t = a ->
        nth_error ts' k =
        Some {| id := id t; title := title t; isCompleted := isCompleted t;
                estimatedPomos := estimatedPomos t;
                completedPomos := JS.add (completedPomos t) (Num 1);
                durationPerPomo := durationPerPomo t; date := date t |} /\
        forall n : Z, completedPomos t = Num n ->
          option_map completedPomos (nth_error ts' k) = Some (Num (n + 1)))
       /\
       (id t <> a -> nth_error ts' k = Some t)) /\
  (JS.truthy_str (activeTaskId (app w)) = false -> ts' = ts).
Proof.
  intros Hm ts ts'. subst ts ts'.
  rewrite handleTimerComplete_focus by exact Hm. cbn [app tasks].
  unfold bumpActive. split.
  - intros a Ha Hne.
    rewrite Ha, (proj2 (truthy_str_Some a) Hne).
    split; [apply length_map |].
    intros k t Hk.
    rewrite (map_update_nth _ _ _ _ _ Hk). cbn [JS.strict_eq_str].
    split.
    + intros <-. rewrite String.eqb_refl. split; [reflexivity |].
      intros n Hn. cbn. now rewrite Hn.
    + intros Hid. now rewrite (proj2 (String.eqb_neq _ _) Hid).
  - intros ->. reflexivity.
Qed.

Lemma focus_completion_bumps_only_active_witness :
  tasks (app (run (handleTimerComplete sampleToday) sampleWorld)) =
  [ {| id := "t1"; title := "write"; isCompleted := false;
       estimatedPomos := Num 3; completedPomos := Num 1;
       durationPerPomo := Num 50; date := "2024-05-02" |} ].
Proof.
  destruct (focus_completion_bumps_only_active sampleToday sampleWorld
              eq_refl) as [H _].
  destruct (H "t1" eq_refl ltac:(discriminate)) as [Hlen Hnth].
  destruct (Hnth 0%nat sampleTask eq_refl) as [Hsame _].
  destruct (Hsame eq_refl) as [Hk _].
  destruct (tasks (app (run (handleTimerComplete sampleToday) sampleWorld)))
    as [| t [| t' r]]; try discriminate Hlen.
  injection Hk as ->. reflexivity.
Defined.

(* ===================================================================== *)
(** ** Statistics crediting *)
(* ===================================================================== *)

(** The whole effect of [toggleTask] on a task that is found. *)
Lemma toggleTask_found (today i : string) (t : Task) (w : World) :
  find (fun t => String.eqb (id t) i) (tasks (app w)) = Some t ->
  run (toggleTask today i) w =
  {| app :=
       {| mode := mode (app w);
          timeLeft := timeLeft (app w);
          isActive := isActive (app w);
          settings := settings (app w);
          tasks :=
            map (fun u =>
                   if String.eqb (id u) i
                   then {| id := id u; title := title u;
                           isCompleted := negb (isCompleted t);
                           estimatedPomos := estimatedPomos u;
                           completedPomos := completedPomos u;
                           durationPerPomo := durationPerPomo u;
                           date := date u |}
                   else u) (tasks (app w));
          activeTaskId := activeTaskId (app w);
          dailyStats :=
            map (fun day =>
                   if String.eqb (ds_date day) today
                   then creditTask (negb (isCompleted t)) day
                   else day) (dailyStats (app w)) |};
     played := if negb (isCompleted t) then success :: played w
               else played w;
     interval := interval w |}.
Proof.
  destruct w as [[m tl ia st ts aid ds] pl iv]; simpl; intros H.
  unfold_handlers; simpl. rewrite H. simpl.
  destruct (isCompleted t); reflexivity.
Qed.

(** [toggleTask] on an id that names no task returns at once. *)
Lemma toggleTask_missing (today i : string) (w : World) :
  find (fun t => String.eqb (id t) i) (tasks (app w)) = None ->
  run (toggleTask today i) w = w.
Proof.
  destruct w as [[m tl ia st ts aid ds] pl iv]; simpl; intros H.
  unfold_handlers; simpl. now rewrite H.
Qed.

(** Each crediting handler rewrites [dailyStats] by one [map] that
    touches the records dated today only and keeps their date. *)
Lemma credit_is_map (today : string) (h : App -> M unit) (w : World) :
  h = handleTimerComplete today \/ (exists i, h = toggleTask today i) ->
  exists f : DailyStats -> DailyStats,
    (forall day, ds_date (f day) = ds_date day) /\
    dailyStats (app (run h w)) =
    map (fun day => if String.eqb (ds_date day) today then f day else day)
        (dailyStats (app w)).
Proof.
  intros [-> | [i ->]].
  - destruct (mode (app w)) eqn:Em.
    + exists (creditFocus (focusMinutes (app w))).
      rewrite handleTimerComplete_focus by exact Em. now split.
    + exists creditBreak.
      rewrite handleTimerComplete_break by exact Em. now split.
  - destruct (find (fun t => String.eqb (id t) i) (tasks (app w)))
      as [t |] eqn:Ef.
    + exists (creditTask (negb (isCompleted t))).
      rewrite (toggleTask_found _ _ t) by exact Ef. now split.
    + exists (fun day => day).
      rewrite toggleTask_missing by exact Ef. split; [reflexivity |].
      symmetry. rewrite <- (map_id (dailyStats (app w))) at 2.
      apply map_ext. intros day. now destruct (String.eqb _ _).
Qed.

(** C4. The three statistics-crediting operations (Completion in Focus
    mode, Completion in Break mode, the completion toggle of a task)
    never add, remove, reorder or re-date a Daily Statistic record, and
    leave every record dated otherwise than today as it was; when no
    record is dated today, [dailyStats] is unchanged, so the credit is
    lost. *)
Theorem credit_only_updates_existing_today
  (today : string) (h : App -> M unit) (w : World) :
  h = handleTimerComplete today \/ (exists i, h = toggleTask today i) ->
  let ds := dailyStats (app w) in
  let ds' := dailyStats (app (run h w)) in
  map ds_date ds' = map ds_date ds /\
  List.length ds' = List.length ds /\
  (forall (k : nat) (day : DailyStats),
     nth_error ds k = Some day -> ds_date day <> today ->
     nth_error ds' k = Some day) /\
  ((forall day, In day ds -> ds_date day <> today) -> ds' = ds).
Proof.
  intros Hh ds ds'. subst ds ds'.
  destruct (credit_is_map today h w Hh) as (f & Hf & ->).
  repeat split.
  - rewrite map_map. apply map_ext. intros day.
    now destruct (String.eqb _ _).
  - apply length_map.
  - intros k day Hk Hd. rewrite (map_update_nth _ _ _ _ _ Hk).
    now rewrite (proj2 (String.eqb_neq _ _) Hd).
  - intros Hnone. apply map_update_none.
    intros day Hin. apply String.eqb_neq. now apply Hnone.
Qed.

Lemma credit_only_updates_existing_today_witness :
  dailyStats (app (run (handleTimerComplete "2024-05-03") sampleWorld)) =
  dailyStats sampleApp.
Proof.
  refine (proj2 (proj2 (proj2
    (credit_only_updates_existing_today "2024-05-03"
       (handleTimerComplete "2024-05-03") sampleWorld (or_introl eq_refl))))
    _).
  intros day [<- | [<- | []]]; discriminate.
Defined.

(** C5. Toggling a task of the registry rewrites the record dated today,
    whatever the task's own date: its [tasksCompleted] goes from [n] to
    [n + 1] when the task becomes completed (the counter being
    non-negative) and to [max 0 (n - 1)] when it becomes incomplete; in
    both directions the new counter is non-negative, the date and the
    other counters of the record are kept, the records of other dates are
    left as they were, and the task's flag is flipped. *)
Theorem toggle_credits_today
  (today i : string) (t : Task) (w : World) (k : nat) (day : DailyStats)
  (n : Z) :
  find (fun t => String.eqb (id t) i) (tasks (app w)) = Some t ->
  nth_error (dailyStats (app w)) k = Some day ->
  ds_date day = today ->
  tasksCompleted day = Num n ->
  exists (day' : DailyStats) (n' : Z),
    nth_error (dailyStats (app (run (toggleTask today i) w))) k = Some day' /\
    tasksCompleted day' = Num n' /\ 0 <= n' /\
    (isCompleted t = false -> 0 <= n -> n' = n + 1) /\
    (isCompleted t = true -> n' = Z.max 0 (n - 1)) /\
    ds_date day' = today /\
    pomodorosCompleted day' = pomodorosCompleted day /\
    minutesFocused day' = minutesFocused day /\
    breaksTaken day' = breaksTaken day /\
    (forall (j : nat) (other : DailyStats),
       nth_error (dailyStats (app w)) j = Some other ->
       ds_date other <> today ->
       nth_error (dailyStats (app (run (toggleTask today i) w))) j
       = Some other) /\
    option_map isCompleted
      (find (fun t => String.eqb (id t) i)
            (tasks (app (run (toggleTask today i) w))))
    = Some (negb (isCompleted t)).
Proof.
  intros Hf Hk Hd Hn.
  exists (creditTask (negb (isCompleted t)) day).
  exists (Z.max 0 (n + (if negb (isCompleted t) then 1 else -1))).
  rewrite (toggleTask_found _ _ t) by exact Hf. cbn [app dailyStats tasks].
  split.
  { rewrite (map_update_nth _ _ _ _ _ Hk).
    now rewrite (proj2 (String.eqb_eq _ _) Hd). }
  split.
  { cbn [creditTask tasksCompleted]. rewrite Hn.
    now destruct (isCompleted t). }
  split; [lia |].
  split; [intros -> Hpos; simpl; lia |].
  split; [intros ->; simpl; reflexivity |].
  split; [exact Hd |].
  do 3 (split; [reflexivity |]).
  split.
  { intros j other Hj Ho. rewrite (map_update_nth _ _ _ _ _ Hj).
    now rewrite (proj2 (String.eqb_neq _ _) Ho). }
  clear Hk. induction (tasks (app w)) as [| u ts IH]; [discriminate |].
  simpl in Hf |- *.
  destruct (String.eqb (id u) i) eqn:E; simpl; rewrite E.
  - now injection Hf as ->.
  - now apply IH.
Qed.

Lemma toggle_credits_today_witness :
  exists (day' : DailyStats) (n' : Z),
    nth_error (dailyStats (app (run (toggleTask sampleToday "t1")
                                  sampleWorld))) 1 = Some day' /\
    tasksCompleted day' = Num n' /\ n' = 1.
Proof.
  destruct (toggle_credits_today sampleToday "t1" sampleTask sampleWorld 1
              (zeroStats sampleToday) 0 eq_refl eq_refl eq_refl eq_refl)
    as (day' & n' & Hk & Hn & _ & Hup & _).
  exists day', n'. repeat split; [exact Hk | exact Hn |].
  apply Hup; [reflexivity | discriminate].
Defined.

(* ===================================================================== *)
(** ** Reset *)
(* ===================================================================== *)

Lemma cons_neq_self {A : Type} (x : A) (l : list A) : l <> x :: l.
Proof.
  intros H. apply (f_equal (@List.length A)) in H. simpl in H. lia.
Qed.

(** The whole effect of [resetTimer]. *)
Lemma resetTimer_run (w : World) :
  run resetTimer w =
  {| app :=
       {| mode := mode (app w);
          timeLeft := fullDuration (app w);
          isActive := false;
          settings := settings (app w);
          tasks := tasks (app w);
          activeTaskId := activeTaskId (app w);
          dailyStats := dailyStats (app w) |};
     played :=
       if isActive (app w)
          || JS.strict_neq (timeLeft (app w)) (currentTotal (app w))
       then fail :: played w else played w;
     interval := interval w |}.
Proof.
  destruct w as [[m tl ia st ts aid ds] pl iv].
  unfold_handlers; unfold fullDuration; simpl.
  destruct (ia || _); destruct m; simpl;
    destruct (findTask aid ts); reflexivity.
Qed.

(** [resetTimerToMode] sets [remaining] to [fullDuration]. *)
Lemma resetTimerToMode_fullDuration (c : App) (w : World) :
  timeLeft (app (snd (resetTimerToMode c (mode c) w))) = fullDuration c.
Proof.
  unfold_handlers; unfold fullDuration.
  destruct (mode c); simpl; [destruct (findTask _ _) |]; reflexivity.
Qed.

(** Reset does not measure the fail cue against [fullDuration]: with
    the override of the selected task at 0 the paused timer shows its
    full duration, 0 seconds, and Reset still plays the fail cue, because
    [currentTotal] is 25 * 60. *)
Lemma fail_cue_iff_off_full_duration_fails :
  ~ fail_cue_iff_off_full_duration.
Proof.
  intros H. destruct (H zeroOverrideWorld) as [H1 _].
  destruct (H1 eq_refl) as [H2 | H2]; discriminate H2.
Qed.

(** What [resetTimer] computes.  It plays the fail cue exactly when the
    timer is running or [remaining !== currentTotal]; [currentTotal] is
    [settings.breakTime * 60] in Break mode and, in Focus mode, the
    override of the selected task times 60 when that override is a number
    other than 0, else [settings.pomodoroTime * 60]: the [||] of
    [currentTotal] drops an override of 0 that [resetTimerToMode], which
    sets [remaining], keeps. *)
Lemma reset_fail_cue (w : World) :
  (played (run resetTimer w) = fail :: played w <->
   isActive (app w) = true \/
   JS.strict_neq (timeLeft (app w)) (currentTotal (app w)) = true) /\
  (played (run resetTimer w) = played w <->
   isActive (app w) = false /\
   JS.strict_eq (timeLeft (app w)) (currentTotal (app w)) = true) /\
  (mode (app w) = BREAK ->
   currentTotal (app w) = JS.mul (breakTime (settings (app w))) (Num 60)) /\
  (forall (a : string) (t : Task) (n : Z),
     mode (app w) = POMODORO ->
     activeTaskId (app w) = Some a -> a <> "" ->
     findTask (Some a) (tasks (app w)) = Some t ->
     durationPerPomo t = Num n -> n <> 0 ->
     currentTotal (app w) = Num (n * 60)) /\
  (forall (a : string) (t : Task),
     mode (app w) = POMODORO ->
     activeTaskId (app w) = Some a ->
     findTask (Some a) (tasks (app w)) = Some t ->
     durationPerPomo t = Num 0 \/ durationPerPomo t = NaN ->
     currentTotal (app w)
     = JS.mul (pomodoroTime (settings (app w))) (Num 60)) /\
  (mode (app w) = POMODORO ->
   JS.truthy_str (activeTaskId (app w)) = false \/
   findTask (activeTaskId (app w)) (tasks (app w)) = None ->
   currentTotal (app w)
   = JS.mul (pomodoroTime (settings (app w))) (Num 60)).
Proof.
  rewrite resetTimer_run. cbn [played].
  unfold JS.strict_neq.
  split; [| split; [| repeat split]].
  - destruct (isActive (app w)); simpl.
    + split; auto.
    + destruct (JS.strict_eq _ _); simpl; split; auto.
      * intros H. now apply cons_neq_self in H.
      * intros [H | H]; discriminate.
  - destruct (isActive (app w)); simpl.
    + split; [intros H; symmetry in H; now apply cons_neq_self in H |].
      intros [H _]; discriminate.
    + destruct (JS.strict_eq _ _); simpl; split; auto.
      * intros H; symmetry in H; now apply cons_neq_self in H.
      * intros [_ H]; discriminate.
  - unfold currentTotal. now intros ->.
  - intros a t n Hm Ha Hne Hf Hd Hn. unfold currentTotal. rewrite Hm.
    now rewrite (focusMinutes_override _ a t n).
  - intros a t Hm Ha Hf Hd. unfold currentTotal. rewrite Hm.
    rewrite (focusMinutes_falsy _ a t); auto.
    now destruct Hd as [-> | ->].
  - intros Hm H. unfold currentTotal. rewrite Hm.
    now rewrite focusMinutes_default.
Qed.

(** C8. The code departs from the claim on a pristine, paused timer:
    with the override of the selected task at 0 (the state [selectTask]
    leaves), the timer is paused and [remaining] is the full duration of
    the mode, 0 seconds, the value [resetTimerToMode] gives it; yet Reset
    plays the fail cue, although nothing was running and nothing had
    progressed.  Reset leaves the state as it was, so the next Reset
    plays the cue again. *)
Theorem reset_pristine_zero_override_plays_fail :
  isActive (app zeroOverrideWorld) = false /\
  timeLeft (app zeroOverrideWorld) = fullDuration (app zeroOverrideWorld) /\
  timeLeft (app zeroOverrideWorld)
  = timeLeft (app (snd (resetTimerToMode (app zeroOverrideWorld) POMODORO
                          zeroOverrideWorld))) /\
  currentTotal (app zeroOverrideWorld) = Num 1500 /\
  played (run resetTimer zeroOverrideWorld) = [fail] /\
  app (run resetTimer zeroOverrideWorld) = app zeroOverrideWorld /\
  played (run resetTimer (run resetTimer zeroOverrideWorld)) = [fail; fail].
Proof. repeat split. Qed.

(** The state above is the one [selectTask] leaves, and
    [resetTimerToMode] gives it back: every Reset plays the cue again. *)
Example zero_override_reset_twice :
  app (run (selectTask "t1") (withTimeLeft (Num 1500) zeroOverrideWorld))
  = app zeroOverrideWorld /\
  timeLeft (app zeroOverrideWorld) = fullDuration (app zeroOverrideWorld) /\
  app (run resetTimer zeroOverrideWorld) = app zeroOverrideWorld /\
  played (run resetTimer (run resetTimer zeroOverrideWorld)) = [fail; fail].
Proof. repeat split. Qed.

Example reset_pristine_is_silent :
  played (run resetTimer sampleWorld) = [].
Proof. reflexivity. Qed.

Example reset_running_plays_fail :
  played (run resetTimer (sampleRunning 3000)) = [fail].
Proof. reflexivity. Qed.

(* ===================================================================== *)
(** ** Completed minutes today *)
(* ===================================================================== *)

Lemma add_assoc (a b c : number) :
  JS.add (JS.add a b) c = JS.add a (JS.add b c).
Proof.
  destruct a, b, c; simpl; try reflexivity. f_equal. lia.
Qed.

Lemma add_0_r (a : number) : JS.add a (Num 0) = a.
Proof. destruct a; simpl; [f_equal; lia | reflexivity]. Qed.

(** The [reduce] of the source, started from any accumulator. *)
Lemma reduce_minutes (today : string) (ts : list Task) (acc : number) :
  fold_left
    (fun acc t => JS.add acc (JS.mul (estimatedPomos t) (durationPerPomo t)))
    (filter (fun t => String.eqb (date t) today && isCompleted t) ts) acc
  = JS.add acc (minutesOfCompletedToday today ts).
Proof.
  revert acc. induction ts as [| t ts IH]; intros acc; simpl.
  - symmetry. apply add_0_r.
  - destruct (String.eqb (date t) today && isCompleted t); simpl.
    + rewrite IH. apply add_assoc.
    + apply IH.
Qed.

Lemma minutesOfCompletedToday_completedPomos
  (today : string) (f : Task -> number) (ts : list Task) :
  minutesOfCompletedToday today (map (fun t => withCompletedPomos t (f t)) ts)
  = minutesOfCompletedToday today ts.
Proof.
  induction ts as [| t ts IH]; simpl; [reflexivity |].
  now rewrite IH.
Qed.

(** C9. [completedMinutesToday] is the sum of
    [estimatedPomos * durationPerPomo] over the tasks that are completed
    and dated today: a task that is not completed or dated another day
    adds nothing, one that is both adds its product, and the
    [completedPomos] of the tasks have no influence on the result. *)
Theorem completedMinutesToday_sum (today : string) (c : App) :
  completedMinutesToday today c = minutesOfCompletedToday today (tasks c) /\
  (forall (t : Task) (ts : list Task),
     completedMinutesToday today (withTasks (t :: ts) c) =
     if String.eqb (date t) today && isCompleted t
     then JS.add (JS.mul (estimatedPomos t) (durationPerPomo t))
                 (completedMinutesToday today (withTasks ts c))
     else completedMinutesToday today (withTasks ts c)) /\
  completedMinutesToday today (withTasks [] c) = Num 0 /\
  (forall f : Task -> number,
     completedMinutesToday today
       (withTasks (map (fun t => withCompletedPomos t (f t)) (tasks c)) c)
     = completedMinutesToday today c).
Proof.
  assert (H : forall c', completedMinutesToday today c'
                         = minutesOfCompletedToday today (tasks c')).
  { intros c'. unfold completedMinutesToday. rewrite reduce_minutes.
    now destruct (minutesOfCompletedToday today (tasks c')). }
  repeat split.
  - apply H.
  - intros t ts. rewrite !H. reflexivity.
  - intros f. rewrite !H. cbn [withTasks setTasks modify snd app tasks].
    apply minutesOfCompletedToday_completedPomos.
Qed.

Example completedMinutesToday_75 (done : number) :
  completedMinutesToday sampleToday
    (withTasks
       [ {| id := "a"; title := "done today"; isCompleted := true;
            estimatedPomos := Num 3; completedPomos := done;
            durationPerPomo := Num 25; date := sampleToday |};
         {| id := "b"; title := "open today"; isCompleted := false;
            estimatedPomos := Num 4; completedPomos := Num 4;
            durationPerPomo := Num 25; date := sampleToday |};
         {| id := "c"; title := "done another day"; isCompleted := true;
            estimatedPomos := Num 2; completedPomos := Num 2;
            durationPerPomo := Num 25; date := "2024-04-30" |} ]
       sampleApp)
  = Num 75.
Proof. reflexivity. Qed.

(* ===================================================================== *)
(** ** Startup *)
(* ===================================================================== *)

Lemma find_none_iff (today : string) (ds : list DailyStats) :
  find (fun s => String.eqb (ds_date s) today) ds = None <->
  (forall day, In day ds -> ds_date day <> today).
Proof.
  split.
  - intros H day Hin. apply String.eqb_neq.
    exact (find_none _ _ H day Hin).
  - intros H. induction ds as [| s ds IH]; simpl; [reflexivity |].
    rewrite (proj2 (String.eqb_neq _ _) (H s (or_introl eq_refl))).
    apply IH. intros day Hin. apply H. now right.
Qed.

(** The whole effect of the startup effect. *)
Lemma startupEffect_run (today : string) (w : World) :
  run (startupEffect today) w =
  {| app :=
       {| mode := mode (app w);
          timeLeft := timeLeft (app w);
          isActive := isActive (app w);
          settings :=
            if String.eqb today (lastActiveDate (settings (app w)))
            then settings (app w)
            else {| pomodoroTime := pomodoroTime (settings (app w));
                    breakTime := breakTime (settings (app w));
                    dailyGoalPomos := dailyGoalPomos (settings (app w));
                    streak := streak (settings (app w));
                    lastActiveDate := today |};
          tasks := tasks (app w);
          activeTaskId := activeTaskId (app w);
          dailyStats :=
            match find (fun s => String.eqb (ds_date s) today)
                       (dailyStats (app w)) with
            | None => dailyStats (app w) ++ [zeroStats today]
            | Some _ => dailyStats (app w)
            end |};
     played := played w;
     interval := interval w |}.
Proof.
  destruct w as [[m tl ia st ts aid ds] pl iv].
  unfold_handlers; simpl.
  destruct (String.eqb today (lastActiveDate st)); reflexivity.
Qed.

(** C10. The startup effect leaves [lastActiveDate] equal to today
    (changing nothing else in the settings, and nothing at all when it
    was today already); it appends a record for today with the four
    counters at zero when no record is dated today, and returns
    [dailyStats] as it was when one is; in both cases every record that
    was there is still there, at its place, unmodified. *)
Theorem startup_ensures_today (today : string) (w : World) :
  let st := settings (app w) in
  let st' := settings (app (run (startupEffect today) w)) in
  let ds := dailyStats (app w) in
  let ds' := dailyStats (app (run (startupEffect today) w)) in
  lastActiveDate st' = today /\
  (pomodoroTime st' = pomodoroTime st /\ breakTime st' = breakTime st /\
   dailyGoalPomos st' = dailyGoalPomos st /\ streak st' = streak st) /\
  (lastActiveDate st = today -> st' = st) /\
  ((forall day, In day ds -> ds_date day <> today) ->
   ds' = ds ++ [ {| ds_date := today; pomodorosCompleted := Num 0;
                    minutesFocused := Num 0; breaksTaken := Num 0;
                    tasksCompleted := Num 0 |} ]) /\
  ((exists day, In day ds /\ ds_date day = today) -> ds' = ds) /\
  (forall (k : nat) (day : DailyStats),
     nth_error ds k = Some day -> nth_error ds' k = Some day).
Proof.
  cbv zeta. rewrite startupEffect_run. cbn [app settings dailyStats].
  split; [| split; [| split; [| split; [| split]]]].
  - destruct (String.eqb_spec today (lastActiveDate (settings (app w))));
      [now symmetry | reflexivity].
  - destruct (String.eqb today (lastActiveDate (settings (app w))));
      repeat split; reflexivity.
  - intros ->. now rewrite String.eqb_refl.
  - intros H. now rewrite (proj2 (find_none_iff today _) H).
  - intros (day & Hin & Hd).
    destruct (find _ (dailyStats (app w))) eqn:Ef; [reflexivity |].
    exfalso. exact (proj1 (find_none_iff today _) Ef day Hin Hd).
  - intros k day Hk. destruct (find _ (dailyStats (app w))); [exact Hk |].
    rewrite nth_error_app1; [exact Hk |].
    apply nth_error_Some. congruence.
Qed.

(* ===================================================================== *)
(** ** Numeric inputs *)
(* ===================================================================== *)

Example parseInt_25 : JS.parseInt "25" = Num 25.
Proof. reflexivity. Qed.

Example parseInt_empty : JS.parseInt "" = NaN.
Proof. reflexivity. Qed.

Example parseInt_negative : JS.parseInt "-5" = Num (-5).
Proof. reflexivity. Qed.

Example parseInt_fraction : JS.parseInt " 12.5" = Num 12.
Proof. reflexivity. Qed.

Example parseInt_text : JS.parseInt "abc" = NaN.
Proof. reflexivity. Qed.

Example parseInt_hex : JS.parseInt "0x1f" = Num 31.
Proof. reflexivity. Qed.

(** The break-duration input is guarded: whatever the text, the value
    handed to [handleBreakChange] is a number, at least 1. *)
Lemma break_input_guarded (value : string) (w : World) :
  exists n : Z,
    1 <= n /\
    breakTime (settings (app (run (onBreakInputChange value) w))) = Num n /\
    (mode (app w) = BREAK -> isActive (app w) = false ->
     timeLeft (app (run (onBreakInputChange value) w)) = Num (n * 60)).
Proof.
  destruct w as [[m tl ia st ts aid ds] pl iv].
  unfold onBreakInputChange. unfold_handlers. cbn [app].
  destruct (JS.parseInt value) as [z |]; unfold JS.or_else; simpl.
  - destruct (Z.eqb_spec z 0); simpl.
    + exists 1. split; [lia |].
      destruct m, ia; simpl; split; try reflexivity; discriminate.
    + exists (Z.max 1 z). split; [lia |].
      destruct m, ia; simpl; split; try reflexivity; discriminate.
  - exists 1. split; [lia |].
    destruct m, ia; simpl; split; try reflexivity; discriminate.
Qed.

(** The duration input of the quick-edit overlay is guarded against text
    that is not a number and against 0, not against negative numbers. *)
Lemma edit_duration_guard (value : string) :
  exists n : Z,
    JS.or_else (JS.parseInt value) (Num 25) = Num n /\ n <> 0.
Proof.
  unfold JS.or_else. destruct (JS.parseInt value) as [z |]; simpl.
  - destruct (Z.eqb_spec z 0); simpl; [exists 25 | exists z]; now split.
  - exists 25. now split.
Qed.

(** C7. The inputs that are not guarded, run on concrete text.  Emptying
    the estimate field of the quick-edit overlay stores NaN as the
    task's [estimatedPomos]; typing -5 in its duration field stores -5
    as [durationPerPomo] and sets [remaining] to -300; emptying the
    duration field of the add-task form creates a task whose
    [durationPerPomo] is NaN, and selecting it sets [remaining] to NaN. *)
Theorem unguarded_numeric_inputs :
  map estimatedPomos
      (tasks (app (run (onEditPomosChange "t1" "") sampleWorld))) = [NaN] /\
  (map durationPerPomo
       (tasks (app (run (onEditDurationChange "t1" "-5") sampleWorld)))
   = [Num (-5)] /\
   timeLeft (app (run (onEditDurationChange "t1" "-5") sampleWorld))
   = Num (-300)) /\
  (let form := onCustomDurationChange ""
                 (onTitleChange "read" (initialForm sampleToday)) in
   let w1 := run (snd (handleSubmit sampleToday "u2" form))
               {| app := initialApp sampleToday; played := [];
                  interval := false |} in
   map durationPerPomo (tasks (app w1)) = [NaN] /\
   activeTaskId (app w1) = Some "u2" /\
   timeLeft (app (run (selectTask "u2") w1)) = NaN).
Proof.
  repeat split; reflexivity.
Qed.

(** Two completed tasks toggled off in a row with the counter at 1: the
    counter stops at 0. *)
Example toggled_off_twice_stays_at_zero :
  let done (i : string) : Task :=
    {| id := i; title := i; isCompleted := true; estimatedPomos := Num 1;
       completedPomos := Num 1; durationPerPomo := Num 25;
       date := "2024-04-30" |} in
  let w : World :=
    {| app := {| mode := POMODORO; timeLeft := Num 1500; isActive := false;
                 settings := DEFAULT_SETTINGS sampleToday;
                 tasks := [done "a"; done "b"]; activeTaskId := None;
                 dailyStats :=
                   [ {| ds_date := sampleToday; pomodorosCompleted := Num 2;
                        minutesFocused := Num 50; breaksTaken := Num 1;
                        tasksCompleted := Num 1 |} ] |};
       played := []; interval := false |} in
  map tasksCompleted
    (dailyStats (app (run (toggleTask sampleToday "b")
                        (run (toggleTask sampleToday "a") w))))
  = [Num 0].
Proof. reflexivity. Qed.

(* ===================================================================== *)
(** ** Text rendering *)
(* ===================================================================== *)

Example formatTime_1500 : formatTime (Num 1500) = "25:00".
Proof. reflexivity. Qed.

Example formatTime_59 : formatTime (Num 59) = "00:59".
Proof. reflexivity. Qed.

Example formatTime_negative : formatTime (Num (-300)) = "0-5:00".
Proof. reflexivity. Qed.

Example formatTime_NaN : formatTime NaN = "NaN:NaN".
Proof. reflexivity. Qed.

Example getToday_sample :
  getToday {| getFullYear := 2024; getMonth := 4; getDate := 1 |}
  = "2024-05-01".
Proof. reflexivity. Qed.

Example formatDateDisplay_sample :
  formatDateDisplay "2024-05-01" "2024-04-30" = "30/04".
Proof. reflexivity. Qed.

Example formatDateDisplay_empty :
  formatDateDisplay "2024-05-01" "" = "undefined/undefined".
Proof. reflexivity. Qed.

(** *** Numerals *)

Lemma uval_of_uint_acc (u : Decimal.uint) (p : positive) :
  Z.pos (Pos.of_uint_acc u p) = uval u (Z.pos p).
Proof.
  revert p. induction u; intros p; cbn [Pos.of_uint_acc uval];
    try reflexivity; rewrite IHu; f_equal; lia.
Qed.

Lemma uval_of_uint (u : Decimal.uint) :
  Z.of_N (Pos.of_uint u) = uval u 0.
Proof.
  induction u; cbn [Pos.of_uint uval Z.of_N]; try reflexivity;
    try exact IHu; apply uval_of_uint_acc.
Qed.

Lemma digits_uint (u : Decimal.uint) (acc : Z) :
  JS.digits 10 (DecimalString.NilEmpty.string_of_uint u) acc true
  = Some (uval u acc).
Proof.
  revert acc. induction u; intros acc; simpl; try reflexivity;
    apply IHu.
Qed.

Lemma parseInt_numeral (s : string) (n : Z) :
  isNumeral s n -> JS.parseInt s = Num n.
Proof.
  intros (u & Hu & -> & <-).
  destruct u as [| u | u | u | u | u | u | u | u | u | u];
    try congruence; clear Hu.
  all: destruct u as [| u | u | u | u | u | u | u | u | u | u];
    try reflexivity.
  all: unfold JS.parseInt; simpl; rewrite digits_uint;
    now destruct (uval u _).
Qed.

Lemma nilzero_nonnil (u : Decimal.uint) :
  u <> Decimal.Nil ->
  DecimalString.NilZero.string_of_uint u
  = DecimalString.NilEmpty.string_of_uint u.
Proof. intros H. destruct u; [congruence | reflexivity ..]. Qed.

(** The text of a non-negative integer is a numeral of that value. *)
Lemma toString_numeral (n : Z) :
  0 <= n -> isNumeral (Text.toString (Num n)) n.
Proof.
  intros Hn. destruct n as [| p | p]; [| | lia].
  - exists (Decimal.D0 Decimal.Nil). repeat split. discriminate.
  - exists (Pos.to_uint p). split; [apply DecimalPos.Unsigned.to_uint_nonnil |].
    split.
    + cbn. apply nilzero_nonnil, DecimalPos.Unsigned.to_uint_nonnil.
    + now rewrite <- uval_of_uint, DecimalPos.Unsigned.of_to.
Qed.

Lemma fill_numeral (k : nat) (s : string) (n : Z) :
  isNumeral s n -> isNumeral (Text.fill k "0" s) n.
Proof.
  intros H. induction k as [| k IH]; [exact H |].
  destruct IH as (u & Hu & Hs & Hv).
  exists (Decimal.D0 u). repeat split.
  - discriminate.
  - simpl. now rewrite Hs.
  - exact Hv.
Qed.

Lemma numeral_length_pos (s : string) (n : Z) :
  isNumeral s n -> (1 <= String.length s)%nat.
Proof.
  intros (u & Hu & -> & _). destruct u; simpl; try lia. congruence.
Qed.

(** A numeral of one digit is below 10. *)
Lemma numeral_length_ge_2 (s : string) (n : Z) :
  isNumeral s n -> 10 <= n -> (2 <= String.length s)%nat.
Proof.
  intros (u & Hu & -> & <-) Hn.
  destruct u as [| u | u | u | u | u | u | u | u | u | u]; try congruence.
  all: destruct u; simpl in *; try lia.
Qed.

Lemma digit_neq_sep (sep : ascii) (u : Decimal.uint) (c : ascii) (r : string) :
  notDigit sep ->
  DecimalString.NilEmpty.string_of_uint u = String c r ->
  Ascii.eqb c sep = false.
Proof.
  intros Hsep Hu.
  destruct (Ascii.eqb_spec c sep) as [-> | Hne]; [| reflexivity].
  exfalso.
  destruct u; simpl in Hu; try discriminate; injection Hu as <- _;
    specialize (Hsep Decimal.Nil); discriminate Hsep.
Qed.

(** [split] does not cut inside a run of digits. *)
Lemma split_digits (sep : ascii) (u : Decimal.uint) (rest : string) :
  notDigit sep ->
  Text.split sep
    (DecimalString.NilEmpty.string_of_uint u ++ String sep rest)%string
  = DecimalString.NilEmpty.string_of_uint u :: Text.split sep rest /\
  Text.split sep (DecimalString.NilEmpty.string_of_uint u)
  = [DecimalString.NilEmpty.string_of_uint u].
Proof.
  intros Hsep.
  induction u as [| u IH | u IH | u IH | u IH | u IH | u IH | u IH | u IH
                  | u IH | u IH].
  { simpl. rewrite Ascii.eqb_refl. now split. }
  all: destruct IH as [IH1 IH2].
  all: cbn [DecimalString.NilEmpty.string_of_uint String.append Text.split].
  all: rewrite IH1, IH2.
  all: match goal with |- context [Ascii.eqb ?c ?s] =>
         first [
           rewrite (digit_neq_sep s (Decimal.D0 Decimal.Nil) c "" Hsep)
             by reflexivity |
           rewrite (digit_neq_sep s (Decimal.D1 Decimal.Nil) c "" Hsep)
             by reflexivity |
           rewrite (digit_neq_sep s (Decimal.D2 Decimal.Nil) c "" Hsep)
             by reflexivity |
           rewrite (digit_neq_sep s (Decimal.D3 Decimal.Nil) c "" Hsep)
             by reflexivity |
           rewrite (digit_neq_sep s (Decimal.D4 Decimal.Nil) c "" Hsep)
             by reflexivity |
           rewrite (digit_neq_sep s (Decimal.D5 Decimal.Nil) c "" Hsep)
             by reflexivity |
           rewrite (digit_neq_sep s (Decimal.D6 Decimal.Nil) c "" Hsep)
             by reflexivity |
           rewrite (digit_neq_sep s (Decimal.D7 Decimal.Nil) c "" Hsep)
             by reflexivity |
           rewrite (digit_neq_sep s (Decimal.D8 Decimal.Nil) c "" Hsep)
             by reflexivity |
           rewrite (digit_neq_sep s (Decimal.D9 Decimal.Nil) c "" Hsep)
             by reflexivity ]
       end.
  all: try (split; reflexivity).
  all: reflexivity.
Qed.

Lemma notDigit_colon : notDigit ":".
Proof. intros u. reflexivity. Qed.

Lemma notDigit_dash : notDigit "-".
Proof. intros u. reflexivity. Qed.

Lemma below_100 (P : Z -> Prop) :
  (forall k : nat, (k < 100)%nat -> P (Z.of_nat k)) ->
  forall n : Z, 0 <= n < 100 -> P n.
Proof.
  intros H n Hn. rewrite <- (Z2Nat.id n) by lia. apply H. lia.
Qed.

(** Two characters are enough for a number below 100. *)
Lemma padStart_length_2 (n : Z) :
  0 <= n < 100 ->
  String.length (Text.padStart 2 "0" (Text.toString (Num n))) = 2%nat.
Proof.
  revert n. apply below_100. intros k Hk.
  do 100 (destruct k as [| k]; [reflexivity |]). lia.
Qed.

Lemma padStart_numeral (n : Z) :
  0 <= n -> isNumeral (Text.padStart 2 "0" (Text.toString (Num n))) n.
Proof.
  intros Hn. apply fill_numeral. now apply toString_numeral.
Qed.

(** The prefix [formatTime] puts before a number below 10 is the padding
    of [padStart]. *)
Lemma formatTime_pad (n : Z) :
  0 <= n ->
  ((if Text.lt (Num n) (Num 10) then "0" else "")
   ++ Text.toString (Num n))%string
  = Text.padStart 2 "0" (Text.toString (Num n)) \/
  (10 <= n /\
   ((if Text.lt (Num n) (Num 10) then "0" else "")
    ++ Text.toString (Num n))%string = Text.toString (Num n)).
Proof.
  intros Hn. cbn [Text.lt].
  destruct (Z.ltb_spec n 10) as [Hlt | Hge].
  - left. revert n Hn Hlt.
    assert (H : forall n, 0 <= n < 100 -> n < 10 ->
              ("0" ++ Text.toString (Num n))%string
              = Text.padStart 2 "0" (Text.toString (Num n))).
    { apply (below_100 (fun n => n < 10 -> _)). intros k Hk Hlt.
      do 10 (destruct k as [| k]; [reflexivity |]). lia. }
    intros n Hn Hlt. apply H; lia.
  - right. now split.
Qed.

Lemma formatTime_field (n : Z) :
  0 <= n ->
  exists s : string,
    ((if Text.lt (Num n) (Num 10) then "0" else "")
     ++ Text.toString (Num n))%string = s /\
    isNumeral s n /\ (2 <= String.length s)%nat /\
    (n < 100 -> String.length s = 2%nat).
Proof.
  intros Hn. eexists. split; [reflexivity |].
  destruct (formatTime_pad n Hn) as [-> | [Hge ->]].
  - split; [now apply padStart_numeral |].
    destruct (Z.ltb_spec n 100) as [Hlt | Hge].
    + rewrite padStart_length_2 by lia. split; [lia | reflexivity].
    + split; [| lia].
      apply (numeral_length_ge_2 _ n); [now apply padStart_numeral | lia].
  - split; [now apply toString_numeral |].
    assert (H2 : (2 <= String.length (Text.toString (Num n)))%nat)
      by (apply (numeral_length_ge_2 _ n); [now apply toString_numeral | lia]).
    split; [exact H2 |].
    intros Hlt. rewrite <- (padStart_length_2 n) by lia.
    unfold Text.padStart.
    now replace (2 - String.length (Text.toString (Num n)))%nat with 0%nat
      by lia.
Qed.

(** X2. The timer display of a number of seconds from 0 to 2^53 (the
    range in which the double divides and prints as the integers do) has
    the shape [mm:ss]: splitting it at the colon gives two numerals, the
    second of two characters, which [parseInt] reads back as the minutes
    [secs / 60] and the seconds [secs mod 60]. *)
Theorem formatTime_decodes (secs : Z) :
  0 <= secs -> secs <= 2 ^ 53 ->
  exists mm ss : string,
    formatTime (Num secs) = (mm ++ ":" ++ ss)%string /\
    Text.split ":" (formatTime (Num secs)) = [mm; ss] /\
    JS.parseInt mm = Num (secs / 60) /\
    JS.parseInt ss = Num (secs mod 60) /\
    (2 <= String.length mm)%nat /\
    String.length ss = 2%nat.
Proof.
  intros Hs _.
  assert (Hm : 0 <= secs / 60) by (apply Z.div_pos; lia).
  assert (Hr : 0 <= Z.rem secs 60 < 60) by (apply Z.rem_bound_pos; lia).
  destruct (formatTime_field (secs / 60) Hm) as (mm & Emm & Nmm & Lmm & _).
  destruct (formatTime_field (Z.rem secs 60) (proj1 Hr))
    as (ss & Ess & Nss & _ & Lss).
  exists mm, ss.
  assert (E : formatTime (Num secs) = (mm ++ ":" ++ ss)%string).
  { unfold formatTime. cbn [Text.floor_div Text.rem Z.eqb].
    rewrite <- Emm, <- Ess.
    destruct (Text.lt (Num (secs / 60)) (Num 10)); reflexivity. }
  split; [exact E |].
  split.
  { rewrite E. destruct Nmm as (u & _ & -> & _), Nss as (v & _ & -> & _).
    change (":" ++ DecimalString.NilEmpty.string_of_uint v)%string
      with (String ":" (DecimalString.NilEmpty.string_of_uint v)).
    rewrite (proj1 (split_digits ":" u _ notDigit_colon)).
    now rewrite (proj2 (split_digits ":" v "" notDigit_colon)). }
  split; [now apply parseInt_numeral |].
  split; [rewrite <- Z.rem_mod_nonneg by lia; now apply parseInt_numeral |].
  split; [exact Lmm | apply Lss; lia].
Qed.

Lemma formatTime_decodes_witness :
  exists mm ss : string,
    Text.split ":" (formatTime (Num 1500)) = [mm; ss] /\
    JS.parseInt mm = Num 25 /\ JS.parseInt ss = Num 0.
Proof.
  destruct (formatTime_decodes 1500 ltac:(discriminate) ltac:(discriminate))
    as (mm & ss & _ & Hsplit & Hm & Hs & _).
  exists mm, ss. repeat split; assumption.
Defined.

(** *** Dates *)

(** Splitting [getToday] at the dashes gives back its three fields. *)
Lemma getToday_split (d : LocalDate) :
  validDate d ->
  Text.split "-" (getToday d)
  = [Text.toString (Num (getFullYear d));
     Text.padStart 2 "0" (Text.toString (Num (getMonth d + 1)));
     Text.padStart 2 "0" (Text.toString (Num (getDate d)))].
Proof.
  intros (Hy & Hm & Hd).
  assert (Ny := toString_numeral _ Hy).
  assert (Nm := padStart_numeral (getMonth d + 1) ltac:(lia)).
  assert (Nd := padStart_numeral (getDate d) ltac:(lia)).
  unfold getToday.
  destruct Ny as (u & _ & -> & _), Nm as (v & _ & -> & _),
           Nd as (w & _ & -> & _).
  cbn [String.append].
  rewrite (proj1 (split_digits "-" u _ notDigit_dash)).
  rewrite (proj1 (split_digits "-" v _ notDigit_dash)).
  now rewrite (proj2 (split_digits "-" w "" notDigit_dash)).
Qed.

(** X3. [getToday] can be read back: on a date of the common era,
    splitting the string at the dashes gives three fields that [parseInt]
    reads as the year, the month counted from 1 and the day of the month;
    month and day take two characters each. *)
Theorem getToday_decodes (d : LocalDate) :
  validDate d ->
  exists y m dd : string,
    Text.split "-" (getToday d) = [y; m; dd] /\
    JS.parseInt y = Num (getFullYear d) /\
    JS.parseInt m = Num (getMonth d + 1) /\
    JS.parseInt dd = Num (getDate d) /\
    String.length m = 2%nat /\ String.length dd = 2%nat.
Proof.
  intros Hd.
  exists (Text.toString (Num (getFullYear d))),
         (Text.padStart 2 "0" (Text.toString (Num (getMonth d + 1)))),
         (Text.padStart 2 "0" (Text.toString (Num (getDate d)))).
  split; [now apply getToday_split |].
  destruct Hd as (Hy & Hm & Hdd).
  split; [now apply parseInt_numeral, toString_numeral |].
  split; [apply parseInt_numeral, padStart_numeral; lia |].
  split; [apply parseInt_numeral, padStart_numeral; lia |].
  split; apply padStart_length_2; lia.
Qed.

Lemma getToday_decodes_witness :
  exists y m dd : string,
    Text.split "-"
      (getToday {| getFullYear := 2024; getMonth := 4; getDate := 1 |})
    = [y; m; dd] /\
    JS.parseInt y = Num 2024 /\ JS.parseInt m = Num 5 /\
    JS.parseInt dd = Num 1.
Proof.
  destruct (getToday_decodes
              {| getFullYear := 2024; getMonth := 4; getDate := 1 |})
    as (y & m & dd & Hs & Hy & Hm & Hd & _).
  { repeat split; discriminate. }
  exists y, m, dd. repeat split; assumption.
Defined.

(** X4. Two dates of the common era that differ in year, month or day
    get different [getToday] strings: the key of a Daily Statistic
    identifies its day. *)
Theorem getToday_injective (d1 d2 : LocalDate) :
  validDate d1 -> validDate d2 ->
  getToday d1 = getToday d2 -> d1 = d2.
Proof.
  intros H1 H2 E.
  destruct (getToday_decodes d1 H1) as (y1 & m1 & dd1 & S1 & Y1 & M1 & D1 & _).
  destruct (getToday_decodes d2 H2) as (y2 & m2 & dd2 & S2 & Y2 & M2 & D2 & _).
  rewrite E, S2 in S1. injection S1 as -> -> ->.
  rewrite Y2 in Y1. rewrite M2 in M1. rewrite D2 in D1.
  destruct d1 as [a1 b1 c1], d2 as [a2 b2 c2]; simpl in *.
  injection Y1 as ->. injection D1 as ->. injection M1 as M1.
  f_equal. lia.
Qed.

Lemma getToday_injective_witness :
  {| getFullYear := 2024; getMonth := 4; getDate := 1 |}
  = {| getFullYear := 2024; getMonth := 4; getDate := 1 |}.
Proof.
  apply getToday_injective.
  - repeat split; discriminate.
  - repeat split; discriminate.
  - reflexivity.
Defined.

(** X5. Both date labels undo the layout of [getToday]: for a date of the
    common era, the task list shows [Hoje] when the date is today's and
    day/month otherwise, and the chart axis shows day/month. *)
Theorem date_labels_of_getToday (today : string) (d : LocalDate) :
  validDate d ->
  let label :=
    (Text.padStart 2 "0" (Text.toString (Num (getDate d))) ++ "/" ++
     Text.padStart 2 "0" (Text.toString (Num (getMonth d + 1))))%string in
  formatDateDisplay today (getToday d)
  = (if String.eqb (getToday d) today then "Hoje" else label) /\
  tickFormatter (getToday d) = label.
Proof.
  intros Hd label. subst label.
  assert (Hs := getToday_split d Hd).
  split.
  - unfold formatDateDisplay. rewrite Hs. reflexivity.
  - unfold tickFormatter. rewrite Hs.
    destruct (String.eqb_spec (getToday d) "") as [E | _]; [| reflexivity].
    exfalso. rewrite E in Hs. discriminate Hs.
Qed.

Lemma date_labels_of_getToday_witness :
  formatDateDisplay "2024-05-01"
    (getToday {| getFullYear := 2024; getMonth := 3; getDate := 30 |})
  = "30/04".
Proof.
  refine (proj1 (date_labels_of_getToday "2024-05-01"
            {| getFullYear := 2024; getMonth := 3; getDate := 30 |} _)).
  repeat split; discriminate.
Defined.

(* ===================================================================== *)
(** ** What each handler does *)
(* ===================================================================== *)

Lemma switchMode_run (newMode : TimerMode) (w : World) :
  run (fun c => switchMode c newMode) w =
  {| app :=
       {| mode := newMode;
          timeLeft :=
            match newMode with
            | POMODORO =>
                match findTask (activeTaskId (app w)) (tasks (app w)) with
                | Some t => JS.mul (durationPerPomo t) (Num 60)
                | None => JS.mul (pomodoroTime (settings (app w))) (Num 60)
                end
            | BREAK => JS.mul (breakTime (settings (app w))) (Num 60)
            end;
          isActive := false;
          settings := settings (app w);
          tasks := tasks (app w);
          activeTaskId := activeTaskId (app w);
          dailyStats := dailyStats (app w) |};
     played := played w;
     interval := interval w |}.
Proof.
  destruct w as [[m tl ia st ts aid ds] pl iv].
  unfold_handlers; simpl.
  destruct newMode; [destruct (findTask aid ts) |]; reflexivity.
Qed.

Lemma addTask_run (uuid : string) (task : NewTask) (w : World) :
  run (addTask uuid task) w =
  {| app :=
       {| mode := mode (app w);
          timeLeft := timeLeft (app w);
          isActive := isActive (app w);
          settings := settings (app w);
          tasks :=
            tasks (app w) ++
            [ {| id := uuid; title := nt_title task; isCompleted := false;
                 estimatedPomos := nt_estimatedPomos task;
                 completedPomos := Num 0;
                 durationPerPomo := nt_durationPerPomo task;
                 date := nt_date task |} ];
          activeTaskId :=
            if JS.truthy_str (activeTaskId (app w))
            then activeTaskId (app w) else Some uuid;
          dailyStats := dailyStats (app w) |};
     played := played w;
     interval := interval w |}.
Proof.
  destruct w as [[m tl ia st ts aid ds] pl iv].
  unfold_handlers; simpl.
  destruct (JS.truthy_str aid); reflexivity.
Qed.

Lemma deleteTask_run (i : string) (w : World) :
  run (deleteTask i) w =
  {| app :=
       {| mode := mode (app w);
          timeLeft :=
            if JS.strict_eq_str i (activeTaskId (app w))
               && match mode (app w) with
                  | POMODORO => negb (isActive (app w))
                  | BREAK => false
                  end
            then JS.mul (pomodoroTime (settings (app w))) (Num 60)
            else timeLeft (app w);
          isActive := isActive (app w);
          settings := settings (app w);
          tasks := filter (fun t => negb (String.eqb (id t) i))
                          (tasks (app w));
          activeTaskId :=
            if JS.strict_eq_str i (activeTaskId (app w))
            then None else activeTaskId (app w);
          dailyStats := dailyStats (app w) |};
     played := played w;
     interval := interval w |}.
Proof.
  destruct w as [[m tl ia st ts aid ds] pl iv].
  unfold_handlers; simpl.
  destruct (JS.strict_eq_str i aid); [| reflexivity].
  destruct m; [destruct ia |]; reflexivity.
Qed.

Lemma selectTask_run (i : string) (w : World) :
  run (selectTask i) w =
  {| app :=
       {| mode := mode (app w);
          timeLeft :=
            match mode (app w),
                  find (fun t => String.eqb (id t) i) (tasks (app w)) with
            | POMODORO, Some task => JS.mul (durationPerPomo task) (Num 60)
            | _, _ => timeLeft (app w)
            end;
          isActive :=
            match mode (app w) with
            | POMODORO => false
            | BREAK => isActive (app w)
            end;
          settings := settings (app w);
          tasks := tasks (app w);
          activeTaskId := Some i;
          dailyStats := dailyStats (app w) |};
     played := played w;
     interval := interval w |}.
Proof.
  destruct w as [[m tl ia st ts aid ds] pl iv].
  unfold_handlers; simpl.
  destruct m; [| reflexivity].
  destruct (find _ ts); reflexivity.
Qed.

Lemma updateTaskDuration_run (i : string) (duration : number) (w : World) :
  run (updateTaskDuration i duration) w =
  {| app :=
       {| mode := mode (app w);
          timeLeft :=
            if JS.strict_eq_str i (activeTaskId (app w))
               && negb (isActive (app w))
               && match mode (app w) with
                  | POMODORO => true
                  | BREAK => false
                  end
            then JS.mul duration (Num 60)
            else timeLeft (app w);
          isActive := isActive (app w);
          settings := settings (app w);
          tasks :=
            map (fun t =>
                   if String.eqb (id t) i
                   then {| id := id t; title := title t;
                           isCompleted := isCompleted t;
                           estimatedPomos := estimatedPomos t;
                           completedPomos := completedPomos t;
                           durationPerPomo := duration; date := date t |}
                   else t) (tasks (app w));
          activeTaskId := activeTaskId (app w);
          dailyStats := dailyStats (app w) |};
     played := played w;
     interval := interval w |}.
Proof.
  destruct w as [[m tl ia st ts aid ds] pl iv].
  unfold_handlers; simpl.
  destruct (JS.strict_eq_str i aid && negb ia && _); reflexivity.
Qed.

Lemma handleBreakChange_run (newMinutes : number) (w : World) :
  run (fun c => handleBreakChange c newMinutes) w =
  {| app :=
       {| mode := mode (app w);
          timeLeft :=
            match mode (app w) with
            | BREAK => if isActive (app w) then timeLeft (app w)
                       else JS.mul newMinutes (Num 60)
            | POMODORO => timeLeft (app w)
            end;
          isActive := isActive (app w);
          settings :=
            {| pomodoroTime := pomodoroTime (settings (app w));
               breakTime := newMinutes;
               dailyGoalPomos := dailyGoalPomos (settings (app w));
               streak := streak (settings (app w));
               lastActiveDate := lastActiveDate (settings (app w)) |};
          tasks := tasks (app w);
          activeTaskId := activeTaskId (app w);
          dailyStats := dailyStats (app w) |};
     played := played w;
     interval := interval w |}.
Proof.
  destruct w as [[m tl ia st ts aid ds] pl iv].
  unfold_handlers; simpl.
  destruct m; [| destruct ia]; reflexivity.
Qed.

(* ===================================================================== *)
(** ** Invariants of the state *)
(* ===================================================================== *)

Lemma unit_eta (m : M unit) (w : World) : m w = (tt, snd (m w)).
Proof. now destruct (m w) as [[] w']. Qed.

(** A property of the state that ignores the timer fields and that the
    Completion transition keeps is kept by every commit. *)
Lemma commit_keeps (P : App -> Prop) :
  (forall c m tl ia, P c ->
     P {| mode := m; timeLeft := tl; isActive := ia;
          settings := settings c; tasks := tasks c;
          activeTaskId := activeTaskId c; dailyStats := dailyStats c |}) ->
  (forall today w, P (app w) -> P (app (run (handleTimerComplete today) w))) ->
  forall fuel today prev w, P (app w) -> P (app (commit fuel today prev w)).
Proof.
  intros Htimer Hcomplete fuel today.
  induction fuel as [| fuel IH]; intros prev w HP; simpl; [exact HP |].
  destruct (timerDepsChanged prev (app w) || durationDepsChanged prev (app w));
    [| exact HP].
  apply IH.
  assert (H1 : P (app (snd (when (timerDepsChanged prev (app w))
                              (timerCleanup ;; timerEffect today (app w)) w)))).
  { destruct (timerDepsChanged prev (app w)); [| exact HP].
    unfold when, bind, timerCleanup, clearInterval, timerEffect.
    cbn [fst snd].
    destruct (isActive (app w) && JS.gt (timeLeft (app w)) (Num 0));
      [exact HP |].
    destruct (JS.strict_eq (timeLeft (app w)) (Num 0) && isActive (app w));
      [| exact HP].
    exact (Hcomplete today
             {| app := app w; played := played w; interval := false |} HP). }
  unfold bind at 1.
  rewrite (unit_eta (when (timerDepsChanged prev (app w)) _) w).
  revert H1.
  generalize (snd (when (timerDepsChanged prev (app w))
                     (timerCleanup ;; timerEffect today (app w)) w)).
  intros w1 H1.
  unfold durationEffect, resetTimerToMode, setTimeLeft, modify, when, ret.
  destruct (durationDepsChanged prev (app w)); [| exact H1].
  destruct (negb (isActive (app w))); [| exact H1].
  destruct (mode (app w)); [destruct (findTask _ _) |]; cbn [snd app];
    destruct (app w1) as [m1 tl1 ia1 st1 ts1 aid1 ds1];
    exact (Htimer _ m1 _ ia1 H1).
Qed.

Lemma tick_keeps (P : App -> Prop) :
  (forall c m tl ia, P c ->
     P {| mode := m; timeLeft := tl; isActive := ia;
          settings := settings c; tasks := tasks c;
          activeTaskId := activeTaskId c; dailyStats := dailyStats c |}) ->
  (forall today w, P (app w) -> P (app (run (handleTimerComplete today) w))) ->
  forall fuel today w, P (app w) -> P (app (tick fuel today w)).
Proof.
  intros Htimer Hcomplete fuel today w HP. unfold tick.
  destruct (interval w); [| exact HP].
  apply commit_keeps; try assumption.
  unfold setTimeLeft, modify; cbn [snd app].
  destruct (app w) as [m1 tl1 ia1 st1 ts1 aid1 ds1].
  exact (Htimer _ m1 _ ia1 HP).
Qed.

Lemma step_keeps (P : App -> Prop) :
  (forall c m tl ia, P c ->
     P {| mode := m; timeLeft := tl; isActive := ia;
          settings := settings c; tasks := tasks c;
          activeTaskId := activeTaskId c; dailyStats := dailyStats c |}) ->
  (forall today w, P (app w) -> P (app (run (handleTimerComplete today) w))) ->
  forall fuel today e w,
    (P (app w) -> P (app (run (handlerOf today e) w))) ->
    P (app w) -> P (app (step fuel today e w)).
Proof.
  intros Htimer Hcomplete fuel today e w He HP.
  destruct e.
  13: exact (tick_keeps P Htimer Hcomplete fuel today w HP).
  all: unfold step, dispatch; apply commit_keeps; auto.
Qed.

Lemma map_id_update (p : Task -> bool) (f : Task -> Task) (l : list Task) :
  (forall t, id (f t) = id t) ->
  map id (map (fun t => if p t then f t else t) l) = map id l.
Proof.
  intros H. rewrite map_map. apply map_ext.
  intros t. destruct (p t); [apply H | reflexivity].
Qed.

Lemma map_id_filter (i : string) (l : list Task) :
  map id (filter (fun t => negb (String.eqb (id t) i)) l)
  = filter (fun x => negb (String.eqb x i)) (map id l).
Proof.
  induction l as [| t l IH]; simpl; [reflexivity |].
  destruct (negb (String.eqb (id t) i)); simpl; now rewrite IH.
Qed.

Lemma map_date_update (p : DailyStats -> bool) (f : DailyStats -> DailyStats)
  (l : list DailyStats) :
  (forall day, ds_date (f day) = ds_date day) ->
  map ds_date (map (fun day => if p day then f day else day) l)
  = map ds_date l.
Proof.
  intros H. rewrite map_map. apply map_ext.
  intros day. destruct (p day); [apply H | reflexivity].
Qed.

(** The ids of the tasks after a handler. *)
Lemma handler_ids (today : string) (e : Event) (w : World) :
  map id (tasks (app (run (handlerOf today e) w))) =
  match e with
  | AddTask uuid _ => map id (tasks (app w)) ++ [uuid]
  | DeleteTask i =>
      filter (fun x => negb (String.eqb x i)) (map id (tasks (app w)))
  | _ => map id (tasks (app w))
  end.
Proof.
  destruct e; cbn [handlerOf].
  - now destruct w as [[m tl ia st ts aid ds] pl iv].
  - now rewrite resetTimer_run.
  - destruct (mode (app w)) eqn:Em.
    + rewrite handleTimerComplete_focus by exact Em. cbn [app tasks].
      unfold bumpActive. destruct (JS.truthy_str _); [| reflexivity].
      now apply map_id_update.
    + now rewrite handleTimerComplete_break.
  - now rewrite switchMode_run.
  - unfold onBreakInputChange. now rewrite handleBreakChange_run.
  - rewrite addTask_run. cbn [app tasks]. now rewrite map_app.
  - rewrite deleteTask_run. cbn [app tasks]. apply map_id_filter.
  - now rewrite selectTask_run.
  - destruct (find (fun t => String.eqb (id t) i) (tasks (app w)))
      as [t |] eqn:Ef.
    + rewrite (toggleTask_found _ _ t) by exact Ef. cbn [app tasks].
      now apply map_id_update.
    + now rewrite toggleTask_missing.
  - destruct w as [[m tl ia st ts aid ds] pl iv].
    unfold onEditPomosChange; unfold_handlers; cbn [snd app tasks].
    now apply map_id_update.
  - unfold onEditDurationChange. rewrite updateTaskDuration_run.
    cbn [app tasks]. now apply map_id_update.
  - destruct w as [[m tl ia st ts aid ds] pl iv].
    unfold updateTaskDate; unfold_handlers; cbn [snd app tasks].
    now apply map_id_update.
  - reflexivity.
Qed.

(** The selected id after a handler. *)
Lemma handler_active (today : string) (e : Event) (w : World) :
  activeTaskId (app (run (handlerOf today e) w)) =
  match e with
  | AddTask uuid _ =>
      if JS.truthy_str (activeTaskId (app w))
      then activeTaskId (app w) else Some uuid
  | DeleteTask i =>
      if JS.strict_eq_str i (activeTaskId (app w))
      then None else activeTaskId (app w)
  | SelectTask i => Some i
  | _ => activeTaskId (app w)
  end.
Proof.
  destruct e; cbn [handlerOf].
  - now destruct w as [[m tl ia st ts aid ds] pl iv].
  - now rewrite resetTimer_run.
  - destruct (mode (app w)) eqn:Em.
    + now rewrite handleTimerComplete_focus.
    + now rewrite handleTimerComplete_break.
  - now rewrite switchMode_run.
  - unfold onBreakInputChange. now rewrite handleBreakChange_run.
  - now rewrite addTask_run.
  - now rewrite deleteTask_run.
  - now rewrite selectTask_run.
  - destruct (find (fun t => String.eqb (id t) i) (tasks (app w)))
      as [t |] eqn:Ef.
    + now rewrite (toggleTask_found _ _ t).
    + now rewrite toggleTask_missing.
  - now destruct w as [[m tl ia st ts aid ds] pl iv].
  - unfold onEditDurationChange. now rewrite updateTaskDuration_run.
  - now destruct w as [[m tl ia st ts aid ds] pl iv].
  - reflexivity.
Qed.

(** The crediting handlers keep the dates of the records. *)
Lemma credit_only_is_map_dates (today : string) (h : App -> M unit)
  (w : World) :
  h = handleTimerComplete today \/ (exists i, h = toggleTask today i) ->
  map ds_date (dailyStats (app (run h w))) = map ds_date (dailyStats (app w)).
Proof.
  intros Hh. destruct (credit_is_map today h w Hh) as (f & Hf & ->).
  now apply map_date_update.
Qed.

(** No handler adds, removes, reorders or re-dates a Daily Statistic. *)
Lemma handler_dates (today : string) (e : Event) (w : World) :
  map ds_date (dailyStats (app (run (handlerOf today e) w)))
  = map ds_date (dailyStats (app w)).
Proof.
  destruct e; cbn [handlerOf].
  - now destruct w as [[m tl ia st ts aid ds] pl iv].
  - now rewrite resetTimer_run.
  - apply (credit_only_is_map_dates today). now left.
  - now rewrite switchMode_run.
  - unfold onBreakInputChange. now rewrite handleBreakChange_run.
  - now rewrite addTask_run.
  - now rewrite deleteTask_run.
  - now rewrite selectTask_run.
  - apply (credit_only_is_map_dates today). right. now exists i.
  - now destruct w as [[m tl ia st ts aid ds] pl iv].
  - unfold onEditDurationChange. now rewrite updateTaskDuration_run.
  - now destruct w as [[m tl ia st ts aid ds] pl iv].
  - reflexivity.
Qed.

Lemma in_map_update {A : Type} (p : A -> bool) (f : A -> A) (l : list A)
  (y : A) :
  In y (map (fun x => if p x then f x else x) l) ->
  exists x, In x l /\ (y = x \/ y = f x).
Proof.
  rewrite in_map_iff. intros (x & <- & Hin). exists x.
  split; [exact Hin |]. destruct (p x); auto.
Qed.

Lemma isCount_succ (a : number) : isCount a -> isCount (JS.add a (Num 1)).
Proof. intros (n & -> & Hn). exists (n + 1). split; [reflexivity | lia]. Qed.

Lemma isCount_floor (a : number) (k : Z) :
  isCount a -> isCount (JS.math_max (Num 0) (JS.add a (Num k))).
Proof.
  intros (n & -> & Hn). exists (Z.max 0 (n + k)).
  split; [reflexivity | lia].
Qed.

Lemma handler_tasks_counts (today : string) (e : Event) (w : World) :
  (forall t, In t (tasks (app w)) -> isCount (completedPomos t)) ->
  forall t, In t (tasks (app (run (handlerOf today e) w))) ->
            isCount (completedPomos t).
Proof.
  intros H.
  assert (Hmap : forall (p : Task -> bool) (f : Task -> Task),
            (forall t, isCount (completedPomos t) ->
                       isCount (completedPomos (f t))) ->
            forall t, In t (map (fun t => if p t then f t else t)
                              (tasks (app w))) ->
                      isCount (completedPomos t)).
  { intros p f Hf t Ht.
    destruct (in_map_update _ _ _ _ Ht) as (x & Hx & [-> | ->]); auto. }
  destruct e; cbn [handlerOf].
  - now destruct w as [[m tl ia st ts aid ds] pl iv].
  - now rewrite resetTimer_run.
  - destruct (mode (app w)) eqn:Em.
    + rewrite handleTimerComplete_focus by exact Em. cbn [app tasks].
      unfold bumpActive. destruct (JS.truthy_str _); [| exact H].
      apply Hmap. intros t Ht. now apply isCount_succ.
    + now rewrite handleTimerComplete_break.
  - now rewrite switchMode_run.
  - unfold onBreakInputChange. now rewrite handleBreakChange_run.
  - rewrite addTask_run. cbn [app tasks]. intros t Ht.
    apply in_app_or in Ht. destruct Ht as [Ht | [<- | []]]; [now apply H |].
    exists 0. split; [reflexivity | lia].
  - rewrite deleteTask_run. cbn [app tasks]. intros t Ht.
    apply filter_In in Ht. now apply H.
  - now rewrite selectTask_run.
  - destruct (find (fun t => String.eqb (id t) i) (tasks (app w)))
      as [t0 |] eqn:Ef.
    + rewrite (toggleTask_found _ _ t0) by exact Ef. cbn [app tasks].
      now apply Hmap.
    + now rewrite toggleTask_missing.
  - destruct w as [[m tl ia st ts aid ds] pl iv].
    unfold onEditPomosChange; unfold_handlers; cbn [snd app tasks] in *.
    now apply Hmap.
  - unfold onEditDurationChange. rewrite updateTaskDuration_run.
    cbn [app tasks]. now apply Hmap.
  - destruct w as [[m tl ia st ts aid ds] pl iv].
    unfold updateTaskDate; unfold_handlers; cbn [snd app tasks] in *.
    now apply Hmap.
  - exact H.
Qed.

Lemma handler_stats_counts (today : string) (e : Event) (w : World) :
  (forall day, In day (dailyStats (app w)) ->
     isCount (pomodorosCompleted day) /\ isCount (breaksTaken day) /\
     isCount (tasksCompleted day)) ->
  forall day, In day (dailyStats (app (run (handlerOf today e) w))) ->
     isCount (pomodorosCompleted day) /\ isCount (breaksTaken day) /\
     isCount (tasksCompleted day).
Proof.
  intros H.
  assert (Hmap : forall (p : DailyStats -> bool) (f : DailyStats -> DailyStats),
            (forall day,
               isCount (pomodorosCompleted day) /\ isCount (breaksTaken day) /\
               isCount (tasksCompleted day) ->
               isCount (pomodorosCompleted (f day)) /\
               isCount (breaksTaken (f day)) /\
               isCount (tasksCompleted (f day))) ->
            forall day, In day (map (fun d => if p d then f d else d)
                                  (dailyStats (app w))) ->
               isCount (pomodorosCompleted day) /\ isCount (breaksTaken day) /\
               isCount (tasksCompleted day)).
  { intros p f Hf day Hd.
    destruct (in_map_update _ _ _ _ Hd) as (x & Hx & [-> | ->]); auto. }
  destruct e; cbn [handlerOf].
  - now destruct w as [[m tl ia st ts aid ds] pl iv].
  - now rewrite resetTimer_run.
  - destruct (mode (app w)) eqn:Em.
    + rewrite handleTimerComplete_focus by exact Em. cbn [app dailyStats].
      apply Hmap. intros day (H1 & H2 & H3). cbn.
      repeat split; auto. now apply isCount_succ.
    + rewrite handleTimerComplete_break by exact Em. cbn [app dailyStats].
      apply Hmap. intros day (H1 & H2 & H3). cbn.
      repeat split; auto. now apply isCount_succ.
  - now rewrite switchMode_run.
  - unfold onBreakInputChange. now rewrite handleBreakChange_run.
  - now rewrite addTask_run.
  - now rewrite deleteTask_run.
  - now rewrite selectTask_run.
  - destruct (find (fun t => String.eqb (id t) i) (tasks (app w)))
      as [t0 |] eqn:Ef.
    + rewrite (toggleTask_found _ _ t0) by exact Ef. cbn [app dailyStats].
      apply Hmap. intros day (H1 & H2 & H3).
      cbn [creditTask pomodorosCompleted breaksTaken tasksCompleted].
      repeat split; auto. destruct (negb (isCompleted t0));
        now apply isCount_floor.
    + now rewrite toggleTask_missing.
  - now destruct w as [[m tl ia st ts aid ds] pl iv].
  - unfold onEditDurationChange. now rewrite updateTaskDuration_run.
  - now destruct w as [[m tl ia st ts aid ds] pl iv].
  - exact H.
Qed.

Lemma handler_streak (today : string) (e : Event) (w : World) :
  isCount (streak (settings (app w))) ->
  isCount (streak (settings (app (run (handlerOf today e) w)))).
Proof.
  intros H. destruct e; cbn [handlerOf].
  - now destruct w as [[m tl ia st ts aid ds] pl iv].
  - now rewrite resetTimer_run.
  - destruct (mode (app w)) eqn:Em.
    + rewrite handleTimerComplete_focus by exact Em. cbn.
      now apply isCount_succ.
    + now rewrite handleTimerComplete_break.
  - now rewrite switchMode_run.
  - unfold onBreakInputChange. now rewrite handleBreakChange_run.
  - now rewrite addTask_run.
  - now rewrite deleteTask_run.
  - now rewrite selectTask_run.
  - destruct (find (fun t => String.eqb (id t) i) (tasks (app w)))
      as [t0 |] eqn:Ef.
    + now rewrite (toggleTask_found _ _ t0).
    + now rewrite toggleTask_missing.
  - now destruct w as [[m tl ia st ts aid ds] pl iv].
  - unfold onEditDurationChange. now rewrite updateTaskDuration_run.
  - now destruct w as [[m tl ia st ts aid ds] pl iv].
  - exact H.
Qed.

Lemma NoDup_snoc {A : Type} (l : list A) (x : A) :
  NoDup l -> ~ In x l -> NoDup (l ++ [x]).
Proof.
  induction l as [| a l IH]; intros Hl Hx; simpl.
  - constructor; [intros [] | constructor].
  - inversion Hl as [| ? ? Ha Hl']; subst. constructor.
    + intros Hin. apply in_app_or in Hin.
      destruct Hin as [Hin | [<- | []]]; [now apply Ha |].
      apply Hx. now left.
    + apply IH; [exact Hl' |]. intros Hin. apply Hx. now right.
Qed.

(** X6. Task ids stay unique: when no two tasks share an id, no event
    (a handler with its commit, or a tick) makes two tasks share one,
    [addTask] being given an id no task carries. *)
Theorem step_keeps_unique_ids
  (fuel : nat) (today : string) (e : Event) (w : World) :
  admissible e (app w) ->
  uniqueIds (app w) -> uniqueIds (app (step fuel today e w)).
Proof.
  intros Ha.
  apply (step_keeps uniqueIds).
  - intros c m tl ia H. exact H.
  - intros today' w' H. unfold uniqueIds.
    change (handleTimerComplete today') with (handlerOf today' PressSkip).
    now rewrite handler_ids.
  - unfold uniqueIds. rewrite handler_ids. intros H.
    destruct e; try exact H.
    + now apply NoDup_snoc.
    + now apply NoDup_filter.
Qed.

Lemma step_keeps_unique_ids_witness :
  uniqueIds
    (app (step 2 sampleToday
            (AddTask "t2" {| nt_title := "read"; nt_estimatedPomos := Num 1;
                             nt_durationPerPomo := Num 25;
                             nt_date := sampleToday |})
            sampleWorld)).
Proof.
  apply step_keeps_unique_ids.
  - simpl. intros [H | []]. discriminate H.
  - unfold uniqueIds. simpl. constructor; [intros [] | constructor].
Defined.

(** X7. The selected id never dangles: when [activeTaskId] is null or the
    id of a task of the list, it still is after every event; deleting the
    selected task clears the selection. *)
Theorem step_keeps_active_valid
  (fuel : nat) (today : string) (e : Event) (w : World) :
  admissible e (app w) ->
  activeNamesTask (app w) -> activeNamesTask (app (step fuel today e w)).
Proof.
  intros Ha.
  apply (step_keeps activeNamesTask).
  - intros c m tl ia H. exact H.
  - intros today' w' H. unfold activeNamesTask.
    change (handleTimerComplete today') with (handlerOf today' PressSkip).
    now rewrite handler_ids, handler_active.
  - unfold activeNamesTask. rewrite handler_ids, handler_active. intros H.
    destruct e; try exact H.
    + intros a Hact. apply in_or_app.
      destruct (JS.truthy_str (activeTaskId (app w))).
      * left. now apply H.
      * injection Hact as <-. right. now left.
    + intros a Hact.
      destruct (JS.strict_eq_str i (activeTaskId (app w))) eqn:E;
        [discriminate |].
      apply filter_In. split; [now apply H |].
      rewrite Hact in E. simpl in E.
      rewrite String.eqb_sym. now rewrite E.
    + intros a [= <-]. exact Ha.
Qed.

Lemma step_keeps_active_valid_witness :
  activeNamesTask (app (step 2 sampleToday (DeleteTask "t1") sampleWorld)).
Proof.
  apply step_keeps_active_valid.
  - exact I.
  - intros a [= <-]. simpl. now left.
Defined.

(** X8. No event adds, removes, reorders or re-dates a Daily Statistic:
    the list of the dates of the records is the same after every event
    (a handler with its commit, or a tick). *)
Theorem step_keeps_dates
  (fuel : nat) (today : string) (e : Event) (w : World) :
  map ds_date (dailyStats (app (step fuel today e w)))
  = map ds_date (dailyStats (app w)).
Proof.
  apply (step_keeps
           (fun c => map ds_date (dailyStats c)
                     = map ds_date (dailyStats (app w)))).
  - intros c m tl ia H. exact H.
  - intros today' w' H.
    change (handleTimerComplete today') with (handlerOf today' PressSkip).
    now rewrite handler_dates.
  - intros _. apply handler_dates.
  - reflexivity.
Qed.

(** X9. The counters stay counts: when [completedPomos] of every task,
    [pomodorosCompleted], [breaksTaken] and [tasksCompleted] of every
    record and the streak are non-negative integers, they still are after
    every event. *)
Theorem step_keeps_counters
  (fuel : nat) (today : string) (e : Event) (w : World) :
  countersOk (app w) -> countersOk (app (step fuel today e w)).
Proof.
  apply (step_keeps countersOk).
  - intros c m tl ia H. exact H.
  - intros today' w' (H1 & H2 & H3). repeat split.
    + exact (handler_tasks_counts today' PressSkip w' H1).
    + apply (handler_stats_counts today' PressSkip w' H2). assumption.
    + apply (handler_stats_counts today' PressSkip w' H2). assumption.
    + apply (handler_stats_counts today' PressSkip w' H2). assumption.
    + exact (handler_streak today' PressSkip w' H3).
  - intros (H1 & H2 & H3). repeat split.
    + exact (handler_tasks_counts today e w H1).
    + apply (handler_stats_counts today e w H2). assumption.
    + apply (handler_stats_counts today e w H2). assumption.
    + apply (handler_stats_counts today e w H2). assumption.
    + exact (handler_streak today e w H3).
Qed.

Lemma step_keeps_counters_witness :
  countersOk (app (step 2 sampleToday (ToggleTask "t1") sampleWorld)).
Proof.
  apply step_keeps_counters.
  assert (Z0 : isCount (Num 0)) by (exists 0; split; [reflexivity | lia]).
  repeat split.
  - intros t [<- | []]. exact Z0.
  - destruct H as [<- | [<- | []]]; exact Z0.
  - destruct H as [<- | [<- | []]]; exact Z0.
  - destruct H as [<- | [<- | []]]; exact Z0.
  - exact Z0.
Defined.

(** The duration settings after a handler: only the break input changes
    one, to a number that is at least 1. *)
Lemma handler_durations (today : string) (e : Event) (w : World) :
  pomodoroTime (settings (app (run (handlerOf today e) w)))
  = pomodoroTime (settings (app w)) /\
  (breakTime (settings (app (run (handlerOf today e) w)))
   = breakTime (settings (app w)) \/
   exists n : Z,
     1 <= n /\
     breakTime (settings (app (run (handlerOf today e) w))) = Num n).
Proof.
  destruct e; cbn [handlerOf].
  - destruct w as [[m tl ia st ts aid ds] pl iv]. split; [| left]; reflexivity.
  - rewrite resetTimer_run. split; [| left]; reflexivity.
  - destruct (mode (app w)) eqn:Em.
    + rewrite handleTimerComplete_focus by exact Em.
      split; [| left]; reflexivity.
    + rewrite handleTimerComplete_break by exact Em.
      split; [| left]; reflexivity.
  - rewrite switchMode_run. split; [| left]; reflexivity.
  - split.
    + unfold onBreakInputChange. now rewrite handleBreakChange_run.
    + right. destruct (break_input_guarded value w) as (n & Hn & Hb & _).
      now exists n.
  - rewrite addTask_run. split; [| left]; reflexivity.
  - rewrite deleteTask_run. split; [| left]; reflexivity.
  - rewrite selectTask_run. split; [| left]; reflexivity.
  - destruct (find (fun t => String.eqb (id t) i) (tasks (app w)))
      as [t0 |] eqn:Ef.
    + rewrite (toggleTask_found _ _ t0) by exact Ef.
      split; [| left]; reflexivity.
    + rewrite toggleTask_missing by exact Ef. split; [| left]; reflexivity.
  - destruct w as [[m tl ia st ts aid ds] pl iv]. split; [| left]; reflexivity.
  - unfold onEditDurationChange. rewrite updateTaskDuration_run.
    split; [| left]; reflexivity.
  - destruct w as [[m tl ia st ts aid ds] pl iv]. split; [| left]; reflexivity.
  - split; [| left]; reflexivity.
Qed.

(** X10. From a first run, whatever admissible events follow on the same
    day: task ids are unique, the selected id is null or names a task,
    the counters are non-negative integers, there is exactly one Daily
    Statistic, dated today, the focus duration is still 25 minutes and
    the break duration is a number at least 1. *)
Theorem reachable_invariants (fuel : nat) (today : string) (w : World) :
  Reachable fuel today w ->
  uniqueIds (app w) /\ activeNamesTask (app w) /\ countersOk (app w) /\
  map ds_date (dailyStats (app w)) = [today] /\
  pomodoroTime (settings (app w)) = Num 25 /\
  (exists n : Z, 1 <= n /\ breakTime (settings (app w)) = Num n).
Proof.
  induction 1 as [| e w Hr (Hids & Hact & Hcnt & Hdates & Hp & Hb) Ha].
  - assert (Z0 : isCount (Num 0)) by (exists 0; split; [reflexivity | lia]).
    unfold firstRun. rewrite startupEffect_run. cbn.
    rewrite String.eqb_refl. cbn.
    repeat split.
    + constructor.
    + intros a [=].
    + intros t [].
    + destruct H as [<- | []]; exact Z0.
    + destruct H as [<- | []]; exact Z0.
    + destruct H as [<- | []]; exact Z0.
    + exact Z0.
    + exists 5. split; [lia | reflexivity].
  - split; [now apply step_keeps_unique_ids |].
    split; [now apply step_keeps_active_valid |].
    split; [now apply step_keeps_counters |].
    split; [now rewrite step_keeps_dates |].
    apply (step_keeps
             (fun c => pomodoroTime (settings c) = Num 25 /\
                       exists n : Z, 1 <= n /\ breakTime (settings c) = Num n)).
    + intros c m tl ia H0. exact H0.
    + intros today' w' (H1 & H2).
      change (handleTimerComplete today') with (handlerOf today' PressSkip).
      destruct (handler_durations today' PressSkip w') as (E1 & [E2 | E2]).
      * now rewrite E1, E2.
      * now rewrite E1.
    + intros (H1 & H2).
      destruct (handler_durations today e w) as (E1 & [E2 | E2]).
      * now rewrite E1, E2.
      * now rewrite E1.
    + now split.
Qed.

Lemma reachable_invariants_witness :
  map ds_date
    (dailyStats
       (app (step 2 sampleToday PressSkip
               (step 2 sampleToday PressStartPause (firstRun sampleToday)))))
  = [sampleToday].
Proof.
  refine (proj1 (proj2 (proj2 (proj2
    (reachable_invariants 2 sampleToday _ _))))).
  apply reach_step; [| exact I].
  apply reach_step; [| exact I].
  apply reach_first.
Defined.

(* ===================================================================== *)
(** ** Renders settle *)
(* ===================================================================== *)

(** After the effects of one render the state is the one before them, or
    the timer is stopped and no duration setting moved. *)
Lemma round_effects (today : string) (b1 b2 : bool) (w : World) :
  let w1 := snd ((when b1 (timerCleanup ;; timerEffect today (app w)) ;;
                  when b2 (durationEffect (app w))) w) in
  app w1 = app w \/
  (isActive (app w1) = false /\ durationDepsChanged (app w) (app w1) = false).
Proof.
  destruct w as [[m tl ia st ts aid ds] pl iv].
  unfold durationDepsChanged.
  destruct b1, b2, ia; unfold_handlers; cbn.
  all: rewrite ?andb_false_r; cbn.
  all: try (left; reflexivity).
  all: try (destruct (JS.gt tl (Num 0)); cbn; [left; reflexivity |]).
  all: try (destruct (JS.strict_eq tl (Num 0)); cbn; [| left; reflexivity]).
  all: unfold_handlers; cbn.
  all: destruct m; cbn; rewrite ?object_is_refl;
    try destruct (JS.truthy_str aid); try destruct (find _ ts); cbn;
    rewrite ?object_is_refl; auto.
Qed.

Lemma commit_S (fuel : nat) (today : string) (prev : App) (w : World) :
  commit (S fuel) today prev w =
  if timerDepsChanged prev (app w) || durationDepsChanged prev (app w)
  then commit fuel today (app w)
         (snd ((when (timerDepsChanged prev (app w))
                  (timerCleanup ;; timerEffect today (app w)) ;;
                when (durationDepsChanged prev (app w))
                  (durationEffect (app w))) w))
  else w.
Proof. reflexivity. Qed.

(** X11. Renders settle: after any state change, two renders bring the
    effects to rest; more fuel gives the same result. *)
Theorem commit_settles (k : nat) (today : string) (prev : App) (w : World) :
  commit (2 + k) today prev w = commit 2 today prev w.
Proof.
  change (2 + k)%nat with (S (S k)).
  rewrite (commit_S (S k)), (commit_S 1).
  destruct (timerDepsChanged prev (app w) || durationDepsChanged prev (app w));
    [| reflexivity].
  destruct (round_effects today (timerDepsChanged prev (app w))
              (durationDepsChanged prev (app w)) w) as [E | [E1 E2]];
    cbv zeta in *.
  - rewrite (commit_S k), (commit_S 0).
    now rewrite E, timerDepsChanged_refl, durationDepsChanged_refl.
  - rewrite (commit_idle (S k)), (commit_idle 1) by assumption.
    reflexivity.
Qed.

(* ===================================================================== *)
(** ** Pause and resume *)
(* ===================================================================== *)

(** X12. Pause freezes the countdown and Resume takes it up where it
    was: pausing a running timer keeps [remaining], clears the interval
    and plays nothing, so that no later tick changes anything; pressing
    the button again gives back the running state. *)
Theorem pause_resume (fuel : nat) (today : string) (d : Z) (w : World) :
  (1 <= fuel)%nat -> 0 < d ->
  isActive (app w) = true -> timeLeft (app w) = Num d -> interval w = true ->
  let paused := dispatch fuel today toggleTimer w in
  paused = {| app := app (snd (setIsActive (fun _ => false) w));
              played := played w; interval := false |} /\
  (forall n : nat, ticks fuel today n paused = paused) /\
  dispatch fuel today toggleTimer paused = w.
Proof.
  intros Hf Hd Hia Htl Hiv.
  assert (Hp : dispatch fuel today toggleTimer w =
               {| app := app (snd (setIsActive (fun _ => false) w));
                  played := played w; interval := false |}).
  { unfold dispatch. rewrite commit_idle.
    - destruct w as [[m tl ia st ts aid ds] pl iv]; simpl in *; subst.
      unfold timerDepsChanged; simpl.
      destruct fuel; [lia | reflexivity].
    - destruct w as [[m tl ia st ts aid ds] pl iv]; simpl in *; subst.
      reflexivity.
    - destruct w as [[m tl ia st ts aid ds] pl iv]; simpl in *.
      unfold durationDepsChanged; simpl. now rewrite !object_is_refl. }
  cbv zeta. rewrite Hp.
  split; [reflexivity |].
  split; [intros n; now apply ticks_idle |].
  rewrite (start_runs fuel today d); try assumption.
  - destruct w as [[m tl ia st ts aid ds] pl iv]; simpl in *; subst.
    reflexivity.
  - destruct w as [[m tl ia st ts aid ds] pl iv]; reflexivity.
Qed.

Lemma pause_resume_witness :
  dispatch 2 sampleToday toggleTimer
    (dispatch 2 sampleToday toggleTimer (sampleRunning 90))
  = sampleRunning 90.
Proof.
  exact (proj2 (proj2 (pause_resume 2 sampleToday 90 (sampleRunning 90)
                         (le_S _ _ (le_n 1)) eq_refl eq_refl eq_refl
                         eq_refl))).
Defined.

(* ===================================================================== *)
(** ** Startup, again *)
(* ===================================================================== *)

Lemma find_date_app_zero (today : string) (ds : list DailyStats) :
  find (fun s => String.eqb (ds_date s) today) (ds ++ [zeroStats today])
  <> None.
Proof.
  induction ds as [| s ds IH]; simpl.
  - now rewrite String.eqb_refl.
  - destruct (String.eqb (ds_date s) today); [discriminate | exact IH].
Qed.

(** X13. The startup effect can run again without harm (as React's
    strict mode does): a second run changes nothing.  It also keeps the
    dates of the records distinct, and leaves at least one record dated
    today. *)
Theorem startup_idempotent (today : string) (w : World) :
  run (startupEffect today) (run (startupEffect today) w)
  = run (startupEffect today) w /\
  (uniqueDates (app w) -> uniqueDates (app (run (startupEffect today) w))) /\
  In today (map ds_date (dailyStats (app (run (startupEffect today) w)))).
Proof.
  rewrite !startupEffect_run. cbn [app played interval settings dailyStats
                                   mode timeLeft isActive tasks activeTaskId].
  destruct (find (fun s => String.eqb (ds_date s) today) (dailyStats (app w)))
    as [r |] eqn:Ef; cbv beta iota.
  - split; [| split].
    + rewrite Ef.
      destruct (String.eqb_spec today (lastActiveDate (settings (app w))))
        as [E | E].
      * now rewrite <- E, String.eqb_refl.
      * cbn. now rewrite String.eqb_refl.
    + auto.
    + cbn [dailyStats]. apply find_some in Ef. destruct Ef as [Hin E].
      apply String.eqb_eq in E. rewrite <- E. now apply in_map.
  - split; [| split].
    + destruct (find _ (dailyStats (app w) ++ [zeroStats today])) eqn:Ef';
        [| now apply find_date_app_zero in Ef'].
      destruct (String.eqb_spec today (lastActiveDate (settings (app w))))
        as [E | E].
      * now rewrite <- E, String.eqb_refl.
      * cbn. now rewrite String.eqb_refl.
    + unfold uniqueDates. intros H. cbn [dailyStats]. rewrite map_app. cbn.
      apply NoDup_snoc; [exact H |].
      intros Hin. apply in_map_iff in Hin. destruct Hin as (s & Hs & Hin).
      apply (find_none _ _ Ef) in Hin. apply String.eqb_neq in Hin.
      contradiction.
    + cbn [dailyStats]. rewrite map_app. apply in_or_app. right. now left.
Qed.

(* ===================================================================== *)
(** ** Handlers and the commit that follows *)
(* ===================================================================== *)

(** When a handler moves no duration setting and does not leave a
    running timer at zero, the commit adds nothing to the React state. *)
Lemma dispatch_app (fuel : nat) (today : string) (h : App -> M unit)
  (w : World) :
  durationDepsChanged (app w) (app (run h w)) = false ->
  (isActive (app (run h w)) = true ->
   JS.strict_eq (timeLeft (app (run h w))) (Num 0) = false) ->
  app (dispatch fuel today h w) = app (run h w) /\
  played (dispatch fuel today h w) = played (run h w).
Proof.
  unfold dispatch. generalize (run h w). intros w1 Hd Hz.
  destruct fuel as [| fuel]; [now split |].
  rewrite commit_S, Hd, orb_false_r.
  destruct (timerDepsChanged (app w) (app w1)); [| now split].
  assert (E : exists b,
    snd ((when true (timerCleanup ;; timerEffect today (app w1)) ;;
          when false (durationEffect (app w1))) w1)
    = {| app := app w1; played := played w1; interval := b |}).
  { unfold when, bind, ret, timerCleanup, clearInterval, timerEffect,
      setInterval.
    destruct (isActive (app w1)) eqn:Eia; cbn [andb].
    - rewrite (Hz eq_refl). cbn [andb].
      destruct (JS.gt (timeLeft (app w1)) (Num 0)); eexists; reflexivity.
    - rewrite andb_false_r. eexists; reflexivity. }
  destruct E as (b & ->).
  assert (Hs := commit_stable fuel today
                  {| app := app w1; played := played w1; interval := b |}).
  cbn [app] in Hs. rewrite Hs.
  now split.
Qed.

(** X14. A timer whose [remaining] is neither positive nor zero (NaN, or
    a negative number) can be started but never runs: Start sets the
    running flag and plays nothing, no interval is armed, and however
    many ticks are awaited nothing changes and no Completion happens. *)
Theorem stuck_timer_never_completes
  (fuel : nat) (today : string) (w : World) (n : nat) :
  (1 <= fuel)%nat ->
  isActive (app w) = false ->
  JS.gt (timeLeft (app w)) (Num 0) = false ->
  JS.strict_eq (timeLeft (app w)) (Num 0) = false ->
  let started := dispatch fuel today toggleTimer w in
  started = {| app := app (snd (setIsActive (fun _ => true) w));
               played := played w; interval := false |} /\
  ticks fuel today n started = started /\
  completions (ticks fuel today n started) = completions w.
Proof.
  intros Hf Hia Hgt Hz. cbv zeta.
  assert (E : dispatch fuel today toggleTimer w
              = {| app := app (snd (setIsActive (fun _ => true) w));
                   played := played w; interval := false |}).
  { destruct fuel as [| fuel]; [lia |].
    destruct w as [[m tl ia st ts aid ds] pl iv]; simpl in *; subst.
    unfold dispatch, run, toggleTimer. unfold_handlers. simpl.
    unfold timerDepsChanged, durationDepsChanged; simpl.
    rewrite !object_is_refl. simpl.
    unfold_handlers; simpl. rewrite Hgt, Hz. simpl.
    match goal with |- commit _ _ _ ?w' = _ =>
      change (commit fuel today (app w') w' = w') end.
    apply commit_stable. }
  rewrite E. split; [reflexivity |].
  rewrite ticks_idle by reflexivity.
  split; reflexivity.
Qed.

Lemma stuck_timer_never_completes_witness :
  completions
    (ticks 2 sampleToday 10
       (dispatch 2 sampleToday toggleTimer
          (withTimeLeft (Num (-300)) sampleWorld))) = 0%nat.
Proof.
  exact (proj2 (proj2
    (stuck_timer_never_completes 2 sampleToday
       (withTimeLeft (Num (-300)) sampleWorld) 10
       (le_S _ _ (le_n 1)) eq_refl eq_refl eq_refl))).
Defined.

(* ===================================================================== *)
(** ** The timer at rest *)
(* ===================================================================== *)

Lemma findTask_None (ts : list Task) : findTask None ts = None.
Proof.
  unfold findTask. induction ts as [| t ts IH]; simpl; [reflexivity | exact IH].
Qed.

(** With a valid duration in force, the total [resetTimer] compares with
    is the full duration, and it is a number. *)
Lemma durationValid_total (c : App) :
  durationValid c ->
  exists n : Z, fullDuration c = Num n /\ currentTotal c = Num n.
Proof.
  unfold durationValid, fullDuration, currentTotal, focusMinutes.
  destruct (mode c).
  - destruct (activeTaskId c) as [a |].
    + intros (Ha & t & n & Hf & Hd & Hn).
      rewrite Hf, Hd, (proj2 (truthy_str_Some a) Ha).
      unfold JS.or_else; simpl.
      destruct (Z.eqb_spec n 0); [contradiction |].
      now exists (n * 60).
    + intros (n & Hn). rewrite findTask_None, Hn. now exists (n * 60).
  - intros (n & Hn). rewrite Hn. now exists (n * 60).
Qed.

(** X15. Reset on a timer at rest does nothing: paused, with [remaining]
    at the full duration and a valid duration in force, [resetTimer]
    plays no cue and returns the state unchanged. *)
Theorem reset_at_rest_is_noop (w : World) :
  pristine (app w) -> durationValid (app w) -> run resetTimer w = w.
Proof.
  intros (Hia & Htl) Hv.
  destruct (durationValid_total _ Hv) as (n & Hfull & Htotal).
  rewrite resetTimer_run, Hia, Htotal, <- Htl.
  rewrite Htl, Hfull. unfold JS.strict_neq; simpl. rewrite Z.eqb_refl. simpl.
  destruct w as [[m tl ia st ts aid ds] pl iv]; simpl in *.
  now rewrite <- Hfull, <- Htl, <- Hia.
Qed.

Lemma reset_at_rest_is_noop_witness : run resetTimer sampleWorld = sampleWorld.
Proof.
  apply reset_at_rest_is_noop.
  - split; reflexivity.
  - split; [discriminate |].
    exists sampleTask, 50. repeat split. discriminate.
Defined.

(** X16. The handlers that retime the timer leave it at rest in the mode
    they arrive in: Switch Mode, Reset, the Completion transition,
    selecting a task of the list in Focus mode, and deleting the selected
    task in Focus mode with the timer paused. *)
Theorem retiming_handlers_leave_pristine
  (today : string) (h : App -> M unit) (w : World) :
  (exists newMode, h = fun c => switchMode c newMode) \/
  h = resetTimer \/
  h = handleTimerComplete today \/
  (exists i, h = selectTask i /\ mode (app w) = POMODORO /\
             In i (map id (tasks (app w)))) \/
  (exists i, h = deleteTask i /\ mode (app w) = POMODORO /\
             isActive (app w) = false /\ activeTaskId (app w) = Some i) ->
  pristine (app (run h w)).
Proof.
  unfold pristine, fullDuration.
  intros [(newMode & ->) | [-> | [-> | [(i & -> & Hm & Hi)
                                       | (i & -> & Hm & Hia & Ha)]]]].
  - rewrite switchMode_run. cbn. now destruct newMode.
  - rewrite resetTimer_run. cbn. split; [reflexivity |].
    unfold fullDuration. reflexivity.
  - destruct (mode (app w)) eqn:Em.
    + rewrite handleTimerComplete_focus by exact Em. now cbn.
    + rewrite handleTimerComplete_break by exact Em. now cbn.
  - rewrite selectTask_run, Hm. cbn. split; [reflexivity |].
    unfold findTask. cbn [JS.strict_eq_str].
    destruct (find (fun t => String.eqb (id t) i) (tasks (app w)))
      as [t |] eqn:Ef; [reflexivity |].
    exfalso. apply in_map_iff in Hi. destruct Hi as (t & Ht & Hin).
    apply (find_none _ _ Ef) in Hin. rewrite Ht, String.eqb_refl in Hin.
    discriminate.
  - rewrite deleteTask_run, Hm, Hia, Ha.
    cbn [app isActive timeLeft mode activeTaskId tasks settings
         JS.strict_eq_str].
    rewrite String.eqb_refl. cbn [andb negb].
    rewrite findTask_None. now split.
Qed.

Lemma retiming_handlers_leave_pristine_witness :
  pristine (app (run (selectTask "t1") (withTimeLeft (Num 7) sampleWorld))).
Proof.
  apply (retiming_handlers_leave_pristine sampleToday).
  right. right. right. left. exists "t1".
  repeat split. simpl. now left.
Defined.

(** X17. Adding a task never retimes the timer, not even when the new
    task becomes the selected one: [remaining], the mode and the running
    flag are as before.  So when no task was selected, the timer at rest
    in Focus mode showed [settings.pomodoroTime] and the new task has
    another override, a Reset that follows plays the fail cue and jumps
    to the override. *)
Theorem addTask_keeps_timer (uuid : string) (task : NewTask) (w : World) :
  let w' := run (addTask uuid task) w in
  (timeLeft (app w') = timeLeft (app w) /\
   mode (app w') = mode (app w) /\ isActive (app w') = isActive (app w) /\
   played w' = played w) /\
  (forall p n : Z,
     activeTaskId (app w) = None -> tasks (app w) = [] ->
     mode (app w) = POMODORO -> isActive (app w) = false ->
     pomodoroTime (settings (app w)) = Num p ->
     timeLeft (app w) = Num (p * 60) ->
     uuid <> "" -> nt_durationPerPomo task = Num n -> n <> 0 -> n <> p ->
     played (run resetTimer w') = fail :: played w /\
     timeLeft (app (run resetTimer w')) = Num (n * 60)).
Proof.
  cbv zeta. rewrite addTask_run. split; [now cbn |].
  intros p n Ha Hts Hm Hia Hp Htl Hu Hd Hn Hnp.
  rewrite resetTimer_run. cbn [app played mode timeLeft isActive].
  unfold currentTotal, fullDuration, focusMinutes, findTask.
  cbn [mode activeTaskId tasks settings].
  rewrite Ha, Hts, Hm, Hia, Htl, Hd. cbn.
  rewrite String.eqb_refl. cbn.
  rewrite (proj2 (String.eqb_neq _ _) Hu). cbn.
  unfold JS.or_else, JS.strict_neq. cbn.
  destruct (Z.eqb_spec n 0); [contradiction |]. cbn.
  destruct (Z.eqb_spec (p * 60) (n * 60)); [lia |]. cbn.
  now split.
Qed.

Lemma addTask_keeps_timer_witness :
  played
    (run resetTimer
       (run (addTask "u1" sampleNewTask) (firstRun sampleToday)))
  = [fail].
Proof.
  refine (proj1 (proj2 (addTask_keeps_timer "u1" sampleNewTask
                          (firstRun sampleToday))
                   25 50 eq_refl eq_refl eq_refl eq_refl eq_refl eq_refl
                   _ eq_refl _ _)); discriminate.
Defined.

(* ===================================================================== *)
(** ** Round trips on the task list *)
(* ===================================================================== *)

Lemma filter_fresh (uuid : string) (ts : list Task) (new : Task) :
  ~ In uuid (map id ts) -> id new = uuid ->
  filter (fun t => negb (String.eqb (id t) uuid)) (ts ++ [new]) = ts.
Proof.
  intros Hfresh Hnew. induction ts as [| t ts IH]; simpl.
  - now rewrite Hnew, String.eqb_refl.
  - destruct (String.eqb_spec (id t) uuid) as [E | E].
    + exfalso. apply Hfresh. now left.
    + simpl. f_equal. apply IH. intros Hin. apply Hfresh. now right.
Qed.

(** X18. Deleting a task right after adding it restores the task list,
    and the whole state when a task was selected before; when none was,
    the new task had become the selection, so the selection is cleared
    again and, in Focus mode with the timer paused, [remaining] is set
    to [settings.pomodoroTime * 60]. *)
Theorem add_then_delete (uuid : string) (task : NewTask) (w : World) :
  ~ In uuid (map id (tasks (app w))) ->
  activeNamesTask (app w) ->
  let w' := run (deleteTask uuid) (run (addTask uuid task) w) in
  tasks (app w') = tasks (app w) /\
  (JS.truthy_str (activeTaskId (app w)) = true -> w' = w) /\
  (activeTaskId (app w) = None ->
   activeTaskId (app w') = None /\
   timeLeft (app w') =
   match mode (app w), isActive (app w) with
   | POMODORO, false => JS.mul (pomodoroTime (settings (app w))) (Num 60)
   | _, _ => timeLeft (app w)
   end).
Proof.
  intros Hfresh Hact. cbv zeta.
  rewrite deleteTask_run, addTask_run.
  cbn [app tasks activeTaskId mode isActive settings timeLeft dailyStats
       played interval].
  rewrite filter_fresh by (auto; reflexivity).
  split; [reflexivity |]. split.
  - intros Ht. rewrite Ht.
    destruct (activeTaskId (app w)) as [a |] eqn:Ea; [| discriminate].
    assert (Hne : String.eqb uuid a = false).
    { apply String.eqb_neq. intros ->. apply Hfresh. now apply Hact. }
    cbn [JS.strict_eq_str]. rewrite Hne. cbn [andb].
    destruct w as [[m tl ia st ts aid ds] pl iv]; simpl in *. now subst.
  - intros Hn. rewrite Hn. cbn. rewrite String.eqb_refl. cbn.
    split; [reflexivity |].
    destruct (mode (app w)); [destruct (isActive (app w)) |]; reflexivity.
Qed.

Lemma add_then_delete_witness :
  run (deleteTask "t2") (run (addTask "t2" sampleNewTask) sampleWorld)
  = sampleWorld.
Proof.
  refine (proj1 (proj2 (add_then_delete "t2" sampleNewTask sampleWorld _ _))
            eq_refl).
  - simpl. intros [H | []]. discriminate H.
  - intros a [= <-]. simpl. now left.
Defined.

Lemma unique_id_eq (l : list Task) (t u : Task) :
  NoDup (map id l) -> In t l -> In u l -> id t = id u -> t = u.
Proof.
  induction l as [| x l IH]; intros Hnd Ht Hu E; [contradiction |].
  simpl in Hnd. inversion Hnd as [| ? ? Hx Hnd']; subst.
  destruct Ht as [-> | Ht], Hu as [-> | Hu].
  - reflexivity.
  - exfalso. apply Hx. rewrite E. now apply in_map.
  - exfalso. apply Hx. rewrite <- E. now apply in_map.
  - now apply IH.
Qed.

Lemma withFlag_same (u : Task) :
  {| id := id u; title := title u; isCompleted := isCompleted u;
     estimatedPomos := estimatedPomos u; completedPomos := completedPomos u;
     durationPerPomo := durationPerPomo u; date := date u |} = u.
Proof. now destruct u. Qed.

(** X19. Toggling an open task twice is a round trip: with unique ids
    and today's counter a non-negative integer, completing a task and
    un-completing it gives back the same tasks and the same statistics,
    one success cue having been played. *)
Theorem toggle_twice (today i : string) (t : Task) (w : World) :
  uniqueIds (app w) ->
  find (fun t => String.eqb (id t) i) (tasks (app w)) = Some t ->
  isCompleted t = false ->
  (forall day, In day (dailyStats (app w)) -> ds_date day = today ->
               isCount (tasksCompleted day)) ->
  let w' := run (toggleTask today i) (run (toggleTask today i) w) in
  app w' = app w /\ played w' = success :: played w.
Proof.
  intros Hids Hf Hopen Hcnt. cbv zeta.
  assert (Hin : In t (tasks (app w)) /\ id t = i).
  { apply find_some in Hf. destruct Hf as [Hin E].
    apply String.eqb_eq in E. now split. }
  destruct Hin as [Hin Hid].
  set (t1 := {| id := id t; title := title t; isCompleted := true;
                estimatedPomos := estimatedPomos t;
                completedPomos := completedPomos t;
                durationPerPomo := durationPerPomo t; date := date t |}).
  assert (Hf1 : find (fun t => String.eqb (id t) i)
                  (tasks (app (run (toggleTask today i) w))) = Some t1).
  { rewrite (toggleTask_found _ _ t) by exact Hf. cbn [app tasks].
    rewrite Hopen. cbn [negb].
    clear Hin Hids Hcnt. revert Hf.
    induction (tasks (app w)) as [| u ts IH]; [discriminate |].
    simpl. destruct (String.eqb (id u) i) eqn:E; simpl; rewrite E.
    - now intros [= ->].
    - exact IH. }
  rewrite (toggleTask_found _ _ t1) by exact Hf1.
  rewrite (toggleTask_found _ _ t) by exact Hf.
  cbn [app tasks dailyStats played interval mode timeLeft isActive settings
       activeTaskId isCompleted t1].
  rewrite Hopen. cbn [negb].
  split; [| reflexivity].
  assert (Hts : map (fun u => if String.eqb (id u) i
                     then {| id := id u; title := title u;
                             isCompleted := false;
                             estimatedPomos := estimatedPomos u;
                             completedPomos := completedPomos u;
                             durationPerPomo := durationPerPomo u;
                             date := date u |}
                     else u)
                (map (fun u => if String.eqb (id u) i
                      then {| id := id u; title := title u;
                              isCompleted := true;
                              estimatedPomos := estimatedPomos u;
                              completedPomos := completedPomos u;
                              durationPerPomo := durationPerPomo u;
                              date := date u |}
                      else u) (tasks (app w)))
              = tasks (app w)).
  { rewrite map_map. rewrite <- (map_id (tasks (app w))) at 2.
    apply map_ext_in. intros u Hu.
    destruct (String.eqb (id u) i) eqn:Eb; cbn [id]; rewrite Eb;
      [| reflexivity].
    apply String.eqb_eq in Eb.
    assert (u = t) by (apply (unique_id_eq (tasks (app w))); auto;
                       congruence).
    subst u. cbn. rewrite <- Hopen. apply withFlag_same. }
  assert (Hds : map (fun day => if String.eqb (ds_date day) today
                     then creditTask false day else day)
                (map (fun day => if String.eqb (ds_date day) today
                      then creditTask true day else day)
                   (dailyStats (app w)))
              = dailyStats (app w)).
  { rewrite map_map. rewrite <- (map_id (dailyStats (app w))) at 2.
    apply map_ext_in. intros day Hday.
    destruct (String.eqb (ds_date day) today) eqn:Eb;
      cbn [creditTask ds_date]; rewrite Eb; [| reflexivity].
    apply String.eqb_eq in Eb.
    destruct (Hcnt day Hday Eb) as (n & Hn & Hpos).
    destruct day as [dd pc mf bt tc]; cbn in *. subst tc.
    unfold creditTask.
    cbn [tasksCompleted ds_date pomodorosCompleted minutesFocused
         breaksTaken JS.add JS.math_max].
    do 2 f_equal. lia. }
  rewrite Hts, Hds. now destruct (app w).
Qed.

Lemma toggle_twice_witness :
  app (run (toggleTask sampleToday "t1")
         (run (toggleTask sampleToday "t1") sampleWorld))
  = sampleApp.
Proof.
  refine (proj1 (toggle_twice sampleToday "t1" sampleTask sampleWorld
                   _ eq_refl eq_refl _)).
  - unfold uniqueIds. simpl. constructor; [intros [] | constructor].
  - intros day [<- | [<- | []]] _; exists 0; split; try reflexivity; lia.
Defined.

(* ===================================================================== *)
(** ** The break input *)
(* ===================================================================== *)

(** A commit with the timer paused: the duration effect, when a duration
    setting changed, puts [remaining] at the full duration; nothing else
    moves in the React state and nothing is played. *)
Lemma commit_paused (fuel : nat) (today : string) (prev : App) (w : World) :
  isActive (app w) = false ->
  app (commit (S fuel) today prev w) =
  (if durationDepsChanged prev (app w)
   then app (withTimeLeft (fullDuration (app w)) w)
   else app w) /\
  played (commit (S fuel) today prev w) = played w.
Proof.
  intros Hia. rewrite commit_S.
  destruct (durationDepsChanged prev (app w)) eqn:Ed.
  - rewrite orb_true_r.
    assert (E : exists b,
      snd ((when (timerDepsChanged prev (app w))
              (timerCleanup ;; timerEffect today (app w)) ;;
            when true (durationEffect (app w))) w)
      = {| app := app (withTimeLeft (fullDuration (app w)) w);
           played := played w; interval := b |}).
    { destruct w as [[m tl ia st ts aid ds] pl iv]; cbn in Hia; subst ia.
      generalize (timerDepsChanged prev
                    (app {| app := {| mode := m; timeLeft := tl;
                                      isActive := false; settings := st;
                                      tasks := ts; activeTaskId := aid;
                                      dailyStats := ds |};
                            played := pl; interval := iv |})).
      intros b1.
      unfold_handlers; unfold withTimeLeft, fullDuration, findTask,
        setTimeLeft, modify; cbn.
      rewrite andb_false_r.
      destruct b1, m; cbn; try destruct (find _ ts); eexists; reflexivity. }
    destruct E as (b & ->).
    rewrite commit_idle.
    + now split.
    + cbn. destruct w as [[m tl ia st ts aid ds] pl iv]; exact Hia.
    + unfold durationDepsChanged.
      destruct w as [[m tl ia st ts aid ds] pl iv]; cbn.
      now rewrite !object_is_refl.
  - rewrite orb_false_r.
    destruct (timerDepsChanged prev (app w)); [| now split].
    assert (E : snd ((when true (timerCleanup ;; timerEffect today (app w)) ;;
                      when false (durationEffect (app w))) w)
                = {| app := app w; played := played w; interval := false |}).
    { destruct w as [[m tl ia st ts aid ds] pl iv]; cbn in Hia; subst ia.
      unfold_handlers; cbn. rewrite andb_false_r. reflexivity. }
    rewrite E.
    assert (Hs := commit_stable fuel today
                    {| app := app w; played := played w; interval := false |}).
    cbn [app] in Hs. rewrite Hs. now split.
Qed.

(** X20. The break field cannot break the timer: whatever text it
    receives while a Break is paused, [settings.breakTime] becomes the
    integer [max(1, parseInt(text))] (1 when the text is not a number)
    and [remaining] becomes that many minutes; nothing is played and the
    timer stays at rest. *)
Theorem break_input_step (fuel : nat) (today value : string) (w : World) :
  mode (app w) = BREAK -> isActive (app w) = false ->
  let n := match JS.parseInt value with
           | Num z => Z.max 1 z
           | NaN => 1
           end in
  let w' := step fuel today (BreakInput value) w in
  breakTime (settings (app w')) = Num n /\
  timeLeft (app w') = Num (n * 60) /\
  1 <= n /\ isActive (app w') = false /\ mode (app w') = BREAK /\
  played w' = played w.
Proof.
  intros Hm Hia n w'. subst w'. unfold step, dispatch. cbn [handlerOf].
  assert (Hrun : run (onBreakInputChange value) w =
                 {| app :=
                      {| mode := BREAK; timeLeft := Num (n * 60);
                         isActive := false;
                         settings :=
                           {| pomodoroTime := pomodoroTime (settings (app w));
                              breakTime := Num n;
                              dailyGoalPomos :=
                                dailyGoalPomos (settings (app w));
                              streak := streak (settings (app w));
                              lastActiveDate :=
                                lastActiveDate (settings (app w)) |};
                         tasks := tasks (app w);
                         activeTaskId := activeTaskId (app w);
                         dailyStats := dailyStats (app w) |};
                    played := played w; interval := interval w |}).
  { unfold onBreakInputChange. rewrite handleBreakChange_run, Hm, Hia.
    subst n. unfold JS.or_else.
    destruct (JS.parseInt value) as [z |]; cbn; [| reflexivity].
    destruct (Z.eqb_spec z 0) as [-> | Hz]; cbn; reflexivity. }
  assert (Hn : 1 <= n) by (subst n; destruct (JS.parseInt value); lia).
  rewrite Hrun.
  destruct fuel as [| fuel]; [cbn; auto 10 |].
  match goal with |- context [commit (S fuel) today ?p ?x] =>
    destruct (commit_paused fuel today p x eq_refl) as [Ea Ep] end.
  rewrite Ea, Ep. cbn [app played].
  destruct (durationDepsChanged _ _); cbn; auto 10.
Qed.

Lemma break_input_step_witness :
  timeLeft
    (app (step 2 sampleToday (BreakInput "abc")
            (run (fun c => switchMode c BREAK) sampleWorld)))
  = Num 60.
Proof.
  exact (proj1 (proj2
    (break_input_step 2 sampleToday "abc"
       (run (fun c => switchMode c BREAK) sampleWorld) eq_refl eq_refl))).
Defined.

(* ===================================================================== *)
(** ** Sums *)
(* ===================================================================== *)

Lemma add_Num_inv (x y : number) (r : Z) :
  JS.add x y = Num r -> exists a b, x = Num a /\ y = Num b /\ r = a + b.
Proof.
  destruct x as [a |], y as [b |]; simpl; try discriminate.
  intros [= <-]. now exists a, b.
Qed.

Lemma add_0_l (a : number) : JS.add (Num 0) a = a.
Proof. now destruct a. Qed.

(** A [reduce] that adds [g] of each element is the sum of [g]. *)
Lemma fold_left_sumR {A : Type} (g : A -> number) (l : list A)
  (acc : number) :
  fold_left (fun a x => JS.add a (g x)) l acc = JS.add acc (sumR g l).
Proof.
  revert acc. induction l as [| x l IH]; intros acc; simpl.
  - symmetry. apply add_0_r.
  - rewrite IH. apply add_assoc.
Qed.

Lemma sumR_filter {A : Type} (p : A -> bool) (g : A -> number) (l : list A) :
  sumR g (filter p l) = sumR (fun x => if p x then g x else Num 0) l.
Proof.
  induction l as [| x l IH]; simpl; [reflexivity |].
  destruct (p x); simpl; rewrite IH; [reflexivity |].
  symmetry. apply add_0_l.
Qed.

(** Updating the elements of key [k] where no element has it changes no
    sum. *)
Lemma sumR_update_absent {A : Type} (key : A -> string) (g : A -> number)
  (f : A -> A) (k : string) (l : list A) :
  ~ In k (map key l) ->
  sumR g (map (fun x => if String.eqb (key x) k then f x else x) l)
  = sumR g l.
Proof.
  intros H. induction l as [| x l IH]; simpl; [reflexivity |].
  destruct (String.eqb_spec (key x) k) as [E | E].
  - exfalso. apply H. now left.
  - rewrite IH; [reflexivity |]. intros Hin. apply H. now right.
Qed.

(** With unique keys, updating the element of key [k] so that its term
    grows by [delta] makes the sum grow by [delta]. *)
Lemma sumR_update {A : Type} (key : A -> string) (g : A -> number)
  (f : A -> A) (k : string) (delta : Z) (l : list A) :
  NoDup (map key l) -> In k (map key l) ->
  (forall x v, In x l -> key x = k -> g x = Num v ->
               g (f x) = Num (v + delta)) ->
  forall r : Z,
    sumR g l = Num r ->
    sumR g (map (fun x => if String.eqb (key x) k then f x else x) l)
    = Num (r + delta).
Proof.
  induction l as [| x l IH]; intros Hnd Hin Hf r Hr; [contradiction |].
  simpl in Hnd. inversion Hnd as [| ? ? Hx Hnd']; subst.
  simpl in Hr. apply add_Num_inv in Hr.
  destruct Hr as (a & b & Ha & Hb & ->).
  simpl. destruct (String.eqb_spec (key x) k) as [E | E].
  - rewrite (sumR_update_absent key g f k l) by (now rewrite <- E).
    rewrite (Hf x a (or_introl eq_refl) E Ha), Hb. simpl. f_equal. lia.
  - destruct Hin as [Hin | Hin]; [contradiction |].
    rewrite (IH Hnd' Hin) with (r := b); auto.
    + rewrite Ha. simpl. f_equal. lia.
    + intros y v Hy. apply Hf. now right.
Qed.

(* ===================================================================== *)
(** ** Remaining workload *)
(* ===================================================================== *)

Lemma remainingPomosToday_sumR (today : string) (ts : list Task) :
  remainingPomosToday today ts =
  sumR (fun t =>
          if negb (isCompleted t) && String.eqb (date t) today
          then JS.math_max (Num 0)
                 (JS.sub (estimatedPomos t) (completedPomos t))
          else Num 0) ts.
Proof.
  unfold remainingPomosToday.
  rewrite (fold_left_sumR
             (fun t => JS.math_max (Num 0)
                         (JS.sub (estimatedPomos t) (completedPomos t)))).
  now rewrite add_0_l, sumR_filter.
Qed.

Lemma findTask_Some (a : string) (ts : list Task) (t : Task) :
  findTask (Some a) ts = Some t -> In t ts /\ id t = a.
Proof.
  unfold findTask. intros H. apply find_some in H.
  destruct H as [Hin E]. split; [exact Hin |]. now apply String.eqb_eq.
Qed.

(** X21. A finished Focus session shows in the workload of the day: with
    unique task ids, when the selected task is open, dated today and
    still short of its estimate, the Completion transition lowers
    [remainingPomosToday] by exactly one; when the selected task is
    completed, dated another day or already at its estimate, the figure
    does not move. *)
Theorem focus_completion_lowers_remaining
  (today : string) (w : World) (a : string) (t : Task) (e c r : Z) :
  mode (app w) = POMODORO ->
  uniqueIds (app w) ->
  activeTaskId (app w) = Some a -> a <> "" ->
  findTask (Some a) (tasks (app w)) = Some t ->
  estimatedPomos t = Num e -> completedPomos t = Num c ->
  remainingPomosToday today (tasks (app w)) = Num r ->
  remainingPomosToday today
    (tasks (app (run (handleTimerComplete today) w)))
  = Num (if negb (isCompleted t) && String.eqb (date t) today && (c <? e)
         then r - 1 else r).
Proof.
  intros Hm Hids Ha Hne Hf He Hc Hr.
  destruct (findTask_Some _ _ _ Hf) as [Hin Hid].
  rewrite handleTimerComplete_focus by exact Hm. cbn [app tasks].
  unfold bumpActive. rewrite Ha, (proj2 (truthy_str_Some a) Hne).
  cbn [JS.strict_eq_str].
  rewrite remainingPomosToday_sumR in *.
  set (delta := if negb (isCompleted t) && String.eqb (date t) today
                   && (c <? e) then -1 else 0).
  replace (if negb (isCompleted t) && String.eqb (date t) today && (c <? e)
           then r - 1 else r) with (r + delta)
    by (subst delta; destruct (_ && _ && _); lia).
  apply (sumR_update id); auto.
  - rewrite <- Hid. now apply in_map.
  - intros x v Hx Hxa Hv.
    assert (x = t) by (apply (unique_id_eq (tasks (app w))); auto;
                       congruence).
    subst x. revert Hv. cbn [withCompletedPomos isCompleted date
                             estimatedPomos completedPomos].
    rewrite He, Hc. subst delta.
    destruct (negb (isCompleted t) && String.eqb (date t) today); cbn.
    + intros [= <-]. f_equal. destruct (Z.ltb_spec c e); lia.
    + intros [= <-]. reflexivity.
Qed.

Lemma focus_completion_lowers_remaining_witness :
  remainingPomosToday "2024-05-02"
    (tasks (app (run (handleTimerComplete "2024-05-02") sampleWorld)))
  = Num 2.
Proof.
  exact (focus_completion_lowers_remaining "2024-05-02" sampleWorld "t1"
           sampleTask 3 0 3 eq_refl
           (NoDup_cons "t1" (fun H : In "t1" [] => H) (NoDup_nil string))
           eq_refl ltac:(discriminate) eq_refl eq_refl eq_refl eq_refl).
Defined.

Lemma fold_left_same {A B : Type} (F G : A -> B -> A) (l : list B) (acc : A) :
  (forall a x, F a x = G a x) -> fold_left F l acc = fold_left G l acc.
Proof.
  intros H. revert acc. induction l as [| x l IH]; intros acc; simpl;
    [reflexivity |].
  now rewrite H, IH.
Qed.

(** The two sums of the footer over a list of well-formed tasks. *)
Lemma footer_sums (l : list Task) :
  (forall t, In t l ->
     exists e c d : Z,
       estimatedPomos t = Num e /\ completedPomos t = Num c /\
       durationPerPomo t = Num d /\ 0 <= d) ->
  exists r m : Z,
    sumR (fun t => JS.math_max (Num 0)
                     (JS.sub (estimatedPomos t) (completedPomos t))) l
    = Num r /\
    sumR (fun t =>
            JS.add
              (JS.mul (JS.math_max (Num 0)
                         (JS.sub (estimatedPomos t) (completedPomos t)))
                      (durationPerPomo t))
              (JS.mul (JS.math_max (Num 0)
                         (JS.sub (estimatedPomos t) (completedPomos t)))
                      (Num 5))) l
    = Num m /\
    0 <= r /\ 5 * r <= m /\ (r = 0 -> m = 0).
Proof.
  induction l as [| t l IH]; intros H.
  - exists 0, 0. cbn. repeat split; lia.
  - destruct (H t (or_introl eq_refl)) as (e & c & d & He & Hc & Hd & Hpos).
    destruct IH as (r & m & Hr & Hm & Hr0 & Hrm & Hz).
    { intros u Hu. apply H. now right. }
    exists (Z.max 0 (e - c) + r),
           (Z.max 0 (e - c) * d + Z.max 0 (e - c) * 5 + m).
    unfold sumR in *. cbn [fold_right]. rewrite Hr, Hm, He, Hc, Hd.
    cbn [JS.sub JS.math_max JS.mul JS.add].
    repeat split; try reflexivity; try nia.
Qed.

(** X22. The footer of the task list is consistent: when every open task
    dated today has integer estimate and count and a non-negative integer
    duration, [remainingPomosToday] is a non-negative integer [r], no
    finish time is computed when [r] is 0, and when [r] is positive the
    finish time lies at least [5 * r] minutes ahead. *)
Theorem finish_time_iff_remaining (today : string) (ts : list Task) :
  (forall t, In t ts -> isCompleted t = false -> date t = today ->
     exists e c d : Z,
       estimatedPomos t = Num e /\ completedPomos t = Num c /\
       durationPerPomo t = Num d /\ 0 <= d) ->
  exists r : Z,
    remainingPomosToday today ts = Num r /\ 0 <= r /\
    (r = 0 -> calculateFinishTime today ts = None) /\
    (0 < r -> exists m : Z,
       calculateFinishTime today ts = Some (Num m) /\ 5 * r <= m).
Proof.
  intros H.
  unfold remainingPomosToday, calculateFinishTime.
  set (l := filter (fun t => negb (isCompleted t) && String.eqb (date t) today)
                   ts).
  destruct (footer_sums l) as (r & m & Hr & Hm & Hr0 & Hrm & Hz).
  { intros t Ht. apply filter_In in Ht. destruct Ht as [Hin Hp].
    apply andb_true_iff in Hp. destruct Hp as [Hopen Hd].
    apply H; [exact Hin | | now apply String.eqb_eq].
    now destruct (isCompleted t). }
  exists r.
  rewrite (fold_left_sumR
             (fun t => JS.math_max (Num 0)
                         (JS.sub (estimatedPomos t) (completedPomos t)))),
    Hr.
  split; [reflexivity |]. split; [exact Hr0 |].
  rewrite (fold_left_same _
             (fun a t =>
                JS.add a
                  (JS.add
                     (JS.mul (JS.math_max (Num 0)
                                (JS.sub (estimatedPomos t) (completedPomos t)))
                             (durationPerPomo t))
                     (JS.mul (JS.math_max (Num 0)
                                (JS.sub (estimatedPomos t) (completedPomos t)))
                             (Num 5)))))
    by (intros a t; apply add_assoc).
  rewrite (fold_left_sumR
             (fun t =>
                JS.add
                  (JS.mul (JS.math_max (Num 0)
                             (JS.sub (estimatedPomos t) (completedPomos t)))
                          (durationPerPomo t))
                  (JS.mul (JS.math_max (Num 0)
                             (JS.sub (estimatedPomos t) (completedPomos t)))
                          (Num 5)))),
    Hm.
  cbn [JS.add Z.add JS.strict_eq].
  split.
  - intros ->. rewrite (Hz eq_refl).
    destruct (Nat.eqb (List.length l) 0); reflexivity.
  - intros Hpos. exists m.
    destruct l as [| t l'] eqn:El.
    + cbn in Hr. injection Hr as <-. lia.
    + cbn [List.length Nat.eqb].
      destruct (Z.eqb_spec m 0); [lia |]. now split.
Qed.

Lemma finish_time_iff_remaining_witness :
  exists m : Z,
    calculateFinishTime "2024-05-02" [sampleTask] = Some (Num m) /\ 15 <= m.
Proof.
  destruct (finish_time_iff_remaining "2024-05-02" [sampleTask])
    as (r & Hr & _ & _ & Hpos).
  - intros t [<- | []] _ _. exists 3, 0, 50. repeat split. discriminate.
  - injection Hr as <-. apply Hpos. reflexivity.
Defined.

(* ===================================================================== *)
(** ** Totals of the report *)
(* ===================================================================== *)

Lemma existsb_key {A : Type} (key : A -> string) (k : string) (l : list A) :
  existsb (fun x => String.eqb (key x) k) l = true <-> In k (map key l).
Proof.
  rewrite existsb_exists, in_map_iff. split.
  - intros (x & Hx & E). exists x. split; [now apply String.eqb_eq | exact Hx].
  - intros (x & E & Hx). exists x. split; [exact Hx | now apply String.eqb_eq].
Qed.

Lemma sumR_update_present {A : Type} (key : A -> string) (g : A -> number)
  (f : A -> A) (k : string) (delta : Z) (l : list A) (r : Z) :
  NoDup (map key l) ->
  (forall x v, In x l -> key x = k -> g x = Num v ->
               g (f x) = Num (v + delta)) ->
  sumR g l = Num r ->
  sumR g (map (fun x => if String.eqb (key x) k then f x else x) l)
  = Num (r + (if existsb (fun x => String.eqb (key x) k) l
              then delta else 0)).
Proof.
  intros Hnd Hf Hr.
  destruct (existsb (fun x => String.eqb (key x) k) l) eqn:E.
  - apply sumR_update; auto. now apply existsb_key.
  - rewrite sumR_update_absent, Hr; [f_equal; lia |].
    intros Hin. apply existsb_key in Hin. congruence.
Qed.

(** X23. The totals of the report follow the Completion transitions:
    with at most one record per date, a Break completion raises the total
    of breaks by one and a Focus completion raises the total of minutes
    by the minutes credited, when a record is dated today; without such a
    record both totals stay as they were (the credit is lost); the other
    total does not move. *)
Theorem report_totals_after_completion
  (today : string) (w : World) (b f : Z) :
  uniqueDates (app w) ->
  totalBreaks (dailyStats (app w)) = Num b ->
  totalMinutesFocused (dailyStats (app w)) = Num f ->
  let present : Z :=
    if existsb (fun d => String.eqb (ds_date d) today) (dailyStats (app w))
    then 1 else 0 in
  let ds' := dailyStats (app (run (handleTimerComplete today) w)) in
  (mode (app w) = BREAK ->
   totalBreaks ds' = Num (b + present) /\ totalMinutesFocused ds' = Num f) /\
  (forall m : Z,
     mode (app w) = POMODORO -> focusMinutes (app w) = Num m ->
     totalMinutesFocused ds' = Num (f + present * m) /\
     totalBreaks ds' = Num b).
Proof.
  intros Hnd Hb Hf present ds'. subst ds'.
  unfold totalBreaks, totalMinutesFocused in *.
  rewrite (fold_left_sumR breaksTaken), add_0_l in Hb.
  rewrite (fold_left_sumR minutesFocused), add_0_l in Hf.
  rewrite (fold_left_sumR breaksTaken), (fold_left_sumR minutesFocused),
    !add_0_l.
  split.
  - intros Hm. rewrite handleTimerComplete_break by exact Hm.
    cbn [app dailyStats]. split.
    + rewrite (sumR_update_present ds_date breaksTaken creditBreak today 1
                 _ b); auto.
      intros x v _ _ Hv. cbn. now rewrite Hv.
    + rewrite (sumR_update_present ds_date minutesFocused creditBreak today 0
                 _ f); auto.
      * f_equal. destruct (existsb _ _); lia.
      * intros x v _ _ Hv. cbn. rewrite Hv. f_equal. lia.
  - intros m Hm Hfm. rewrite handleTimerComplete_focus by exact Hm.
    cbn [app dailyStats]. rewrite Hfm. split.
    + rewrite (sumR_update_present ds_date minutesFocused
                 (creditFocus (Num m)) today m _ f); auto.
      * f_equal. subst present. destruct (existsb _ _); lia.
      * intros x v _ _ Hv. cbn. now rewrite Hv.
    + rewrite (sumR_update_present ds_date breaksTaken
                 (creditFocus (Num m)) today 0 _ b); auto.
      * f_equal. destruct (existsb _ _); lia.
      * intros x v _ _ Hv. cbn. rewrite Hv. f_equal. lia.
Qed.

Lemma report_totals_after_completion_witness :
  totalMinutesFocused
    (dailyStats (app (run (handleTimerComplete sampleToday) sampleWorld)))
  = Num 50.
Proof.
  refine (proj1 (proj2
    (report_totals_after_completion sampleToday sampleWorld 0 0 _
       eq_refl eq_refl) 50 eq_refl eq_refl)).
  unfold uniqueDates. simpl.
  constructor; [intros [H | []]; discriminate H |].
  constructor; [intros [] | constructor].
Defined.

(** X24. Completing a task shows in the report: with at most one record
    per date and today's [tasksCompleted] a non-negative integer,
    toggling an open task raises the total of completed tasks by one when
    a record is dated today, and leaves it as it was when none is. *)
Theorem report_tasks_total_after_toggle
  (today i : string) (t : Task) (w : World) (c : Z) :
  uniqueDates (app w) ->
  find (fun t => String.eqb (id t) i) (tasks (app w)) = Some t ->
  isCompleted t = false ->
  (forall day, In day (dailyStats (app w)) -> ds_date day = today ->
               isCount (tasksCompleted day)) ->
  totalTasksCompleted (dailyStats (app w)) = Num c ->
  totalTasksCompleted (dailyStats (app (run (toggleTask today i) w)))
  = Num (c + (if existsb (fun d => String.eqb (ds_date d) today)
                   (dailyStats (app w))
              then 1 else 0)).
Proof.
  intros Hnd Hf Hopen Hcnt Hc.
  rewrite (toggleTask_found _ _ t) by exact Hf. cbn [app dailyStats].
  rewrite Hopen. cbn [negb].
  unfold totalTasksCompleted in *.
  rewrite (fold_left_sumR
             (fun d => JS.or_else (tasksCompleted d) (Num 0))), add_0_l in Hc.
  rewrite (fold_left_sumR
             (fun d => JS.or_else (tasksCompleted d) (Num 0))), add_0_l.
  apply sumR_update_present; auto.
  intros x v Hx Hd Hv.
  destruct (Hcnt x Hx Hd) as (n & Hn & Hpos).
  revert Hv. cbn [creditTask tasksCompleted]. rewrite Hn.
  unfold JS.or_else. cbn [JS.truthy JS.add JS.math_max].
  destruct (Z.eqb_spec n 0) as [E | E]; cbn [negb]; intros [= <-].
  - subst n. reflexivity.
  - destruct (Z.eqb_spec (Z.max 0 (n + 1)) 0); [lia |].
    cbn [negb]. f_equal. lia.
Qed.

Lemma report_tasks_total_after_toggle_witness :
  totalTasksCompleted
    (dailyStats (app (run (toggleTask sampleToday "t1") sampleWorld)))
  = Num 1.
Proof.
  refine (report_tasks_total_after_toggle sampleToday "t1" sampleTask
            sampleWorld 0 _ eq_refl eq_refl _ eq_refl).
  - unfold uniqueDates. simpl.
    constructor; [intros [H | []]; discriminate H |].
    constructor; [intros [] | constructor].
  - intros day [<- | [<- | []]] _; exists 0; split; try reflexivity; lia.
Defined.

(* ===================================================================== *)
(** ** The chart *)
(* ===================================================================== *)

(** X25. The chart shows the last records, seven at most: [chartData]
    is the suffix of [dailyStats] of length [min 7 n]; in particular a
    record the startup effect has just created for today is its last
    point. *)
Theorem chart_shows_last_records (today : string) (w : World) :
  let data := dailyStats (app (run (startupEffect today) w)) in
  (exists older, data = older ++ chartData data) /\
  List.length (chartData data) = Nat.min 7 (List.length data) /\
  ((forall day, In day (dailyStats (app w)) -> ds_date day <> today) ->
   last (chartData data) (zeroStats "") = zeroStats today).
Proof.
  cbv zeta. set (data := dailyStats (app (run (startupEffect today) w))).
  split; [| split].
  - exists (firstn (List.length data - 7) data). unfold chartData.
    symmetry. apply firstn_skipn.
  - unfold chartData. rewrite length_skipn. lia.
  - intros Hnone. subst data. rewrite startupEffect_run. cbn [app dailyStats].
    rewrite (proj2 (find_none_iff today _) Hnone).
    unfold chartData.
    generalize (dailyStats (app w)). intros ds.
    rewrite length_app. cbn [List.length].
    rewrite skipn_app.
    replace (List.length ds + 1 - 7 - List.length ds)%nat with 0%nat by lia.
    cbn [skipn]. apply last_last.
Qed.

(* ===================================================================== *)
(** ** The task counters of the dashboard *)
(* ===================================================================== *)

Lemma count_sumR {A : Type} (q : A -> bool) (l : list A) :
  Num (Z.of_nat (List.length (filter q l)))
  = sumR (fun x => if q x then Num 1 else Num 0) l.
Proof.
  induction l as [| x l IH]; [reflexivity |].
  cbn [filter sumR fold_right]. fold (sumR (fun x => if q x then Num 1 else Num 0) l).
  rewrite <- IH. destruct (q x); cbn [List.length JS.add].
  - f_equal. lia.
  - reflexivity.
Qed.

(** X26. The dashboard counts tasks by their own date, unlike the
    statistic: with unique ids, completing an open task leaves the total
    of today's tasks as it was and raises the number of completed ones by
    one when the task is dated today, and not at all when it is dated
    another day. *)
Theorem dashboard_counts_after_toggle
  (today i : string) (t : Task) (w : World) :
  uniqueIds (app w) ->
  find (fun t => String.eqb (id t) i) (tasks (app w)) = Some t ->
  isCompleted t = false ->
  let w' := run (toggleTask today i) w in
  tasksCountTotal today (app w') = tasksCountTotal today (app w) /\
  exists k : Z,
    tasksCountCompleted today (app w) = Num k /\
    tasksCountCompleted today (app w')
    = Num (if String.eqb (date t) today then k + 1 else k).
Proof.
  intros Hids Hf Hopen. cbv zeta.
  assert (Hin : In t (tasks (app w)) /\ id t = i).
  { apply find_some in Hf. destruct Hf as [Hin E].
    apply String.eqb_eq in E. now split. }
  destruct Hin as [Hin Hid].
  assert (Hkey : In i (map id (tasks (app w))))
    by (rewrite <- Hid; now apply in_map).
  unfold tasksCountTotal, tasksCountCompleted, tasksForToday.
  rewrite (toggleTask_found _ _ t) by exact Hf. cbn [app tasks].
  rewrite Hopen. cbn [negb].
  rewrite !count_sumR, !sumR_filter.
  split.
  - rewrite <- !count_sumR.
    rewrite <- (Z.add_0_r (Z.of_nat (List.length (filter _ (tasks (app w)))))).
    rewrite count_sumR.
    apply (sumR_update id); auto.
    + intros x v _ _ Hv. cbn [date]. rewrite Hv. f_equal. lia.
    + now rewrite <- count_sumR.
  - exists (Z.of_nat
              (List.length
                 (filter (fun x => isCompleted x)
                    (filter (fun x => String.eqb (date x) today)
                       (tasks (app w)))))).
    split; [now rewrite count_sumR, sumR_filter |].
    replace (if String.eqb (date t) today
             then Z.of_nat (List.length
                    (filter (fun x => isCompleted x)
                       (filter (fun x => String.eqb (date x) today)
                          (tasks (app w))))) + 1
             else Z.of_nat (List.length
                    (filter (fun x => isCompleted x)
                       (filter (fun x => String.eqb (date x) today)
                          (tasks (app w))))))
      with (Z.of_nat (List.length
              (filter (fun x => isCompleted x)
                 (filter (fun x => String.eqb (date x) today)
                    (tasks (app w)))))
            + (if String.eqb (date t) today then 1 else 0))
      by (destruct (String.eqb (date t) today); lia).
    apply (sumR_update id); auto.
    + intros x v Hx Hxi Hv.
      assert (x = t) by (apply (unique_id_eq (tasks (app w))); auto;
                         congruence).
      subst x. revert Hv. cbn [date isCompleted]. rewrite Hopen.
      destruct (String.eqb (date t) today); intros [= <-]; reflexivity.
    + now rewrite count_sumR, sumR_filter.
Qed.

Lemma dashboard_counts_after_toggle_witness :
  tasksCountCompleted sampleToday
    (app (run (toggleTask sampleToday "t1") sampleWorld)) = Num 0 /\
  tasksCountCompleted "2024-05-02"
    (app (run (toggleTask sampleToday "t1") sampleWorld)) = Num 1.
Proof.
  assert (U : uniqueIds (app sampleWorld)).
  { unfold uniqueIds. simpl. constructor; [intros [] | constructor]. }
  split.
  - destruct (dashboard_counts_after_toggle sampleToday "t1" sampleTask
                sampleWorld U eq_refl eq_refl) as (_ & k & Hk & Hk').
    injection Hk as <-. exact Hk'.
  - reflexivity.
Defined.

(* ===================================================================== *)
(** ** The add-task form *)
(* ===================================================================== *)

Lemma skip_spaces_empty (s : string) :
  JS.skip_spaces s = "" <-> allSpaces s = true.
Proof.
  induction s as [| c r IH]; simpl; [tauto |].
  destruct (JS.is_space c); simpl; [exact IH |].
  split; discriminate.
Qed.

Lemma allSpaces_skip (s : string) :
  allSpaces (JS.skip_spaces s) = allSpaces s.
Proof.
  induction s as [| c r IH]; simpl; [reflexivity |].
  destruct (JS.is_space c) eqn:E; simpl; [exact IH | now rewrite E].
Qed.

Lemma allSpaces_rev (s acc : string) :
  allSpaces (JS.rev_string s acc) = allSpaces s && allSpaces acc.
Proof.
  revert acc. induction s as [| c r IH]; intros acc; simpl; [reflexivity |].
  rewrite IH. simpl. destruct (JS.is_space c), (allSpaces r); reflexivity.
Qed.

Lemma rev_string_empty (s acc : string) :
  JS.rev_string s acc = "" <-> s = "" /\ acc = "".
Proof.
  revert acc. induction s as [| c r IH]; intros acc; simpl.
  - tauto.
  - rewrite IH. split; [intros [_ H]; discriminate | intros [H _]; discriminate].
Qed.

(** [trim] gives the empty string exactly on white space. *)
Lemma trim_empty (s : string) : JS.trim s = "" <-> allSpaces s = true.
Proof.
  unfold JS.trim. rewrite rev_string_empty, skip_spaces_empty, allSpaces_rev,
    allSpaces_skip, andb_true_r. tauto.
Qed.

(** X27. The add-task form accepts a title of ASCII characters exactly
    when it has a character that is not white space.  A blank title
    changes neither the form nor the application; otherwise one task is
    appended with the title, estimate, duration and date of the form, not
    completed and with no session done, and the form is reset except for
    its duration field.  (A title with characters outside ASCII is not
    covered: [trim] also strips white space such as the no-break
    space.) *)
Theorem handleSubmit_cases (today uuid : string) (f : TaskForm) :
  asciiOnly (newTaskTitle f) = true ->
  (allSpaces (newTaskTitle f) = true ->
   fst (handleSubmit today uuid f) = f /\
   forall w, run (snd (handleSubmit today uuid f)) w = w) /\
  (allSpaces (newTaskTitle f) = false ->
   fst (handleSubmit today uuid f)
   = {| isAdding := false; newTaskTitle := ""; estPomos := Num 1;
        customDuration := customDuration f; taskDate := today |} /\
   forall w,
     tasks (app (run (snd (handleSubmit today uuid f)) w))
     = tasks (app w) ++
       [ {| id := uuid; title := newTaskTitle f; isCompleted := false;
            estimatedPomos := estPomos f; completedPomos := Num 0;
            durationPerPomo := customDuration f; date := taskDate f |} ]).
Proof.
  intros _. unfold handleSubmit. split; intros H.
  - rewrite (proj2 (String.eqb_eq _ _) (proj2 (trim_empty _) H)).
    split; [reflexivity |]. intros w. now destruct w.
  - assert (E : String.eqb (JS.trim (newTaskTitle f)) "" = false).
    { apply String.eqb_neq. intros Ht. apply trim_empty in Ht. congruence. }
    rewrite E. split; [reflexivity |].
    intros w. cbn [snd]. now rewrite addTask_run.
Qed.

Lemma handleSubmit_cases_witness :
  run (snd (handleSubmit sampleToday "u9"
              (onTitleChange "   " (initialForm sampleToday)))) sampleWorld
  = sampleWorld /\
  List.length
    (tasks (app (run (snd (handleSubmit sampleToday "u9"
                             (onTitleChange "read"
                                (initialForm sampleToday))))
                   sampleWorld)))
  = 2%nat.
Proof.
  split.
  - exact (proj2 (proj1 (handleSubmit_cases sampleToday "u9"
                           (onTitleChange "   " (initialForm sampleToday))
                           eq_refl)
                    eq_refl) sampleWorld).
  - rewrite (proj2 (proj2 (handleSubmit_cases sampleToday "u9"
                             (onTitleChange "read" (initialForm sampleToday))
                             eq_refl)
                      eq_refl) sampleWorld).
    reflexivity.
Defined.

(* ===================================================================== *)
(** ** Events that record nothing *)
(* ===================================================================== *)

(** A commit in which the timer effect, if it runs, finds the timer
    stopped runs no Completion: only the timer fields can move. *)
Lemma commit_quiet (fuel : nat) (today : string) (prev : App) (w : World) :
  (timerDepsChanged prev (app w) = true -> isActive (app w) = false) ->
  dailyStats (app (commit fuel today prev w)) = dailyStats (app w) /\
  settings (app (commit fuel today prev w)) = settings (app w) /\
  tasks (app (commit fuel today prev w)) = tasks (app w) /\
  activeTaskId (app (commit fuel today prev w)) = activeTaskId (app w) /\
  played (commit fuel today prev w) = played w.
Proof.
  intros Hq. destruct fuel as [| fuel]; [cbn; auto |].
  destruct (isActive (app w)) eqn:Hia.
  - rewrite commit_S.
    destruct (timerDepsChanged prev (app w)); [now discriminate Hq |].
    cbn [orb].
    destruct (durationDepsChanged prev (app w)); [| auto].
    assert (E : snd ((when false (timerCleanup ;; timerEffect today (app w)) ;;
                      when true (durationEffect (app w))) w) = w).
    { unfold when, bind, ret, durationEffect. rewrite Hia. reflexivity. }
    rewrite E, commit_stable. auto.
  - destruct (commit_paused fuel today prev w Hia) as [Ea Ep].
    rewrite Ea, Ep.
    destruct (durationDepsChanged prev (app w)); auto.
Qed.

Lemma timerDeps_same (c c' : App) :
  isActive c' = isActive c -> timeLeft c' = timeLeft c ->
  timerDepsChanged c c' = false.
Proof.
  intros E1 E2. unfold timerDepsChanged.
  now rewrite E1, E2, Bool.eqb_reflx, object_is_refl.
Qed.

(** What a quiet handler leaves alone, and that it never leaves a moved
    timer running. *)
Lemma quiet_run (today : string) (e : Event) (w : World) :
  quiet e = true ->
  dailyStats (app (run (handlerOf today e) w)) = dailyStats (app w) /\
  streak (settings (app (run (handlerOf today e) w)))
  = streak (settings (app w)) /\
  completions (run (handlerOf today e) w) = completions w /\
  (timerDepsChanged (app w) (app (run (handlerOf today e) w)) = true ->
   isActive (app (run (handlerOf today e) w)) = false).
Proof.
  destruct e; cbn [quiet handlerOf]; try discriminate; intros _.
  - rewrite resetTimer_run. cbn. unfold completions. cbn.
    destruct (isActive (app w) || _); cbn; auto.
  - rewrite switchMode_run. cbn. auto.
  - unfold onBreakInputChange. rewrite handleBreakChange_run. cbn.
    repeat split; try reflexivity.
    destruct (isActive (app w)) eqn:E; [| reflexivity].
    rewrite timerDeps_same; [discriminate | cbn; congruence |].
    cbn. now destruct (mode (app w)).
  - rewrite addTask_run. cbn. repeat split; try reflexivity.
    now rewrite timerDeps_same.
  - rewrite deleteTask_run. cbn. repeat split; try reflexivity.
    destruct (isActive (app w)) eqn:E; [| reflexivity].
    rewrite timerDeps_same; [discriminate | cbn; congruence |].
    cbn. now destruct (JS.strict_eq_str i (activeTaskId (app w))),
                      (mode (app w)).
  - rewrite selectTask_run. cbn. repeat split; try reflexivity.
    destruct (mode (app w)); [reflexivity |].
    now rewrite timerDeps_same.
  - destruct w as [[m tl ia st ts aid ds] pl iv].
    unfold onEditPomosChange; unfold_handlers; cbn.
    repeat split; try reflexivity. now rewrite timerDeps_same.
  - unfold onEditDurationChange. rewrite updateTaskDuration_run. cbn.
    repeat split; try reflexivity.
    destruct (isActive (app w)) eqn:E; [| reflexivity].
    rewrite timerDeps_same; [discriminate | cbn; congruence |].
    cbn. now destruct (JS.strict_eq_str i (activeTaskId (app w))).
  - destruct w as [[m tl ia st ts aid ds] pl iv].
    unfold updateTaskDate; unfold_handlers; cbn.
    repeat split; try reflexivity. now rewrite timerDeps_same.
Qed.

(** X28. Only a Completion and the toggle of a task record anything:
    Reset, Switch Mode, the break field and selecting, adding, deleting
    or editing a task, each with the commit that follows, leave the Daily
    Statistics and the streak exactly as they were and cause no
    Completion. *)
Theorem quiet_events_record_nothing
  (fuel : nat) (today : string) (e : Event) (w : World) :
  quiet e = true ->
  dailyStats (app (step fuel today e w)) = dailyStats (app w) /\
  streak (settings (app (step fuel today e w))) = streak (settings (app w)) /\
  completions (step fuel today e w) = completions w.
Proof.
  intros Hq.
  destruct (quiet_run today e w Hq) as (Hds & Hst & Hc & Ht).
  assert (E : step fuel today e w
              = commit fuel today (app w) (run (handlerOf today e) w))
    by (destruct e; try discriminate Hq; reflexivity).
  rewrite E.
  destruct (commit_quiet fuel today (app w) (run (handlerOf today e) w) Ht)
    as (Cds & Cst & _ & _ & Cpl).
  rewrite Cds, Cst. unfold completions in *. rewrite Cpl.
  auto.
Qed.

Lemma quiet_events_record_nothing_witness :
  dailyStats (app (step 2 sampleToday (SelectTask "t1") (sampleRunning 90)))
  = dailyStats sampleApp.
Proof.
  exact (proj1 (quiet_events_record_nothing 2 sampleToday (SelectTask "t1")
                  (sampleRunning 90) eq_refl)).
Defined.
